(** * House Points: a shallow embedding of [script.js]

    The application keeps one JSON document in [localStorage] and the
    signed-in user in [sessionStorage].  Every handler reads the document
    with [loadData], mutates the parsed object and writes it back with
    [saveData].  The embedding follows that shape: a [Document] record, a
    store holding an optional document, and one function per handler that
    threads the store explicitly.

    Conventions used throughout:
    - JavaScript strings are [string]s whose characters are Latin-1 code
      units; [trim] and [toLowerCase] are written out for that range.
    - point balances, amounts and identifiers are integer-valued
      JavaScript numbers and are taken as [Z].  Where the script adds to
      a balance the sum is rounded to a double ([JsNumber.add]), exact
      up to 2^53; where it turns digits into a number and back into
      text, [String(parseInt(v, 10))] in [normalizeGrade], the rounding
      and the ECMAScript number-to-string rules are written out.
    - a missing or non-array field is [None]; [null] house ids are [None].
    - [JSON.parse (JSON.stringify d)] is the identity on documents. *)

From Stdlib Require Import ZArith NArith List String Ascii Lia Bool Sorted.
From stdpp Require Import base decidable option gmap.
Import ListNotations.

Open Scope string_scope.
Open Scope Z_scope.

(** ** Strings *)

Module JsString.

(** White space and line terminators removed by [String.prototype.trim],
    restricted to code units below 256. *)
Definition isWhiteSpace (c : ascii) : bool :=
  let n := N_of_ascii c in
  ((9 <=? n) && (n <=? 13) || (n =? 32) || (n =? 160))%N.

Fixpoint trimStart (s : string) : string :=
  match s with
  | EmptyString => EmptyString
  | String c r => if isWhiteSpace c then trimStart r else s
  end.

Fixpoint trimEnd (s : string) : string :=
  match s with
  | EmptyString => EmptyString
  | String c r =>
      match trimEnd r with
      | EmptyString => if isWhiteSpace c then EmptyString else String c EmptyString
      | r' => String c r'
      end
  end.

Definition trim (s : string) : string := trimEnd (trimStart s).

(** [toLowerCase] on one Latin-1 code unit: A-Z and the accented
    capitals (all of C0-DE but the multiplication sign). *)
Definition lowerChar (c : ascii) : ascii :=
  let n := N_of_ascii c in
  if ((65 <=? n) && (n <=? 90)
      || (192 <=? n) && (n <=? 222) && negb (n =? 215))%N
  then ascii_of_N (n + 32) else c.

Fixpoint toLowerCase (s : string) : string :=
  match s with
  | EmptyString => EmptyString
  | String c r => String (lowerChar c) (toLowerCase r)
  end.

Definition startsWith (s p : string) : bool := String.prefix p s.

Definition isDigit (c : ascii) : bool :=
  let n := N_of_ascii c in ((48 <=? n) && (n <=? 57))%N.

End JsString.

Import JsString.

(** ** The persisted document *)

Record User := mkUser {
  u_username : string;
  u_password : string;
  u_role : string;
  u_name : option string;
  u_houseId : option Z;
  u_gradeAccess : option (list string);
  u_accessibleStudentIds : option (list Z)
}.

Record House := mkHouse {
  h_id : Z;
  h_name : string;
  h_color : option string;
  h_points : Z;
  h_logo : option string
}.

Record Student := mkStudent {
  s_id : Z;
  s_name : string;
  s_grade : string;
  s_houseId : option Z;
  s_points : Z;
  s_photo : option string
}.

Record Transaction := mkTxn {
  t_id : Z;
  t_timestamp : string;
  t_teacherUsername : string;
  t_studentId : Z;
  t_houseId : option Z;
  t_amount : Z;
  t_note : string
}.

Record Reward := mkReward {
  r_id : Z;
  r_name : string;
  r_cost : Z
}.

(** [houseLimits] is a JavaScript object keyed by house id.  The limit
    input stores [Math.max(0, parseInt(v, 10))]; an entry is kept here as
    the number [parseInt] reads from it, [None] when that is [NaN] (a
    stored [NaN] comes back from JSON as [null]). *)
Record Document := mkDocument {
  users : list User;
  houses : list House;
  students : list Student;
  transactions : list Transaction;
  rewards : list Reward;
  houseLimits : gmap Z (option Z);
  nextHouseId : Z;
  nextStudentId : Z;
  nextTransactionId : Z;
  nextRewardId : Z
}.

(** The two browser stores: the item under [STORAGE_KEY] and the item
    under [SESSION_KEY]. *)
Record World := mkWorld {
  localStorage : option Document;
  sessionStorage : option User
}.

Definition setUsers (us : list User) (d : Document) : Document :=
  mkDocument us (houses d) (students d) (transactions d) (rewards d)
             (houseLimits d) (nextHouseId d) (nextStudentId d)
             (nextTransactionId d) (nextRewardId d).

Definition setHouses (hs : list House) (d : Document) : Document :=
  mkDocument (users d) hs (students d) (transactions d) (rewards d)
             (houseLimits d) (nextHouseId d) (nextStudentId d)
             (nextTransactionId d) (nextRewardId d).

Definition setStudents (ss : list Student) (d : Document) : Document :=
  mkDocument (users d) (houses d) ss (transactions d) (rewards d)
             (houseLimits d) (nextHouseId d) (nextStudentId d)
             (nextTransactionId d) (nextRewardId d).

Definition setTransactions (ts : list Transaction) (d : Document) : Document :=
  mkDocument (users d) (houses d) (students d) ts (rewards d)
             (houseLimits d) (nextHouseId d) (nextStudentId d)
             (nextTransactionId d) (nextRewardId d).

Definition setNextHouseId (n : Z) (d : Document) : Document :=
  mkDocument (users d) (houses d) (students d) (transactions d) (rewards d)
             (houseLimits d) n (nextStudentId d)
             (nextTransactionId d) (nextRewardId d).

Definition setNextStudentId (n : Z) (d : Document) : Document :=
  mkDocument (users d) (houses d) (students d) (transactions d) (rewards d)
             (houseLimits d) (nextHouseId d) n
             (nextTransactionId d) (nextRewardId d).

Definition setNextTransactionId (n : Z) (d : Document) : Document :=
  mkDocument (users d) (houses d) (students d) (transactions d) (rewards d)
             (houseLimits d) (nextHouseId d) (nextStudentId d)
             n (nextRewardId d).

Definition setHouseId (h : option Z) (s : Student) : Student :=
  mkStudent (s_id s) (s_name s) (s_grade s) h (s_points s) (s_photo s).

(** [x.find(p)] returns the first match and the handlers then assign to
    a field of it: the array keeps its shape and the first match is
    replaced by the updated object. *)
Fixpoint updateFirst {A : Type} (p : A -> bool) (f : A -> A) (l : list A) : list A :=
  match l with
  | [] => []
  | x :: r => if p x then f x :: r else x :: updateFirst p f r
  end.

(** [findIndex] and [splice(idx, 1)]. *)
Fixpoint findIndex {A : Type} (p : A -> bool) (l : list A) : option nat :=
  match l with
  | [] => None
  | x :: r => if p x then Some O
              else match findIndex p r with Some i => Some (S i) | None => None end
  end.

Fixpoint splice1 {A : Type} (idx : nat) (l : list A) : list A :=
  match l, idx with
  | [], _ => []
  | _ :: r, O => r
  | x :: r, S i => x :: splice1 i r
  end.

(** ** Persistent store *)

Definition adminUser : User :=
  mkUser "admin" "admin123" "admin" None None None None.

Definition emptyDocument : Document :=
  mkDocument [adminUser] [] [] [] [] ∅ 1 1 1 1.

Definition initData (w : World) : World :=
  match localStorage w with
  | Some _ => w
  | None => mkWorld (Some emptyDocument) (sessionStorage w)
  end.

Definition isTeacher (u : User) : bool := bool_decide (u_role u = "teacher").

(** The body of the [forEach] in [ensureSchema]. *)
Definition backfillUser (u : User) : User :=
  let u1 :=
    if isTeacher u && negb (bool_decide (is_Some (u_accessibleStudentIds u)))
    then mkUser (u_username u) (u_password u) (u_role u) (u_name u) (u_houseId u)
                (u_gradeAccess u) (Some [])
    else u in
  if isTeacher u1 && negb (bool_decide (is_Some (u_gradeAccess u1)))
  then mkUser (u_username u1) (u_password u1) (u_role u1) (u_name u1) (u_houseId u1)
              (Some []) (u_accessibleStudentIds u1)
  else u1.

Definition ensureSchema (data : option Document) : option Document :=
  match data with
  | None => None
  | Some d => Some (setUsers (map backfillUser (users d)) d)
  end.

(** A user record that needs no backfill. *)
Definition schemaComplete (u : User) : Prop :=
  u_role u = "teacher" ->
  is_Some (u_gradeAccess u) /\ is_Some (u_accessibleStudentIds u).

Definition loadData (w : World) : option Document := ensureSchema (localStorage w).

Definition saveData (data : Document) (w : World) : World :=
  mkWorld (Some data) (sessionStorage w).

Definition setCurrentUser (u : User) (w : World) : World :=
  mkWorld (localStorage w) (Some u).

Definition getCurrentUser (w : World) : option User := sessionStorage w.

(** ** Login *)

Inductive LoginResult :=
| LoginShown            (* [showMainPage] ran *)
| LoginAlert (msg : string)
| LoginThrew.           (* no document under [STORAGE_KEY] *)

Definition credentialsMatch (username password : string) (u : User) : bool :=
  bool_decide (toLowerCase (u_username u) = toLowerCase username)
  && bool_decide (u_password u = password).

Definition login (loginUsername loginPassword : string) (w : World) : World * LoginResult :=
  let username := trim loginUsername in
  let password := loginPassword in
  match loadData w with
  | None => (w, LoginThrew)
  | Some data =>
      match find (credentialsMatch username password) (users data) with
      | Some user => (setCurrentUser user w, LoginShown)
      | None => (w, LoginAlert "Invalid username or password")
      end
  end.

(** ** Numbers and their text form

    [parseInt(v, 10)] yields the double nearest to the integer that the
    digits denote, and [String] prints the shortest decimal that reads
    back as that double, switching to exponent notation from 1e21 on.
    Only integer-valued numbers occur. *)

Module JsNumber.

Inductive Num :=
| NaN
| Infinity (negative : bool)
| Finite (v : Z).

Local Open Scope N_scope.

(** Round to nearest, ties to even, into the 53-bit significand of a
    double; [None] when the result exceeds the largest double. *)
Definition roundToDouble (n : N) : option N :=
  if n <? 2 ^ 53 then Some n
  else
    let e := N.log2 n - 52 in
    let q := n / 2 ^ e in
    let r := n mod 2 ^ e in
    let half := 2 ^ (e - 1) in
    let q' := if (half <? r) || ((r =? half) && N.odd q) then q + 1 else q in
    let v := q' * 2 ^ e in
    if 2 ^ 1024 <=? v then None else Some v.

Definition roundsTo (c v : N) : bool :=
  match roundToDouble c with
  | Some x => x =? v
  | None => false
  end.

Definition digitChar (d : N) : ascii := ascii_of_N (48 + d).

Fixpoint decimalAux (fuel : nat) (n : N) (acc : string) : string :=
  match fuel with
  | O => acc
  | S f =>
      let acc' := String (digitChar (n mod 10)) acc in
      if n / 10 =? 0 then acc' else decimalAux f (n / 10) acc'
  end.

(** The decimal digits of [n], most significant first. *)
Definition decimal (n : N) : string :=
  decimalAux (S (N.to_nat (N.log2 n))) n EmptyString.

Fixpoint zeros (p : nat) : string :=
  match p with
  | O => EmptyString
  | S p' => String "0" (zeros p')
  end.

(** A significand [s] with [s * 10^p] reading back as [v], taking the
    nearer of the two neighbours of [v / 10^p] (the even one on a tie). *)
Definition candidate (v : N) (p : nat) : option N :=
  let w := 10 ^ N.of_nat p in
  let lo := v / w in
  let hi := lo + 1 in
  let okLo := (0 <? lo) && roundsTo (lo * w) v in
  let okHi := roundsTo (hi * w) v in
  match okLo, okHi with
  | true, true =>
      let dLo := v - lo * w in
      let dHi := hi * w - v in
      if dLo <? dHi then Some lo
      else if dHi <? dLo then Some hi
      else if N.even lo then Some lo else Some hi
  | true, false => Some lo
  | false, true => Some hi
  | false, false => None
  end.

(** The fewest digits: the largest power of ten that still leaves a
    significand reading back as [v]. *)
Fixpoint shortest (v : N) (p : nat) : N * nat :=
  match p with
  | O => (v, O)
  | S p' =>
      match candidate v p with
      | Some s => (s, p)
      | None => shortest v p'
      end
  end.

(** [Number::toString] for a positive integer-valued double. *)
Definition magnitudeToString (v : N) : string :=
  if v =? 0 then "0"%string
  else
    let '(s, p) := shortest v (String.length (decimal v)) in
    let ds := decimal s in
    let k := String.length ds in
    let n := (k + p)%nat in
    if (n <=? 21)%nat then (ds ++ zeros p)%string
    else
      let e := decimal (N.of_nat (n - 1)) in
      match ds with
      | String d EmptyString => (String d "e+" ++ e)%string
      | String d rest => (String d (String "." rest) ++ "e+" ++ e)%string
      | EmptyString => EmptyString
      end.

Definition toString (x : Num) : string :=
  match x with
  | NaN => "NaN"%string
  | Infinity neg => ((if neg then "-" else "") ++ "Infinity")%string
  | Finite z => ((if (z <? 0)%Z then "-" else "") ++ magnitudeToString (Z.abs_N z))%string
  end.

Definition digitValue (c : ascii) : N := N_of_ascii c - 48.

Fixpoint digitsValue (acc : N) (s : string) : N :=
  match s with
  | EmptyString => acc
  | String c r => digitsValue (acc * 10 + digitValue c) r
  end.

Fixpoint takeDigits (s : string) : string :=
  match s with
  | EmptyString => EmptyString
  | String c r => if isDigit c then String c (takeDigits r) else EmptyString
  end.

(** [parseInt(v, 10)]: skip leading white space, read an optional sign
    and the longest run of decimal digits. *)
Definition parseInt (v : string) : Num :=
  let s := trimStart v in
  let '(neg, body) :=
    match s with
    | String c r =>
        if Ascii.eqb c "-" then (true, r)
        else if Ascii.eqb c "+" then (false, r)
        else (false, s)
    | EmptyString => (false, s)
    end in
  match takeDigits body with
  | EmptyString => NaN
  | ds =>
      match roundToDouble (digitsValue 0 ds) with
      | None => Infinity neg
      | Some m => Finite (if neg then - Z.of_N m else Z.of_N m)%Z
      end
  end.

Fixpoint allDigits (s : string) : bool :=
  match s with
  | EmptyString => true
  | String c r => isDigit c && allDigits r
  end.

(** Numbers that [String] prints in plain decimal notation. *)
Definition below1e21 (x : Num) : Prop :=
  match x with
  | NaN => True
  | Infinity _ => False
  | Finite v => (Z.abs v < 10 ^ 21)%Z
  end.

(** Point balances are integer-valued doubles, kept as [Z].
    [roundInteger z] is the double nearest to the integer [z], ties to
    even.  Beyond the largest double the script has [Infinity], which a
    balance in [Z] cannot hold: there the value is left as it is, and
    every statement about sums is made for the range [exact]. *)
Definition roundInteger (z : Z) : Z :=
  match roundToDouble (Z.abs_N z) with
  | Some m => if (z <? 0)%Z then (- Z.of_N m)%Z else Z.of_N m
  | None => z
  end.

(** [a + b] on integer-valued doubles: adding zero gives the other
    operand, any other sum is the exact sum rounded to a double.
    [a - b] is [add a (- b)]. *)
Definition add (a b : Z) : Z :=
  if (b =? 0)%Z then a
  else if (a =? 0)%Z then b
  else roundInteger (a + b).

(** The integers up to which every integer is a double, so that a sum
    landing there is the exact sum. *)
Definition exact (z : Z) : Prop := (- 2 ^ 53 <= z <= 2 ^ 53)%Z.

End JsNumber.

(** [student.points += n] and [house.points += n] ([-=] with [- n]). *)
Definition addPoints (n : Z) (s : Student) : Student :=
  mkStudent (s_id s) (s_name s) (s_grade s) (s_houseId s)
            (JsNumber.add (s_points s) n) (s_photo s).

Definition addHousePoints (n : Z) (h : House) : House :=
  mkHouse (h_id h) (h_name h) (h_color h) (JsNumber.add (h_points h) n) (h_logo h).

(** ** Grade normalisation *)

(** The pattern [/(k|kindergarten|\d+)/] tried at the start of [s]:
    alternatives in order, the digit run greedy. *)
Definition matchHere (s : string) : option string :=
  if startsWith s "k" then Some "k"
  else if startsWith s "kindergarten" then Some "kindergarten"
  else match JsNumber.takeDigits s with
       | EmptyString => None
       | ds => Some ds
       end.

(** [s.match(...)]: the leftmost position where the pattern matches;
    the result is capture group 1. *)
Fixpoint regexMatch (s : string) : option string :=
  match matchHere s with
  | Some m => Some m
  | None =>
      match s with
      | EmptyString => None
      | String _ r => regexMatch r
      end
  end.

Definition normalizeGrade (g : string) : string :=
  if bool_decide (g = "") then ""
  else
    let s := toLowerCase (trim g) in
    if bool_decide (s = "k") || startsWith s "kind" then "K"
    else
      match regexMatch s with
      | None => ""
      | Some val =>
          if bool_decide (val = "k") || bool_decide (val = "kindergarten") then "K"
          else JsNumber.toString (JsNumber.parseInt val)
      end.

(** ** Award form: which students a teacher is offered *)

(** [access] in [renderAwardPoints]: the teacher's grades, normalised. *)
Definition access (currentUser : User) : list string :=
  match u_gradeAccess currentUser with
  | Some grades => map normalizeGrade grades
  | None => []
  end.

(** The contents of the student dropdowns built for a teacher: one per
    grade when the teacher has several grades, a single one otherwise. *)
Definition teacherDropdowns (currentUser : User) (data : Document) : list (list Student) :=
  let acc := access currentUser in
  if (1 <? length acc)%nat
  then map (fun gr =>
              List.filter (fun stu => bool_decide (normalizeGrade (s_grade stu) = gr))
                          (students data)) acc
  else [List.filter (fun stu => existsb (fun a => bool_decide (a = normalizeGrade (s_grade stu))) acc)
                    (students data)].

(** Every student that appears as an option in some dropdown. *)
Definition selectableStudents (currentUser : User) (data : Document) : list Student :=
  concat (teacherDropdowns currentUser data).

(** ** Ledger *)

Inductive Mode := ModeAdd | ModeTake.

(** What [submitAwardForm] reads from the form: the parsed value of the
    first non-empty student dropdown and of the points field ([None] for
    [NaN]), the reason text and [form.dataset.mode]. *)
Record AwardForm := mkAwardForm {
  f_studentId : option Z;
  f_amount : option Z;
  f_note : string;
  f_mode : Mode
}.

Inductive AwardResult :=
| AwardAlert (msg : string)     (* red alert, handler returned early *)
| AwardThrew                    (* uncaught TypeError *)
| AwardSuccess (msg : string).

(** The amount recorded for a form: "Take Points" negates a positive entry. *)
Definition signedAmount (mode : Mode) (amount0 : Z) : Z :=
  match mode with
  | ModeTake => if 0 <? amount0 then - amount0 else amount0
  | ModeAdd => amount0
  end.

Definition isStudent (id : Z) (s : Student) : bool := bool_decide (s_id s = id).
Definition isHouse (id : option Z) (h : House) : bool := bool_decide (Some (h_id h) = id).

Definition submitAwardForm (form : AwardForm) (now : string) (w : World)
  : World * AwardResult :=
  let note := trim (f_note form) in
  match f_studentId form, f_amount form with
  | Some studentId, Some amount0 =>
      if bool_decide (studentId = 0)
      then (w, AwardAlert "Please select a student and enter a points value.")
      else if bool_decide (note = "")
      then (w, AwardAlert "A reason is required.")
      else
        let amount := signedAmount (f_mode form) amount0 in
        match loadData w with
        | None => (w, AwardThrew)
        | Some data =>
            match find (isStudent studentId) (students data) with
            | None => (w, AwardThrew)
            | Some student =>
                let house := find (isHouse (s_houseId student)) (houses data) in
                let students' :=
                  updateFirst (isStudent studentId) (addPoints amount) (students data) in
                let houses' :=
                  match house with
                  | Some _ => updateFirst (isHouse (s_houseId student))
                                          (addHousePoints amount) (houses data)
                  | None => houses data
                  end in
                match getCurrentUser w with
                | None => (w, AwardThrew)
                | Some currentUser =>
                    let txn :=
                      mkTxn (nextTransactionId data) now (u_username currentUser)
                            (s_id student) (option_map h_id house) amount note in
                    let data' :=
                      mkDocument (users data) houses' students'
                                 (transactions data ++ [txn]) (rewards data)
                                 (houseLimits data) (nextHouseId data)
                                 (nextStudentId data) (nextTransactionId data + 1)
                                 (nextRewardId data) in
                    let action := if 0 <=? amount then "added" else "taken" in
                    (saveData data' w,
                     AwardSuccess ("Successfully " ++ action ++ " "
                                   ++ JsNumber.toString (JsNumber.Finite (Z.abs amount))
                                   ++ " point(s) for " ++ s_name student ++ "."))
                end
            end
        end
  | _, _ => (w, AwardAlert "Please select a student and enter a points value.")
  end.

(** [deleteTransaction]: [Some true] and [Some false] are the two return
    values; [None] is the TypeError raised when nothing is stored. *)
Definition deleteTransaction (txnId : Z) (w : World) : World * option bool :=
  match loadData w with
  | None => (w, None)
  | Some data =>
      match findIndex (fun t => bool_decide (t_id t = txnId)) (transactions data) with
      | None => (w, Some false)
      | Some idx =>
          match nth_error (transactions data) idx with
          | None => (w, None)
          | Some txn =>
              let students' :=
                updateFirst (isStudent (t_studentId txn)) (addPoints (- t_amount txn))
                            (students data) in
              let houses' :=
                match t_houseId txn with
                | Some hid => updateFirst (isHouse (Some hid))
                                          (addHousePoints (- t_amount txn)) (houses data)
                | None => houses data
                end in
              let data' :=
                mkDocument (users data) houses' students'
                           (splice1 idx (transactions data)) (rewards data)
                           (houseLimits data) (nextHouseId data)
                           (nextStudentId data) (nextTransactionId data)
                           (nextRewardId data) in
              (saveData data' w, Some true)
          end
      end
  end.

(** ** Houses and students

    The handlers below are closures over the document loaded when their
    page was rendered; each one mutates that document and saves it.
    [None] means the handler returned without saving. *)

(** Submit handler of the add-house form ([createHouse] included). *)
Definition addHouse (houseName houseColor : string) (logoData : option string)
           (data : Document) : option Document :=
  let name := trim houseName in
  let color := trim houseColor in
  if bool_decide (name = "") then None
  else if existsb (fun h => bool_decide (toLowerCase (h_name h) = toLowerCase name))
                  (houses data)
  then None
  else
    let house :=
      mkHouse (nextHouseId data) name
              (if bool_decide (color = "") then None else Some color)
              0
              (match logoData with
               | Some l => if bool_decide (l = "") then None else Some l
               | None => None
               end) in
    Some (mkDocument (users data) (houses data ++ [house]) (students data)
                     (transactions data) (rewards data) (houseLimits data)
                     (nextHouseId data + 1) (nextStudentId data)
                     (nextTransactionId data) (nextRewardId data)).

(** Delete button of a house row. *)
Definition deleteHouse (house : House) (data : Document) : option Document :=
  if existsb (fun s => bool_decide (s_houseId s = Some (h_id house))) (students data)
  then None
  else Some (setHouses (List.filter (fun h => negb (bool_decide (h_id h = h_id house)))
                                    (houses data)) data).

(** Submit handler of the add-student form; [studentHouse] is the parsed
    value of the house dropdown, [None] for "Unassigned". *)
Definition addStudent (studentName studentGrade : string) (studentHouse : option Z)
           (data : Document) : option Document :=
  let name := trim studentName in
  let grade := trim studentGrade in
  if bool_decide (name = "") then None
  else
    let student := mkStudent (nextStudentId data) name grade studentHouse 0 None in
    Some (mkDocument (users data) (houses data) (students data ++ [student])
                     (transactions data) (rewards data) (houseLimits data)
                     (nextHouseId data) (nextStudentId data + 1)
                     (nextTransactionId data) (nextRewardId data)).

(** Delete button of a student row, once confirmed.  [student] is the
    row's element of [data.students]. *)
Definition deleteStudent (student : Student) (data : Document) : Document :=
  let houses' :=
    match find (isHouse (s_houseId student)) (houses data) with
    | Some _ => updateFirst (isHouse (s_houseId student))
                            (addHousePoints (- s_points student)) (houses data)
    | None => houses data
    end in
  setStudents (List.filter (fun s => negb (bool_decide (s_id s = s_id student)))
                           (students data))
              (setHouses houses' data).

(** Submit handler of [showEditStudentOverlay student].  The overlay
    loads its own copy of the document, so [student] (the caller's
    object) is not an element of it: the handler returns the updated
    object next to the world in which the overlay's document was saved.
    [None] for the alert on an empty name. *)
Definition editStudentSubmit (student : Student) (editStudentName editStudentGrade : string)
           (editStudentHouse : option Z) (w : World) : option (World * Student) :=
  match loadData w with
  | None => None
  | Some data =>
      let newName := trim editStudentName in
      let newGrade := trim editStudentGrade in
      let newHouseId := editStudentHouse in
      if bool_decide (newName = "") then None
      else
        let student1 :=
          mkStudent (s_id student) newName newGrade (s_houseId student)
                    (s_points student) (s_photo student) in
        if bool_decide (s_houseId student1 = newHouseId)
        then Some (saveData data w, student1)
        else
          let houses1 :=
            updateFirst (isHouse (s_houseId student1))
                        (addHousePoints (- s_points student1)) (houses data) in
          let houses2 :=
            updateFirst (isHouse newHouseId)
                        (addHousePoints (s_points student1)) houses1 in
          Some (saveData (setHouses houses2 data) w, setHouseId newHouseId student1)
  end.

(** ** Sorting wheel *)

(** [Math.random] is a parameter of the handler: [rand i k] is the value
    of [Math.floor(Math.random() * k)] at the [i]-th call made by the
    handler. *)
Definition RandomSource := nat -> Z -> Z.

Definition nameMapping : list string := ["Darwin"; "Curie"; "Hippocretes"; "Newton"].

Definition segSizeLocal : Z := 360 / 4.

(** [%] is the JavaScript remainder; [Math.floor] of the quotient is [/]. *)
Definition segmentIndex (angle : Z) : Z :=
  Z.rem (360 - Z.rem angle 360) 360 / segSizeLocal.

Definition houseByName (name : string) (hs : list House) : option House :=
  find (fun h => bool_decide (toLowerCase (h_name h) = toLowerCase name)) hs.

(** The house under the pointer once the first spin has stopped at
    [finalAngle]. *)
Definition resolveSegment (hs : list House) (finalAngle : Z) : option House :=
  let index := segmentIndex finalAngle in
  match nth_error nameMapping (Z.to_nat (Z.rem index (Z.of_nat (length nameMapping)))) with
  | None => None
  | Some desiredName =>
      match houseByName desiredName hs with
      | Some h => Some h
      | None =>
          if (0 <? length hs)%nat
          then nth_error hs (Z.to_nat (Z.rem index (Z.of_nat (length hs))))
          else None
      end
  end.

(** [getLimit]: [None] is [null], [Some None] is [NaN]. *)
Definition getLimit (data : Document) (hid : Z) : option (option Z) :=
  houseLimits data !! hid.

Definition getCount (data : Document) (hid : Z) : Z :=
  Z.of_nat (length (List.filter (fun s => bool_decide (s_houseId s = Some hid))
                                (students data))).

Definition isEligible (data : Document) (hid : Z) : bool :=
  match getLimit data hid with
  | None => true
  | Some None => true
  | Some (Some lim) => getCount data hid <? lim
  end.

(** The guard in front of the assignment:
    [houseLimits[id] !== undefined && getCount(id) >= getLimit(id)]. *)
Definition atCapacity (data : Document) (hid : Z) : bool :=
  match houseLimits data !! hid with
  | Some (Some lim) => lim <=? getCount data hid
  | Some None => false
  | None => false
  end.

Definition maxAttempts : nat := 20.

Record SpinState := mkSpinState {
  selectedHouse : House;
  baseAngle : Z;
  attempts : nat;
  calls : nat            (* calls of [Math.random] so far *)
}.

Definition keepSpinning (data : Document) (st : SpinState) : bool :=
  negb (isEligible data (h_id (selectedHouse st))) && (attempts st <? maxAttempts)%nat.

(** One pass through the body of the re-spin loop. *)
Definition respinStep (rand : RandomSource) (data : Document) (st : SpinState) : SpinState :=
  let spins2 := rand (calls st) 4 + 1 in
  let randAngle2 := rand (S (calls st)) 360 in
  let delta := spins2 * 360 + randAngle2 in
  let baseAngle' := baseAngle st + delta in
  let index2 := segmentIndex baseAngle' in
  let selected' :=
    if (length nameMapping =? 4)%nat
    then match nth_error nameMapping (Z.to_nat (Z.rem index2 4)) with
         | Some name2 =>
             match houseByName name2 (houses data) with
             | Some house2 => house2
             | None => selectedHouse st
             end
         | None => selectedHouse st
         end
    else match nth_error (houses data)
                         (Z.to_nat (Z.rem index2 (Z.of_nat (length (houses data))))) with
         | Some h => h
         | None => selectedHouse st
         end in
  mkSpinState selected' baseAngle' (S (attempts st)) (2 + calls st).

(** The [while] loop, unrolled [fuel] times. *)
Fixpoint respin (rand : RandomSource) (data : Document) (fuel : nat) (st : SpinState)
  : SpinState :=
  match fuel with
  | O => st
  | S fuel' =>
      if keepSpinning data st
      then respin rand data fuel' (respinStep rand data st)
      else st
  end.

Record SpinOutcome := mkSpinOutcome {
  saved : option Document;   (* the document passed to [saveData], if any *)
  resultText : string;       (* [resultDiv.textContent] *)
  wheelAngle : Z;            (* last rotation applied to the wheel *)
  respins : nat              (* passes through the re-spin loop *)
}.

(** The handler tells the user about a spin through the result text only. *)
Definition reportsOutcome (out : SpinOutcome) : Prop := resultText out <> "".

(** The [transitionend] handler installed by the Spin button;
    [selectStu] is the parsed value of the student dropdown. *)
Definition spinWheel (rand : RandomSource) (selectStu : option Z) (data : Document)
  : SpinOutcome :=
  let spins := rand 0%nat 4 + 4 in
  let randAngle := rand 1%nat 360 in
  let finalAngle := spins * 360 + randAngle in
  let student :=
    match selectStu with
    | Some studentId => find (isStudent studentId) (students data)
    | None => None
    end in
  match resolveSegment (houses data) finalAngle with
  | None => mkSpinOutcome None "" finalAngle 0
  | Some first =>
      let st := respin rand data maxAttempts (mkSpinState first finalAngle 0 2) in
      match student with
      | None => mkSpinOutcome None "" (baseAngle st) (attempts st)
      | Some stu =>
          if atCapacity data (h_id (selectedHouse st))
          then
            let spins2 := rand (calls st) 3 + 3 in
            let randAngle2 := rand (S (calls st)) 360 in
            mkSpinOutcome None "" (baseAngle st + (spins2 * 360 + randAngle2)) (attempts st)
          else
            let data' :=
              setStudents (updateFirst (isStudent (s_id stu))
                                       (setHouseId (Some (h_id (selectedHouse st))))
                                       (students data)) data in
            mkSpinOutcome (Some data')
                          (s_name stu ++ " sorted into " ++ h_name (selectedHouse st) ++ "!")
                          (baseAngle st) (attempts st)
      end
  end.

(** ** Balance invariants *)

Definition sumPoints (l : list Student) : Z :=
  fold_right (fun s acc => s_points s + acc) 0 l.

Definition sumAmounts (l : list Transaction) : Z :=
  fold_right (fun t acc => t_amount t + acc) 0 l.

Definition membersOf (hid : Z) (d : Document) : list Student :=
  List.filter (fun s => bool_decide (s_houseId s = Some hid)) (students d).

Definition ledgerOf (sid : Z) (d : Document) : list Transaction :=
  List.filter (fun t => bool_decide (t_studentId t = sid)) (transactions d).

(** Every house holds the sum of the points of its current members. *)
Definition houseBalanced (d : Document) : bool :=
  forallb (fun h => bool_decide (h_points h = sumPoints (membersOf (h_id h) d))) (houses d).

(** Every student holds the sum of the ledger amounts that name them. *)
Definition studentBalanced (d : Document) : bool :=
  forallb (fun s => bool_decide (s_points s = sumAmounts (ledgerOf (s_id s) d))) (students d).

(** Identifiers handed out by the counters are not yet in use. *)
Definition freshTransactionId (d : Document) : Prop :=
  Forall (fun t => t_id t <> nextTransactionId d) (transactions d).

Definition freshStudentId (d : Document) : Prop :=
  Forall (fun t => t_studentId t <> nextStudentId d) (transactions d).

Definition freshHouseId (d : Document) : Prop :=
  Forall (fun s => s_houseId s <> Some (nextHouseId d)) (students d).

(** The counters run ahead of every identifier in use. *)
Definition countersAhead (d : Document) : Prop :=
  Forall (fun t => t_id t < nextTransactionId d /\ t_studentId t < nextStudentId d)
         (transactions d) /\
  Forall (fun s => s_id s < nextStudentId d /\
                   forall h, s_houseId s = Some h -> h < nextHouseId d)
         (students d) /\
  Forall (fun h => h_id h < nextHouseId d) (houses d).

(** The house dropdown of the student form offers "Unassigned" and the
    houses of the document. *)
Definition offeredHouse (studentHouse : option Z) (d : Document) : Prop :=
  match studentHouse with
  | None => True
  | Some hid => exists h, In h (houses d) /\ h_id h = hid
  end.

(** The range in which the script's sums are exact.  [studentExact sid
    delta d]: the balance of the student that [find] returns for [sid]
    is still within 2^53 of zero once [delta] is added; [houseExact]
    likewise for the house found for [hid]. *)
Definition studentExact (sid : Z) (delta : Z) (d : Document) : Prop :=
  forall s, find (isStudent sid) (students d) = Some s ->
            JsNumber.exact (s_points s + delta).

Definition houseExact (hid : option Z) (delta : Z) (d : Document) : Prop :=
  forall h, find (isHouse hid) (houses d) = Some h ->
            JsNumber.exact (h_points h + delta).

(** The balances a post of [form] moves stay in that range. *)
Definition postExact (form : AwardForm) (d : Document) : Prop :=
  forall sid amount0 student,
    f_studentId form = Some sid -> f_amount form = Some amount0 ->
    find (isStudent sid) (students d) = Some student ->
    studentExact sid (signedAmount (f_mode form) amount0) d /\
    houseExact (s_houseId student) (signedAmount (f_mode form) amount0) d.

(** The balances the reversal of [txn] moves stay in that range. *)
Definition reversalExact (txn : Transaction) (d : Document) : Prop :=
  studentExact (t_studentId txn) (- t_amount txn) d /\
  houseExact (t_houseId txn) (- t_amount txn) d.

(** ** Sample documents *)

(** A teacher record written before the two access fields existed. *)
Definition legacyTeacher : User :=
  mkUser "ms.frizzle" "bus" "teacher" (Some "Ms Frizzle") (Some 1) None None.

Definition legacyWorld : World :=
  mkWorld (Some (setUsers [adminUser; legacyTeacher] emptyDocument)) None.

Definition sampleStudent : Student := mkStudent 1 "Ada" "5th Grade" None 0 None.

Definition sampleWorld : World :=
  mkWorld (Some (setNextStudentId 2 (setStudents [sampleStudent] emptyDocument)))
          (Some adminUser).

(** One student with five points in Darwin, earned in one ledger entry. *)
Definition darwin : House := mkHouse 1 "Darwin" None 5 None.
Definition curie : House := mkHouse 2 "Curie" None 0 None.
Definition ada : Student := mkStudent 1 "Ada" "5th Grade" (Some 1) 5 None.

Definition twoHouses : Document :=
  mkDocument [adminUser] [darwin; curie] [ada]
             [mkTxn 1 "2024-01-01T00:00:00.000Z" "admin" 1 (Some 1) 5 "kindness"]
             [] ∅ 3 2 2 1.


(** A random source that stops every spin at 200 degrees, the Curie arc. *)
Definition alwaysCurie : RandomSource := fun _ k => if k =? 360 then 200 else 0.

(** The teacher and the students of the access example. *)
Definition gradeTwoTeacher : User :=
  mkUser "t2" "pw" "teacher" (Some "Grade Two") (Some 1) (Some ["2"]) (Some [7]).

Definition threeStudents : Document :=
  setStudents [mkStudent 1 "Ann" "2nd Grade" None 0 None;
               mkStudent 7 "Bob" "5" None 0 None;
               mkStudent 9 "Cy" "3" None 0 None] emptyDocument.

(** Both houses full: Darwin holds its one allowed student, Curie allows none. *)
Definition bothFull : Document :=
  mkDocument [adminUser] [darwin; curie] [ada; mkStudent 2 "Bo" "3" None 0 None]
             [mkTxn 1 "2024-01-01T00:00:00.000Z" "admin" 1 (Some 1) 5 "kindness"]
             [] (<[1 := Some 1]> (<[2 := Some 0]> ∅)) 3 3 2 1.

(** Only Curie is capped, at zero students. *)
Definition curieFull : Document :=
  mkDocument [adminUser] [darwin; curie] [ada; mkStudent 2 "Bo" "3" None 0 None]
             [mkTxn 1 "2024-01-01T00:00:00.000Z" "admin" 1 (Some 1) 5 "kindness"]
             [] (<[2 := Some 0]> ∅) 3 3 2 1.

(** ** Ordinals *)

Definition getOrdinalSuffix (n : Z) : string :=
  let j := Z.rem n 10 in
  let k := Z.rem n 100 in
  if bool_decide (j = 1) && negb (bool_decide (k = 11)) then "st"
  else if bool_decide (j = 2) && negb (bool_decide (k = 12)) then "nd"
  else if bool_decide (j = 3) && negb (bool_decide (k = 13)) then "rd"
  else "th".

(** ** Navigation *)

Record NavButton := mkNavButton {
  nb_section : string;     (* [btn.dataset.section] *)
  nb_label : string;       (* [btn.textContent] *)
  nb_active : bool         (* whether the button got the class [active] *)
}.

(** [tabs] starts as the array literal [[ , ]]: one empty slot, so the
    pushed entries sit at the indices from 1 on, and [forEach] passes
    over the empty slot. *)
Definition navTabs (currentUser : User) : list (option (string * string)) :=
  None ::
  map Some
      (if bool_decide (u_role currentUser = "admin")
       then [("leaderboard", "Leaderboard"); ("houses", "Houses"); ("students", "Students");
             ("teachers", "Teachers"); ("rewards", "Rewards"); ("sorting", "Sorting Wheel");
             ("transactions", "Transactions")]
       else [("award", "Points"); ("transactions", "My Transactions")]).

Definition renderNavTabs (currentUser : option User) : list NavButton :=
  match currentUser with
  | None => []
  | Some u =>
      concat (imap (fun index slot =>
                      match slot with
                      | Some (id, label) => [mkNavButton id label (index =? 0)%nat]
                      | None => []
                      end)
                   (navTabs u))
  end.

(** The section [showSection] renders for [sectionId], [None] when the
    [switch] falls through to [default]. *)
Definition showSection (sectionId : string) (user : option User) : option string :=
  let sectionId' :=
    match user with
    | Some u => if bool_decide (sectionId = "leaderboard")
                   && negb (bool_decide (u_role u = "admin"))
                then "award" else sectionId
    | None => sectionId
    end in
  if existsb (fun s => bool_decide (s = sectionId'))
             ["leaderboard"; "award"; "houses"; "students"; "teachers"; "rewards";
              "sorting"; "transactions"]
  then Some sectionId' else None.

(** The section [showMainPage] opens. *)
Definition firstSection (currentUser : User) : string :=
  if bool_decide (u_role currentUser = "admin") then "leaderboard" else "award".

(** ** Leaderboard *)

(** [[...xs].sort((a, b) => b.points - a.points)].  The built-in sort
    is stable, so its result is the one obtained by putting each element
    in front of the first later element that does not have more points. *)
Fixpoint insertByPoints {A : Type} (points : A -> Z) (x : A) (l : list A) : list A :=
  match l with
  | [] => [x]
  | y :: r => if points x <? points y then y :: insertByPoints points x r
              else x :: y :: r
  end.

Definition sortByPoints {A : Type} (points : A -> Z) (l : list A) : list A :=
  fold_right (insertByPoints points) [] l.

(** The rows of the leaderboard, and of the ceremony, first place first. *)
Definition leaderboardHouses (data : Document) : list House :=
  sortByPoints h_points (houses data).

Definition topStudents (data : Document) : list Student :=
  firstn 3 (sortByPoints s_points (students data)).

(** The rank shown in front of a leaderboard row:
    [`${idx + 1}${getOrdinalSuffix(idx + 1)}`]. *)
Definition rankLabel (idx : nat) : string :=
  JsNumber.toString (JsNumber.Finite (Z.of_nat idx + 1))
  ++ getOrdinalSuffix (Z.of_nat idx + 1).

(** The rows [showCeremony] puts on the screen, in the order in which
    they appear; nothing is shown without houses. *)
Definition runCeremony (data : Document) : list (string * House) :=
  let houses := leaderboardHouses data in
  match houses with
  | [] => []
  | first :: _ =>
      (match houses !! 3%nat with Some h => [("4th Place", h)] | None => [] end)
      ++ (match houses !! 2%nat with Some h => [("3rd Place", h)] | None => [] end)
      ++ (match houses !! 1%nat with Some h => [("2nd Place", h)] | None => [] end)
      ++ [("1st Place", first)]
  end.

(** The [reduce] of "Top Teachers": the positive amounts a user awarded. *)
Definition teacherTotal (username : string) (data : Document) : Z :=
  fold_left (fun sum txn =>
               if bool_decide (t_teacherUsername txn = username) && (0 <? t_amount txn)
               then JsNumber.add sum (t_amount txn) else sum)
            (transactions data) 0.

(** The same amounts summed exactly. *)
Definition awardedBy (username : string) (data : Document) : Z :=
  sumAmounts (List.filter (fun txn => bool_decide (t_teacherUsername txn = username)
                                      && (0 <? t_amount txn))
                          (transactions data)).

Definition teacherTotals (data : Document) : list (string * Z) :=
  map (fun t => (u_username t, teacherTotal (u_username t) data))
      (List.filter isTeacher (users data)).

Definition topTeachers (data : Document) : list (string * Z) :=
  firstn 3 (sortByPoints snd (teacherTotals data)).

(** ** Editing a house *)

(** Edit button of the house row at position [i]; the two prompts give
    [None] when cancelled.  [None] as a result: nothing was saved. *)
Definition editHouse (i : nat) (newName newColor : option string) (data : Document)
  : option Document :=
  match houses data !! i, newName, newColor with
  | Some house, Some newName, Some newColor =>
      let trimmed := trim newName in
      if bool_decide (trimmed = "") then None
      else if existsb (fun h => negb (bool_decide (h_id h = h_id house))
                                && bool_decide (toLowerCase (h_name h) = toLowerCase trimmed))
                      (houses data)
      then None
      else
        let color := trim newColor in
        let house' :=
          mkHouse (h_id house) trimmed
                  (if bool_decide (color = "") then None else Some color)
                  (h_points house) (h_logo house) in
        Some (setHouses (<[i := house']> (houses data)) data)
  | _, _, _ => None
  end.

(** ** Teachers *)

(** Delete button of a teacher row, once confirmed. *)
Definition deleteTeacher (teacher : User) (data : Document) : Document :=
  setUsers (List.filter (fun u => negb (bool_decide (u_username u = u_username teacher)))
                        (users data)) data.

Definition setPassword (p : string) (u : User) : User :=
  mkUser (u_username u) p (u_role u) (u_name u) (u_houseId u)
         (u_gradeAccess u) (u_accessibleStudentIds u).

Definition setAccessibleStudentIds (ids : list Z) (u : User) : User :=
  mkUser (u_username u) (u_password u) (u_role u) (u_name u) (u_houseId u)
         (u_gradeAccess u) (Some ids).

(** Password "Edit" button of the teacher at position [i] of
    [data.users]; [None] when the prompt is cancelled. *)
Definition editPassword (i : nat) (newPwd : option string) (data : Document)
  : option Document :=
  match newPwd with
  | None => None
  | Some p => Some (setUsers (alter (setPassword p) i (users data)) data)
  end.

(** The checkbox handler of the "Manage Assigned" modal, on the
    teacher's id list. *)
Definition toggleAssigned (checked : bool) (sid : Z) (ids : list Z) : list Z :=
  if checked
  then if existsb (fun id => bool_decide (id = sid)) ids then ids else ids ++ [sid]
  else List.filter (fun id => negb (bool_decide (id = sid))) ids.

(** The teachers page and the modal opened from it.  The page works on
    the document it loaded when it was rendered ([tp_data]); the modal
    ticks boxes on a teacher object of that document (position
    [tm_teacher] of its users) but loads a document of its own
    ([tm_data]), and that one is what its Save button writes. *)
Record TeachersPage := mkTeachersPage {
  tp_data : Document;
  tp_world : World
}.

Record AssignModal := mkAssignModal {
  tm_teacher : nat;
  tm_data : option Document
}.

Definition openAssignStudentsModal (i : nat) (page : TeachersPage)
  : TeachersPage * AssignModal :=
  (mkTeachersPage
     (setUsers (alter (fun t => setAccessibleStudentIds
                                  (default [] (u_accessibleStudentIds t)) t)
                      i (users (tp_data page)))
               (tp_data page))
     (tp_world page),
   mkAssignModal i (loadData (tp_world page))).

Definition modalToggle (checked : bool) (sid : Z) (m : AssignModal) (page : TeachersPage)
  : TeachersPage :=
  mkTeachersPage
    (setUsers (alter (fun t => setAccessibleStudentIds
                                 (toggleAssigned checked sid
                                    (default [] (u_accessibleStudentIds t))) t)
                     (tm_teacher m) (users (tp_data page)))
              (tp_data page))
    (tp_world page).

Definition modalSave (m : AssignModal) (page : TeachersPage) : TeachersPage :=
  match tm_data m with
  | Some data => mkTeachersPage (tp_data page) (saveData data (tp_world page))
  | None => page
  end.

(** The page's own password edit: it saves the page's document. *)
Definition pageEditPassword (i : nat) (newPwd : option string) (page : TeachersPage)
  : TeachersPage :=
  match editPassword i newPwd (tp_data page) with
  | Some data' => mkTeachersPage data' (saveData data' (tp_world page))
  | None => page
  end.

(** The teachers page as [renderManageTeachers] builds it. *)
Definition renderManageTeachers (w : World) : option TeachersPage :=
  match loadData w with
  | Some data => Some (mkTeachersPage data w)
  | None => None
  end.

(** A run of checkbox changes in the open modal. *)
Definition modalToggles (changes : list (bool * Z)) (m : AssignModal) (page : TeachersPage)
  : TeachersPage :=
  fold_left (fun p c => modalToggle (fst c) (snd c) m p) changes page.

(** ** Student sections of the manage page *)

Definition gradeKeys : list string := ["K"; "1"; "2"; "3"; "4"; "5"].

(** The students shown under one grade heading (the page orders them by
    name afterwards). *)
Definition sectionStudents (key : string) (data : Document) : list Student :=
  List.filter (fun s => bool_decide (normalizeGrade (s_grade s) = key)) (students data).

Definition listedStudents (data : Document) : list Student :=
  concat (map (fun key => sectionStudents key data) gradeKeys).

(** ** Rewards *)

Definition setRewards (rs : list Reward) (n : Z) (d : Document) : Document :=
  mkDocument (users d) (houses d) (students d) (transactions d) rs
             (houseLimits d) (nextHouseId d) (nextStudentId d)
             (nextTransactionId d) n.

(** Submit handler of the add-reward form; [rewardCost] is the parsed
    cost, [None] for [NaN]. *)
Definition addReward (rewardName : string) (rewardCost : option Z) (data : Document)
  : option Document :=
  let name := trim rewardName in
  match rewardCost with
  | None => None
  | Some costVal =>
      if bool_decide (name = "") then None
      else Some (setRewards (rewards data ++ [mkReward (nextRewardId data) name costVal])
                            (nextRewardId data + 1) data)
  end.

(** The rows of the rewards table.  The row template reads [txn.id],
    and no [txn] is in scope in [renderRewards]: building the first row
    raises a [ReferenceError], before the row's Delete button exists.
    [None] is that exception. *)
Definition rewardRow (rew : Reward) : option string := None.

Fixpoint rewardRows (rs : list Reward) : option (list string) :=
  match rs with
  | [] => Some []
  | rew :: rest =>
      match rewardRow rew with
      | None => None
      | Some row =>
          match rewardRows rest with
          | None => None
          | Some rows => Some (row :: rows)
          end
      end
  end.

(** What [renderRewards] puts into the table body. *)
Definition renderRewards (data : Document) : option (list string) :=
  match rewardRows (rewards data) with
  | None => None
  | Some rows => if (length (rewards data) =? 0)%nat then Some ["No rewards yet."] else Some rows
  end.

(** ** Transaction history *)

(** [txns] in [renderTransactions]: the entries the page lists for the
    signed-in user. *)
Definition txns (currentUser : User) (data : Document) : list Transaction :=
  if bool_decide (u_role currentUser = "admin") then transactions data
  else List.filter (fun txn => bool_decide (t_teacherUsername txn = u_username currentUser))
                   (transactions data).

(** ** Capacity settings *)

Definition setHouseLimits (m : gmap Z (option Z)) (d : Document) : Document :=
  mkDocument (users d) (houses d) (students d) (transactions d) (rewards d)
             m (nextHouseId d) (nextStudentId d)
             (nextTransactionId d) (nextRewardId d).

(** What [getLimit] reads from the entry written for the input [v]:
    the entry is [Math.max(0, parseInt(v, 10))], and [getLimit] applies
    [parseInt] to it once more (through its text form). *)
Definition limitEntry (v : string) : option Z :=
  let readBack (m : Z) : option Z :=
    match JsNumber.parseInt (JsNumber.toString (JsNumber.Finite m)) with
    | JsNumber.Finite r => Some r
    | _ => None
    end in
  match JsNumber.parseInt v with
  | JsNumber.NaN => None
  | JsNumber.Infinity false => None
  | JsNumber.Infinity true => readBack 0
  | JsNumber.Finite z => readBack (Z.max 0 z)
  end.

(** [onchange] of the limit field of house [hid]. *)
Definition setHouseLimit (hid : Z) (inputValue : string) (data : Document) : Document :=
  let v := trim inputValue in
  if bool_decide (v = "") then setHouseLimits (delete hid (houseLimits data)) data
  else setHouseLimits (<[hid := limitEntry v]> (houseLimits data)) data.

(** ** Names as the script compares them *)

Definition houseNameKeys (hs : list House) : list string :=
  map (fun h => toLowerCase (h_name h)) hs.

Definition userNameKeys (us : list User) : list string :=
  map (fun u => toLowerCase (u_username u)) us.

(** ** More sample documents *)

(** Two houses named differently from the four arcs of the wheel; Red
    allows no student, Blue is not capped. *)
Definition blue : House := mkHouse 1 "Blue" None 0 None.
Definition red : House := mkHouse 2 "Red" None 0 None.

Definition unnamedHouses : Document :=
  mkDocument [adminUser] [blue; red] [mkStudent 1 "Bo" "3" None 0 None]
             [] [] (<[2 := Some 0]> ∅) 3 2 1 1.

(** ** Proof automation *)

(** Takes a sortedness hypothesis on a list of known length apart. *)
Ltac unfold_sorted :=
  repeat match goal with
         | H : StronglySorted _ (_ :: _) |- _ => inversion H; subst; clear H
         | H : List.Forall _ (_ :: _) |- _ => inversion H; subst; clear H
         end.

(** * Properties *)

(** ** Generic list facts *)

Lemma lookup_In {A : Type} (l : list A) (i : nat) (t : A) : l !! i = Some t -> In t l.
Proof.
  revert i. induction l as [|x l IH]; intros [|i] H; try discriminate H.
  - injection H as ->. left. reflexivity.
  - right. exact (IH i H).
Qed.

Lemma find_unique {A : Type} (key : A -> Z) (k : Z) (p : A -> bool) (l : list A) (x : A) :
  (forall y, p y = true <-> key y = k) ->
  List.NoDup (map key l) -> In x l -> key x = k -> find p l = Some x.
Proof.
  intros Hp. induction l as [|y l IH]; simpl; [intros _ []|].
  intros ND Hin Kx. apply List.NoDup_cons_iff in ND. destruct ND as [Ny ND].
  destruct (p y) eqn:E.
  - destruct Hin as [->|Hin]; [reflexivity|]. exfalso. apply Ny.
    apply Hp in E. rewrite E, <- Kx. apply in_map. exact Hin.
  - destruct Hin as [->|Hin].
    + apply Hp in Kx. congruence.
    + apply IH; assumption.
Qed.

Lemma NoDup_map_eq {A B : Type} (f : A -> B) (l : list A) (a b : A) :
  List.NoDup (map f l) -> In a l -> In b l -> f a = f b -> a = b.
Proof.
  induction l as [|x l IH]; simpl; [intros _ []|].
  intros ND Ha Hb E. apply List.NoDup_cons_iff in ND. destruct ND as [Nx ND].
  destruct Ha as [->|Ha], Hb as [->|Hb]; auto.
  - exfalso. apply Nx. rewrite E. apply in_map. exact Hb.
  - exfalso. apply Nx. rewrite <- E. apply in_map. exact Ha.
Qed.

Lemma find_map {A B : Type} (f : A -> B) (p : B -> bool) (l : list A) :
  find p (map f l) = option_map f (find (fun x => p (f x)) l).
Proof.
  induction l as [|x l IH]; simpl; [reflexivity|].
  destruct (p (f x)); [reflexivity|exact IH].
Qed.

Lemma find_ext {A : Type} (p q : A -> bool) (l : list A) :
  (forall x, p x = q x) -> find p l = find q l.
Proof.
  intros E. induction l as [|x l IH]; simpl; [reflexivity|].
  rewrite E, IH. reflexivity.
Qed.

(** ** Schema backfill *)

Lemma backfillUser_complete (u : User) : schemaComplete (backfillUser u).
Proof.
  unfold schemaComplete, backfillUser, isTeacher.
  destruct u as [un pw ro na ho ga ids]; simpl.
  destruct (bool_decide (ro = "teacher")) eqn:R; simpl.
  - destruct ids as [ids|], ga as [ga|]; simpl; rewrite ?R; simpl; eauto.
  - rewrite R. simpl. apply bool_decide_eq_false in R. tauto.
Qed.

Lemma backfillUser_id (u : User) : schemaComplete u -> backfillUser u = u.
Proof.
  unfold schemaComplete, backfillUser, isTeacher.
  destruct u as [un pw ro na ho ga ids]; simpl.
  destruct (bool_decide (ro = "teacher")) eqn:R; simpl; rewrite ?R; simpl;
    [|reflexivity].
  intros H. destruct (H (proj1 (bool_decide_eq_true _) R)) as [[g ->] [i ->]].
  simpl. rewrite R. reflexivity.
Qed.

Lemma backfillUser_idem (u : User) : backfillUser (backfillUser u) = backfillUser u.
Proof. apply backfillUser_id, backfillUser_complete. Qed.

Lemma backfillUser_fields (u : User) :
  u_username (backfillUser u) = u_username u /\
  u_password (backfillUser u) = u_password u /\
  u_role (backfillUser u) = u_role u /\
  u_gradeAccess (backfillUser u) =
    (if isTeacher u then Some (default [] (u_gradeAccess u)) else u_gradeAccess u) /\
  u_accessibleStudentIds (backfillUser u) =
    (if isTeacher u then Some (default [] (u_accessibleStudentIds u))
     else u_accessibleStudentIds u).
Proof.
  unfold backfillUser, isTeacher.
  destruct u as [un pw ro na ho ga ids]; simpl.
  destruct (bool_decide (ro = "teacher")) eqn:R; simpl.
  - destruct ids, ga; simpl; rewrite ?R; simpl; auto.
  - rewrite R. simpl. auto.
Qed.

Lemma ensureSchema_idem (x : option Document) :
  ensureSchema (ensureSchema x) = ensureSchema x.
Proof.
  destruct x as [d|]; simpl; [|reflexivity].
  unfold setUsers; simpl. rewrite map_map.
  f_equal. f_equal. apply map_ext. intros u. apply backfillUser_idem.
Qed.

(** C8, as stated, fails: reading the document repairs the copy handed
    to the caller and leaves the stored document as it was, so the next
    read repairs it again.  Shown on a read through [login]. *)
Lemma load_does_not_persist_backfill :
  let w' := fst (login "nobody" "x" legacyWorld) in
  localStorage w' = localStorage legacyWorld /\
  loadData w' <> localStorage w' /\
  (exists d u, localStorage w' = Some d /\ In u (users d) /\
               u_role u = "teacher" /\ u_gradeAccess u = None /\
               u_accessibleStudentIds u = None).
Proof.
  vm_compute. split; [reflexivity|]. split; [discriminate|].
  eexists. exists legacyTeacher. split; [reflexivity|].
  split; [right; left; reflexivity|]. repeat split; reflexivity.
Qed.

(** C8 (amended): [loadData] never fails on a stored document; in the
    document it returns every teacher carries both access fields, a
    missing one being the empty array and a present one kept; nothing
    else is touched.  The read itself writes nothing; once a handler
    saves the document it loaded, later reads find nothing to repair. *)
Theorem loadData_backfills (w : World) (d : Document) :
  localStorage w = Some d ->
  exists data,
    loadData w = Some data /\
    users data = map backfillUser (users d) /\
    Forall schemaComplete (users data) /\
    (forall u, In u (users d) -> u_role u = "teacher" ->
       u_gradeAccess (backfillUser u) = Some (default [] (u_gradeAccess u)) /\
       u_accessibleStudentIds (backfillUser u)
         = Some (default [] (u_accessibleStudentIds u))) /\
    (forall u, In u (users d) -> schemaComplete u -> backfillUser u = u) /\
    setUsers (users d) data = d /\
    loadData (saveData data w) = Some data.
Proof.
  intros H. unfold loadData. rewrite H. simpl.
  eexists. split; [reflexivity|]. simpl.
  split; [reflexivity|].
  split.
  { apply List.Forall_forall. intros u Hu. apply in_map_iff in Hu.
    destruct Hu as [u0 [<- _]]. apply backfillUser_complete. }
  split.
  { intros u _ R. destruct (backfillUser_fields u) as (_ & _ & _ & G & I).
    unfold isTeacher in G, I. rewrite bool_decide_eq_true_2 in G, I by exact R.
    auto. }
  split; [intros u _; apply backfillUser_id|].
  split; [destruct d; reflexivity|].
  unfold setUsers; simpl. rewrite map_map. f_equal. f_equal.
  apply map_ext. intros u. apply backfillUser_idem.
Qed.

Lemma loadData_backfills_witness :
  exists data,
    loadData legacyWorld = Some data /\
    users data = map backfillUser [adminUser; legacyTeacher] /\
    Forall schemaComplete (users data).
Proof.
  destruct (loadData_backfills legacyWorld
              (setUsers [adminUser; legacyTeacher] emptyDocument) eq_refl)
    as (data & L & U & F & _).
  exists data. split; [exact L|]. split; [exact U|exact F].
Defined.

(** ** Login *)

Lemma credentialsMatch_backfill (un pw : string) (u : User) :
  credentialsMatch un pw (backfillUser u) = credentialsMatch un pw u.
Proof.
  unfold credentialsMatch.
  destruct (backfillUser_fields u) as (-> & -> & _). reflexivity.
Qed.

Lemma credentialsMatch_spec (un pw : string) (u : User) :
  credentialsMatch un pw u = true <->
  toLowerCase (u_username u) = toLowerCase un /\ u_password u = pw.
Proof.
  unfold credentialsMatch. rewrite andb_true_iff, !bool_decide_eq_true. tauto.
Qed.

(** C10: with a document in the store, [login] shows the main page
    exactly when some stored user has the entered (trimmed) user name up
    to letter case and exactly the entered password; the session then
    holds the first such stored record, as [loadData] hands it out, and
    otherwise the session is left alone.  The store is never written. *)
Theorem login_succeeds_iff_credentials (un pw : string) (w : World) (d : Document) :
  localStorage w = Some d ->
  localStorage (fst (login un pw w)) = localStorage w /\
  ((exists u, In u (users d) /\
              toLowerCase (u_username u) = toLowerCase (trim un) /\
              u_password u = pw)
   <-> snd (login un pw w) = LoginShown) /\
  (snd (login un pw w) = LoginShown ->
   exists u, find (credentialsMatch (trim un) pw) (users d) = Some u /\
             In u (users d) /\
             sessionStorage (fst (login un pw w)) = Some (backfillUser u) /\
             (schemaComplete u -> sessionStorage (fst (login un pw w)) = Some u)) /\
  (snd (login un pw w) <> LoginShown ->
   sessionStorage (fst (login un pw w)) = sessionStorage w).
Proof.
  intros H. unfold login, loadData. rewrite H. simpl.
  rewrite find_map.
  rewrite (find_ext _ (credentialsMatch (trim un) pw))
    by (intros; apply credentialsMatch_backfill).
  destruct (find (credentialsMatch (trim un) pw) (users d)) as [u|] eqn:F; simpl.
  - pose proof (find_some _ _ F) as [Hin Hm].
    apply credentialsMatch_spec in Hm.
    split; [congruence|]. split.
    + split; [reflexivity|]. intros _. exists u. tauto.
    + split.
      * intros _. exists u. repeat split; auto.
        intros C. rewrite backfillUser_id by exact C. reflexivity.
      * intros N. contradiction.
  - split; [congruence|]. split.
    + split; [|discriminate].
      intros (u & Hin & Hu & Hp). exfalso.
      pose proof (find_none _ _ F u Hin) as N.
      assert (credentialsMatch (trim un) pw u = true) as T
        by (apply credentialsMatch_spec; auto).
      congruence.
    + split; [discriminate|reflexivity].
Qed.

Lemma login_succeeds_iff_credentials_witness :
  localStorage (mkWorld (Some emptyDocument) None) = Some emptyDocument /\
  ((exists u, In u (users emptyDocument) /\
              toLowerCase (u_username u) = toLowerCase (trim "  Admin ") /\
              u_password u = "admin123")
   <-> snd (login "  Admin " "admin123" (mkWorld (Some emptyDocument) None)) = LoginShown).
Proof.
  split; [reflexivity|].
  apply (login_succeeds_iff_credentials "  Admin " "admin123"
           (mkWorld (Some emptyDocument) None) emptyDocument eq_refl).
Defined.

(** ** Sums on doubles *)

Lemma roundInteger_exact (z : Z) : JsNumber.exact z -> JsNumber.roundInteger z = z.
Proof.
  unfold JsNumber.exact, JsNumber.roundInteger. intros H.
  assert (JsNumber.roundToDouble (Z.abs_N z) = Some (Z.abs_N z)) as ->.
  { destruct (N.eq_dec (Z.abs_N z) (2 ^ 53)%N) as [->|Ne]; [reflexivity|].
    unfold JsNumber.roundToDouble.
    assert ((Z.abs_N z <? 2 ^ 53)%N = true) as ->; [|reflexivity].
    apply N.ltb_lt. change (2 ^ 53)%N with (Z.to_N (2 ^ 53)) in Ne |- *. lia. }
  destruct (z <? 0) eqn:E; [apply Z.ltb_lt in E|apply Z.ltb_ge in E]; lia.
Qed.

Lemma add_exact (a b : Z) : JsNumber.exact (a + b) -> JsNumber.add a b = a + b.
Proof.
  intros H. unfold JsNumber.add.
  destruct (b =? 0) eqn:B; [apply Z.eqb_eq in B; lia|].
  destruct (a =? 0) eqn:A; [apply Z.eqb_eq in A; lia|].
  apply roundInteger_exact, H.
Qed.

Lemma add_zero (a : Z) : JsNumber.add a 0 = a.
Proof. reflexivity. Qed.



(** ** Ledger: validation *)

Lemma updateFirst_id {A : Type} (p : A -> bool) (f : A -> A) (l : list A) :
  (forall x, f x = x) -> updateFirst p f l = l.
Proof.
  intros E. induction l as [|x l IH]; simpl; [reflexivity|].
  destruct (p x); [rewrite E|rewrite IH]; reflexivity.
Qed.

Lemma updateFirst_undo {A : Type} (p : A -> bool) (f g : A -> A) (l : list A) :
  (forall x, p (f x) = p x) -> (forall x, g (f x) = x) ->
  updateFirst p g (updateFirst p f l) = l.
Proof.
  intros Hp Hg. induction l as [|x l IH]; simpl; [reflexivity|].
  destruct (p x) eqn:E; simpl.
  - rewrite Hp, E, Hg. reflexivity.
  - rewrite E, IH. reflexivity.
Qed.

Lemma addPoints_zero (s : Student) : addPoints 0 s = s.
Proof. destruct s; reflexivity. Qed.

Lemma addHousePoints_zero (h : House) : addHousePoints 0 h = h.
Proof. destruct h; reflexivity. Qed.



(** C3, as stated, fails: a zero amount for an existing student with a
    reason is accepted, and a ledger entry of amount 0 is written. *)
Lemma zero_amount_is_posted :
  let form := mkAwardForm (Some 1) (Some 0) "x" ModeAdd in
  let w' := fst (submitAwardForm form "2024-01-01T00:00:00.000Z" sampleWorld) in
  snd (submitAwardForm form "2024-01-01T00:00:00.000Z" sampleWorld)
    = AwardSuccess "Successfully added 0 point(s) for Ada." /\
  localStorage w' <> localStorage sampleWorld /\
  option_map transactions (localStorage w')
    = Some [mkTxn 1 "2024-01-01T00:00:00.000Z" "admin" 1 None 0 "x"].
Proof. vm_compute. repeat split; try reflexivity. discriminate. Qed.

(** C3 (amended): the form is turned down with an alert, and nothing is
    written, when no student is selected (no value, not a number, or 0),
    when the amount is not a number, or when the reason is empty after
    trimming.  A student id that matches no student makes the handler
    stop on a TypeError before anything is written.  Amount 0 is not
    turned down: for an existing student and a reason, the entry is
    appended with amount 0 and no balance moves. *)
Theorem submitAwardForm_validation (form : AwardForm) (now : string) (w : World) :
  (f_studentId form = None \/ f_studentId form = Some 0 \/ f_amount form = None
   \/ trim (f_note form) = "" ->
   exists msg, submitAwardForm form now w = (w, AwardAlert msg)) /\
  (forall data sid,
     f_studentId form = Some sid ->
     loadData w = Some data ->
     find (isStudent sid) (students data) = None ->
     fst (submitAwardForm form now w) = w /\
     forall msg, snd (submitAwardForm form now w) <> AwardSuccess msg) /\
  (forall data sid student currentUser,
     f_studentId form = Some sid -> sid <> 0 ->
     f_amount form = Some 0 ->
     trim (f_note form) <> "" ->
     loadData w = Some data ->
     find (isStudent sid) (students data) = Some student ->
     getCurrentUser w = Some currentUser ->
     exists data' msg,
       submitAwardForm form now w = (saveData data' w, AwardSuccess msg) /\
       students data' = students data /\
       houses data' = houses data /\
       transactions data' =
         (transactions data ++
           [mkTxn (nextTransactionId data) now (u_username currentUser) (s_id student)
                  (option_map h_id (find (isHouse (s_houseId student)) (houses data)))
                  0 (trim (f_note form))])%list).
Proof.
  split; [|split].
  - unfold submitAwardForm.
    destruct (f_studentId form) as [sid|], (f_amount form) as [a|];
      intros [H|[H|[H|H]]]; try discriminate; eauto.
    + injection H as ->. rewrite bool_decide_eq_true_2 by reflexivity. eauto.
    + destruct (bool_decide (sid = 0)); [eauto|].
      rewrite bool_decide_eq_true_2 by exact H. eauto.
  - intros data sid Hs Hl Hf. unfold submitAwardForm. rewrite Hs.
    destruct (f_amount form) as [a|]; [|split; [reflexivity|discriminate]].
    destruct (bool_decide (sid = 0)); [split; [reflexivity|discriminate]|].
    destruct (bool_decide (trim (f_note form) = ""));
      [split; [reflexivity|discriminate]|].
    rewrite Hl, Hf. split; [reflexivity|discriminate].
  - intros data sid student cu Hs Hn Ha Ht Hl Hf Hu.
    unfold submitAwardForm. rewrite Hs, Ha.
    rewrite bool_decide_eq_false_2 by exact Hn.
    rewrite bool_decide_eq_false_2 by exact Ht.
    rewrite Hl, Hf, Hu.
    assert (signedAmount (f_mode form) 0 = 0) as ->
      by (destruct (f_mode form); reflexivity).
    eexists. eexists. split; [reflexivity|]. simpl.
    split; [apply updateFirst_id, addPoints_zero|].
    split; [|reflexivity].
    destruct (find (isHouse (s_houseId student)) (houses data));
      [apply updateFirst_id, addHousePoints_zero|reflexivity].
Qed.

Lemma submitAwardForm_validation_witness :
  trim (f_note (mkAwardForm (Some 1) (Some 5) "   " ModeAdd)) = "" /\
  exists msg,
    submitAwardForm (mkAwardForm (Some 1) (Some 5) "   " ModeAdd) "now" sampleWorld
      = (sampleWorld, AwardAlert msg).
Proof.
  split; [reflexivity|].
  apply (proj1 (submitAwardForm_validation
                  (mkAwardForm (Some 1) (Some 5) "   " ModeAdd) "now" sampleWorld)).
  right; right; right. reflexivity.
Defined.

(** ** Ledger: posting and reversing *)





Lemma isHouse_addHousePoints (id : option Z) (n : Z) (h : House) :
  isHouse id (addHousePoints n h) = isHouse id h.
Proof. reflexivity. Qed.

Lemma loadData_users_backfilled (w : World) (data : Document) :
  loadData w = Some data -> map backfillUser (users data) = users data.
Proof.
  unfold loadData. destruct (localStorage w) as [d|]; simpl; [|discriminate].
  intros [= <-]. simpl. rewrite map_map. apply map_ext, backfillUser_idem.
Qed.

Lemma loadData_saved (w w' : World) (data posted : Document) :
  loadData w = Some data -> users posted = users data ->
  loadData (saveData posted w') = Some posted.
Proof.
  intros L U. unfold loadData, saveData; simpl. f_equal.
  unfold setUsers. rewrite U, (loadData_users_backfilled _ _ L), <- U.
  destruct posted; reflexivity.
Qed.




(** ** Creating students and houses *)

Lemma sumPoints_app (l1 l2 : list Student) :
  sumPoints (l1 ++ l2) = sumPoints l1 + sumPoints l2.
Proof. induction l1 as [|x l IH]; simpl; [reflexivity|rewrite IH; lia]. Qed.

Lemma filter_none {A : Type} (p : A -> bool) (l : list A) :
  Forall (fun x => p x = false) l -> List.filter p l = [].
Proof.
  induction 1 as [|x l Hx _ IH]; simpl; [reflexivity|]. rewrite Hx. exact IH.
Qed.

(** C9: a student added through the form gets the next student id,
    starts at 0 points and is named by no ledger entry; a house added
    through the form gets the next house id and starts at 0 points; and
    each creation keeps both balances (students against the ledger,
    houses against their members).  The counters are taken to hand out
    ids not yet referred to, as they do in every document the script
    builds. *)
Theorem creation_preserves_balances (data data' : Document) :
  (forall studentName studentGrade studentHouse,
     freshStudentId data ->
     addStudent studentName studentGrade studentHouse data = Some data' ->
     exists student,
       students data' = (students data ++ [student])%list /\
       s_id student = nextStudentId data /\
       s_points student = 0 /\
       ledgerOf (s_id student) data' = [] /\
       (studentBalanced data = true -> studentBalanced data' = true) /\
       (houseBalanced data = true -> houseBalanced data' = true)) /\
  (forall houseName houseColor logoData,
     freshHouseId data ->
     addHouse houseName houseColor logoData data = Some data' ->
     exists house,
       houses data' = (houses data ++ [house])%list /\
       h_id house = nextHouseId data /\
       h_points house = 0 /\
       (studentBalanced data = true -> studentBalanced data' = true) /\
       (houseBalanced data = true -> houseBalanced data' = true)).
Proof.
  split.
  - intros n g hsel Fr. unfold addStudent.
    destruct (bool_decide (trim n = "")); [discriminate|].
    intros [= <-]. eexists. split; [reflexivity|]. simpl.
    assert (ledgerOf (nextStudentId data) data = []) as Hl.
    { unfold ledgerOf. apply filter_none.
      eapply List.Forall_impl; [|exact Fr]. simpl. intros t Ne.
      apply bool_decide_eq_false_2. exact Ne. }
    split; [reflexivity|]. split; [reflexivity|]. split; [exact Hl|].
    split.
    + unfold studentBalanced; simpl. intros B.
      rewrite forallb_app. simpl. rewrite andb_true_r.
      apply andb_true_iff. split; [exact B|].
      apply bool_decide_eq_true_2.
      change (0 = sumAmounts (ledgerOf (nextStudentId data) data)).
      rewrite Hl. reflexivity.
    + unfold houseBalanced; simpl. intros B.
      rewrite forallb_forall in B |- *. intros h Hh.
      specialize (B h Hh). apply bool_decide_eq_true in B.
      apply bool_decide_eq_true_2. rewrite B.
      unfold membersOf; simpl. rewrite List.filter_app, sumPoints_app. simpl.
      destruct (bool_decide (hsel = Some (h_id h))); simpl; lia.
  - intros n c lg Fr. unfold addHouse.
    destruct (bool_decide (trim n = "")); [discriminate|].
    destruct (existsb _ (houses data)); [discriminate|].
    intros [= <-]. eexists. split; [reflexivity|]. simpl.
    split; [reflexivity|]. split; [reflexivity|].
    split; [intros B; exact B|].
    unfold houseBalanced; simpl. intros B.
    rewrite forallb_app. simpl. rewrite andb_true_r.
    apply andb_true_iff. split; [exact B|].
    apply bool_decide_eq_true_2. unfold membersOf; simpl.
    rewrite filter_none; [reflexivity|].
    eapply List.Forall_impl; [|exact Fr]. simpl. intros s Ne.
    apply bool_decide_eq_false_2. exact Ne.
Qed.

Lemma creation_preserves_balances_witness :
  freshStudentId twoHouses /\
  (exists data' student,
     addStudent " Bo " "3" (Some 2) twoHouses = Some data' /\
     students data' = (students twoHouses ++ [student])%list /\
     s_points student = 0 /\
     ledgerOf (s_id student) data' = [] /\
     studentBalanced data' = true /\ houseBalanced data' = true) /\
  freshHouseId twoHouses /\
  (exists data' house,
     addHouse " Newton " "" None twoHouses = Some data' /\
     houses data' = (houses twoHouses ++ [house])%list /\
     h_id house = 3 /\ h_points house = 0 /\
     studentBalanced data' = true /\ houseBalanced data' = true).
Proof.
  assert (freshStudentId twoHouses) as Fr
    by (repeat constructor; vm_compute; discriminate).
  assert (freshHouseId twoHouses) as Fh
    by (repeat constructor; vm_compute; discriminate).
  split; [exact Fr|]. split; [|split; [exact Fh|]].
  - destruct (addStudent " Bo " "3" (Some 2) twoHouses) as [data'|] eqn:E;
      [|vm_compute in E; discriminate].
    destruct (proj1 (creation_preserves_balances twoHouses data') _ _ _ Fr E)
      as (student & S & _ & P & L & SB & HB).
    exists data', student. repeat split; auto.
  - destruct (addHouse " Newton " "" None twoHouses) as [data'|] eqn:E;
      [|vm_compute in E; discriminate].
    destruct (proj2 (creation_preserves_balances twoHouses data') _ _ _ Fh E)
      as (house & H & I & P & SB & HB).
    exists data', house. repeat split; auto.
Defined.

(** ** House balance under reassignment *)

(** C1 fails on the sorting wheel: the handler writes the new house id
    and saves, without moving the student's points.  Ada holds 5 points
    in Darwin; the wheel stops on Curie; afterwards Darwin still shows 5
    points with no member and Curie shows 0 with Ada in it. *)
Theorem spinWheel_breaks_house_balance :
  houseBalanced twoHouses = true /\
  studentBalanced twoHouses = true /\
  exists data',
    saved (spinWheel alwaysCurie (Some 1) twoHouses) = Some data' /\
    students data' = [setHouseId (Some 2) ada] /\
    houses data' = [darwin; curie] /\
    houseBalanced data' = false.
Proof.
  split; [reflexivity|]. split; [reflexivity|].
  eexists. split; [vm_compute; reflexivity|].
  split; [reflexivity|]. split; [reflexivity|]. reflexivity.
Qed.

(** The edit overlay does move the points between the two houses, but on
    its own copy of the document: what it saves has the new house totals
    and the student still in the old house. *)
Lemma editStudentSubmit_saves_houses_only :
  exists w' student',
    editStudentSubmit ada "Ada" "5th Grade" (Some 2) (mkWorld (Some twoHouses) None)
      = Some (w', student') /\
    s_houseId student' = Some 2 /\
    option_map students (localStorage w') = Some [ada] /\
    option_map (map h_points) (option_map houses (localStorage w')) = Some [0; 5].
Proof. eexists. eexists. split; [vm_compute; reflexivity|]. repeat split. Qed.

(** ** Access filter *)

Lemma selectableStudents_spec (currentUser : User) (data : Document) (stu : Student) :
  In stu (selectableStudents currentUser data) <->
  In stu (students data) /\ In (normalizeGrade (s_grade stu)) (access currentUser).
Proof.
  unfold selectableStudents, teacherDropdowns.
  destruct (1 <? length (access currentUser))%nat.
  - rewrite in_concat. split.
    + intros (l & Hl & Hs). apply in_map_iff in Hl. destruct Hl as (gr & <- & Hg).
      apply filter_In in Hs. destruct Hs as [Hs Hb].
      apply bool_decide_eq_true in Hb. rewrite Hb. auto.
    + intros [Hs Hg]. eexists. split.
      * apply in_map_iff. eexists. split; [reflexivity|exact Hg].
      * apply filter_In. split; [exact Hs|]. apply bool_decide_eq_true_2. reflexivity.
  - simpl. rewrite app_nil_r, filter_In, existsb_exists. split.
    + intros [Hs (a & Ha & Hb)]. apply bool_decide_eq_true in Hb. subst a. auto.
    + intros [Hs Hg]. split; [exact Hs|]. eexists. split; [exact Hg|].
      apply bool_decide_eq_true_2. reflexivity.
Qed.

(** C4 fails on the award form: the dropdowns are filled from the
    teacher's grades alone and [accessibleStudentIds] is never read.
    With grade access ["2"] and student 7 granted by id, the teacher is
    offered student 1 only. *)
Theorem award_form_ignores_student_grants :
  u_accessibleStudentIds gradeTwoTeacher = Some [7] /\
  map s_id (selectableStudents gradeTwoTeacher threeStudents) = [1] /\
  forall currentUser ids data,
    selectableStudents
      (mkUser (u_username currentUser) (u_password currentUser) (u_role currentUser)
              (u_name currentUser) (u_houseId currentUser)
              (u_gradeAccess currentUser) ids) data
    = selectableStudents currentUser data.
Proof.
  split; [reflexivity|]. split; [vm_compute; reflexivity|].
  intros. reflexivity.
Qed.

(** ** Sorting wheel: capacity *)

Lemma atCapacity_not_eligible (data : Document) (hid : Z) :
  atCapacity data hid = negb (isEligible data hid).
Proof.
  unfold atCapacity, isEligible, getLimit.
  destruct (houseLimits data !! hid) as [[lim|]|]; try reflexivity.
  apply Z.leb_antisym.
Qed.

Lemma isEligible_spec (data : Document) (hid : Z) :
  isEligible data hid = true <->
  getLimit data hid = None \/ getLimit data hid = Some None \/
  exists lim, getLimit data hid = Some (Some lim) /\ getCount data hid < lim.
Proof.
  unfold isEligible. destruct (getLimit data hid) as [[lim|]|].
  - rewrite Z.ltb_lt. split.
    + intros H. right; right. eauto.
    + intros [H|[H|(l & [= <-] & H)]]; [discriminate|discriminate|exact H].
  - split; auto.
  - split; auto.
Qed.

Lemma houseByName_In (name : string) (hs : list House) (h : House) :
  houseByName name hs = Some h -> In h hs.
Proof. intros H. apply (find_some _ _ H). Qed.

Lemma resolveSegment_In (hs : list House) (angle : Z) (h : House) :
  resolveSegment hs angle = Some h -> In h hs.
Proof.
  unfold resolveSegment.
  destruct (nth_error nameMapping _) as [name|]; [|discriminate].
  destruct (houseByName name hs) as [h'|] eqn:E.
  - intros [= <-]. eapply houseByName_In, E.
  - destruct (0 <? length hs)%nat; [|discriminate]. apply nth_error_In.
Qed.

Lemma respinStep_In (rand : RandomSource) (data : Document) (st : SpinState) :
  In (selectedHouse st) (houses data) ->
  In (selectedHouse (respinStep rand data st)) (houses data).
Proof.
  intros H. unfold respinStep; simpl.
  destruct (nth_error nameMapping _) as [name|]; [|exact H].
  destruct (houseByName name (houses data)) as [h|] eqn:E; [|exact H].
  eapply houseByName_In, E.
Qed.

Section Respin.
Variable rand : RandomSource.
Variable data : Document.

Lemma respin_In (fuel : nat) (st : SpinState) :
  In (selectedHouse st) (houses data) ->
  In (selectedHouse (respin rand data fuel st)) (houses data).
Proof.
  revert st. induction fuel as [|fuel IH]; intros st H; cbn [respin]; [exact H|].
  destruct (keepSpinning data st); [|exact H].
  apply IH, respinStep_In, H.
Qed.

Lemma respin_attempts (fuel : nat) (st : SpinState) :
  (attempts st <= maxAttempts)%nat ->
  (attempts (respin rand data fuel st) <= maxAttempts)%nat.
Proof.
  revert st. induction fuel as [|fuel IH]; intros st H; cbn [respin]; [exact H|].
  destruct (keepSpinning data st) eqn:K; [|exact H].
  apply IH. unfold keepSpinning in K. apply andb_true_iff in K.
  destruct K as [_ K]. apply Nat.ltb_lt in K. simpl. lia.
Qed.

(** With [maxAttempts] passes allowed, the unrolled loop stops only
    where the [while] condition is false. *)
Lemma respin_exits (fuel : nat) (st : SpinState) :
  (maxAttempts <= attempts st + fuel)%nat ->
  keepSpinning data (respin rand data fuel st) = false.
Proof.
  revert st. induction fuel as [|fuel IH]; intros st H; cbn [respin].
  - unfold keepSpinning. apply andb_false_iff. right.
    apply Nat.ltb_ge. rewrite Nat.add_0_r in H. exact H.
  - destruct (keepSpinning data st) eqn:K; [|exact K].
    apply IH. simpl. lia.
Qed.

Lemma respin_exhausted (st : SpinState) :
  isEligible data (h_id (selectedHouse (respin rand data maxAttempts st))) = false ->
  attempts st = 0%nat ->
  attempts (respin rand data maxAttempts st) = maxAttempts.
Proof.
  intros E A.
  pose proof (respin_exits maxAttempts st ltac:(rewrite A; apply Nat.le_refl)) as X.
  pose proof (respin_attempts maxAttempts st ltac:(rewrite A; apply Nat.le_0_l)) as L.
  unfold keepSpinning in X. rewrite E in X. cbn [negb andb] in X.
  apply Nat.ltb_ge in X. apply Nat.le_antisymm; assumption.
Qed.
End Respin.

Lemma spinWheel_respects_capacity_core
      (rand : RandomSource) (selectStu : option Z) (data data' : Document) :
  saved (spinWheel rand selectStu data) = Some data' ->
  exists studentId stu h,
    selectStu = Some studentId /\
    find (isStudent studentId) (students data) = Some stu /\
    In h (houses data) /\
    isEligible data (h_id h) = true /\
    data' = setStudents (updateFirst (isStudent (s_id stu))
                                     (setHouseId (Some (h_id h))) (students data)) data.
Proof.
  unfold spinWheel. cbv zeta.
  destruct (resolveSegment _ _) as [first|] eqn:R; [|discriminate].
  set (st := respin rand data maxAttempts _).
  destruct selectStu as [studentId|]; [|discriminate].
  destruct (find (isStudent studentId) (students data)) as [stu|] eqn:F;
    [|discriminate].
  destruct (atCapacity data (h_id (selectedHouse st))) eqn:C; [discriminate|].
  cbn [saved]. intros [= <-]. exists studentId, stu, (selectedHouse st).
  split; [reflexivity|]. split; [exact F|].
  split; [apply respin_In; eapply resolveSegment_In, R|].
  split; [|reflexivity].
  rewrite atCapacity_not_eligible in C. apply negb_false_iff in C. exact C.
Qed.

(** C5, as stated, fails in its last part: when the last re-spin still
    points at a full house the handler says nothing.  With both houses
    full the loop runs its 20 passes, nothing is saved, the result text
    stays empty and the wheel is turned once more. *)
Lemma exhausted_spin_is_silent :
  respins (spinWheel alwaysCurie (Some 2) bothFull) = maxAttempts /\
  saved (spinWheel alwaysCurie (Some 2) bothFull) = None /\
  wheelAngle (spinWheel alwaysCurie (Some 2) bothFull) <> 4 * 360 + 200 /\
  ~ reportsOutcome (spinWheel alwaysCurie (Some 2) bothFull).
Proof.
  unfold reportsOutcome. vm_compute.
  repeat split; try reflexivity; try discriminate.
  intros H. apply H. reflexivity.
Qed.

(** C5 (amended): the wheel assigns a student only to a house that is
    eligible (no limit set, or fewer members than the limit) at that
    moment; an ineligible pick is re-spun, at most 20 times; and when the
    pick is still ineligible after the last re-spin no assignment is
    made: nothing is saved and nothing is announced, the result text
    staying empty. *)
Theorem spinWheel_respects_capacity
        (rand : RandomSource) (selectStu : option Z) (data : Document) :
  maxAttempts = 20%nat /\
  (respins (spinWheel rand selectStu data) <= maxAttempts)%nat /\
  (forall hid,
     isEligible data hid = true <->
     getLimit data hid = None \/ getLimit data hid = Some None \/
     exists lim, getLimit data hid = Some (Some lim) /\ getCount data hid < lim) /\
  (forall data',
     saved (spinWheel rand selectStu data) = Some data' ->
     exists studentId stu h,
       selectStu = Some studentId /\
       find (isStudent studentId) (students data) = Some stu /\
       In h (houses data) /\
       isEligible data (h_id h) = true /\
       data' = setStudents (updateFirst (isStudent (s_id stu))
                                        (setHouseId (Some (h_id h))) (students data)) data) /\
  (saved (spinWheel rand selectStu data) = None ->
   resultText (spinWheel rand selectStu data) = "") /\
  (forall first,
     resolveSegment (houses data) ((rand 0%nat 4 + 4) * 360 + rand 1%nat 360) = Some first ->
     let st := respin rand data maxAttempts
                      (mkSpinState first ((rand 0%nat 4 + 4) * 360 + rand 1%nat 360) 0 2) in
     keepSpinning data st = false /\
     (isEligible data (h_id (selectedHouse st)) = false ->
      attempts st = maxAttempts /\
      saved (spinWheel rand selectStu data) = None /\
      resultText (spinWheel rand selectStu data) = "")).
Proof.
  split; [reflexivity|].
  split.
  { unfold spinWheel. cbv zeta.
    destruct (resolveSegment _ _) as [first|]; [|apply Nat.le_0_l].
    set (st := respin rand data maxAttempts _).
    assert (attempts st <= maxAttempts)%nat as L
      by (apply respin_attempts; apply Nat.le_0_l).
    destruct (match selectStu with Some _ => _ | None => _ end); [|exact L].
    destruct (atCapacity data _); exact L. }
  split; [intros hid; apply isEligible_spec|].
  split; [intros data'; apply spinWheel_respects_capacity_core|].
  split.
  { unfold spinWheel. cbv zeta.
    destruct (resolveSegment _ _) as [first|]; [|reflexivity].
    destruct (match selectStu with Some _ => _ | None => _ end); [|reflexivity].
    destruct (atCapacity data _); [reflexivity|discriminate]. }
  intros first R st.
  split; [apply respin_exits; apply Nat.le_refl|].
  intros E.
  split; [apply respin_exhausted; [exact E|reflexivity]|].
  unfold spinWheel. cbv zeta. rewrite R. fold st.
  destruct (match selectStu with Some _ => _ | None => _ end); [|auto].
  rewrite atCapacity_not_eligible, E. auto.
Qed.

Lemma spinWheel_respects_capacity_witness :
  (exists data' studentId stu h,
     saved (spinWheel alwaysCurie (Some 2) curieFull) = Some data' /\
     find (isStudent studentId) (students curieFull) = Some stu /\
     In h (houses curieFull) /\ isEligible curieFull (h_id h) = true /\
     data' = setStudents (updateFirst (isStudent (s_id stu))
                                      (setHouseId (Some (h_id h))) (students curieFull))
                         curieFull) /\
  saved (spinWheel alwaysCurie (Some 2) bothFull) = None /\
  resultText (spinWheel alwaysCurie (Some 2) bothFull) = "".
Proof.
  split.
  - destruct (saved (spinWheel alwaysCurie (Some 2) curieFull)) as [data'|] eqn:E;
      [|vm_compute in E; discriminate].
    destruct (spinWheel_respects_capacity alwaysCurie (Some 2) curieFull)
      as (_ & _ & _ & A & _).
    destruct (A data' E) as (studentId & stu & h & _ & F & I & El & D).
    exists data', studentId, stu, h. auto.
  - destruct (spinWheel_respects_capacity alwaysCurie (Some 2) bothFull)
      as (_ & _ & _ & _ & _ & X).
    apply (X curie); vm_compute; reflexivity.
Defined.

(** ** Sorting wheel: from angle to house *)

Lemma segSizeLocal_eq : segSizeLocal = 90.
Proof. reflexivity. Qed.

Lemma segmentIndex_eq (angle : Z) :
  0 <= angle -> segmentIndex angle = (360 - angle mod 360) mod 360 / 90.
Proof.
  intros H. unfold segmentIndex. rewrite segSizeLocal_eq.
  rewrite (Z.rem_mod_nonneg angle 360) by lia.
  pose proof (Z.mod_pos_bound angle 360 ltac:(lia)).
  rewrite Z.rem_mod_nonneg by lia. reflexivity.
Qed.

Lemma segmentIndex_range (angle : Z) : 0 <= angle -> 0 <= segmentIndex angle < 4.
Proof.
  intros H. rewrite segmentIndex_eq by exact H.
  pose proof (Z.mod_pos_bound (360 - angle mod 360) 360 ltac:(lia)) as B.
  split.
  - apply Z.div_pos; lia.
  - apply Z.div_lt_upper_bound; lia.
Qed.

(** Full turns of the wheel do not move the pointer's segment; this
    holds for the first spin and for the cumulative angle of a re-spin. *)
Lemma segmentIndex_full_turns (turns angle : Z) :
  0 <= turns -> 0 <= angle ->
  segmentIndex (turns * 360 + angle) = segmentIndex angle.
Proof.
  intros Ht Ha. rewrite !segmentIndex_eq by nia.
  rewrite Z.add_comm, Z.mod_add by lia. reflexivity.
Qed.

(** The first spin does what the specification says: when it stops at
    [spins * 360 + a] with [a] in [0, 360), the house depends on [a]
    alone.  The pointer falls in arc
    [(360 - a) mod 360 / 90], one of four arcs of 90 degrees; the arc
    picks the name at that position of [Darwin; Curie; Hippocretes;
    Newton]; the house is the first one whose name equals it up to letter
    case, and failing that the house at position arc mod number of
    houses. *)
Theorem first_spin_depends_on_angle_only (hs : list House) (spins a : Z) :
  0 <= spins -> 0 <= a < 360 ->
  let arc := (360 - a) mod 360 / 90 in
  0 <= arc < 4 /\
  90 * arc <= (360 - a) mod 360 < 90 * (arc + 1) /\
  segmentIndex (spins * 360 + a) = arc /\
  resolveSegment hs (spins * 360 + a) = resolveSegment hs a /\
  exists name,
    nth_error ["Darwin"; "Curie"; "Hippocretes"; "Newton"] (Z.to_nat arc) = Some name /\
    resolveSegment hs (spins * 360 + a) =
      match find (fun h => bool_decide (toLowerCase (h_name h) = toLowerCase name)) hs with
      | Some h => Some h
      | None => nth_error hs (Z.to_nat (arc mod Z.of_nat (length hs)))
      end.
Proof.
  intros Hs Ha arc.
  assert (segmentIndex a = arc) as Ea.
  { rewrite segmentIndex_eq by lia. unfold arc. rewrite (Z.mod_small a 360) by lia.
    reflexivity. }
  assert (segmentIndex (spins * 360 + a) = arc) as Es
    by (rewrite segmentIndex_full_turns by lia; exact Ea).
  assert (0 <= arc < 4) as Hr by (rewrite <- Ea; apply segmentIndex_range; lia).
  split; [exact Hr|].
  split.
  { unfold arc.
    pose proof (Z.mod_pos_bound (360 - a) 360 ltac:(lia)) as B.
    pose proof (Z.div_mod ((360 - a) mod 360) 90 ltac:(lia)) as D.
    pose proof (Z.mod_pos_bound ((360 - a) mod 360) 90 ltac:(lia)) as M.
    lia. }
  split; [exact Es|].
  split; [unfold resolveSegment; rewrite Es, Ea; reflexivity|].
  unfold resolveSegment. rewrite Es.
  change (Z.of_nat (length nameMapping)) with 4.
  rewrite (Z.rem_small arc 4) by lia.
  assert (arc = 0 \/ arc = 1 \/ arc = 2 \/ arc = 3) as C by lia.
  assert (forall name,
    match houseByName name hs with
    | Some h => Some h
    | None => if (0 <? length hs)%nat
              then nth_error hs (Z.to_nat (Z.rem arc (Z.of_nat (length hs))))
              else None
    end =
    match find (fun h => bool_decide (toLowerCase (h_name h) = toLowerCase name)) hs with
    | Some h => Some h
    | None => nth_error hs (Z.to_nat (arc mod Z.of_nat (length hs)))
    end) as Fb.
  { intros name. unfold houseByName. destruct (find _ hs); [reflexivity|].
    destruct hs as [|h hs'].
    - simpl. destruct (Z.to_nat _); reflexivity.
    - cbn [length Nat.ltb Nat.leb]. rewrite Z.rem_mod_nonneg by lia. reflexivity. }
  destruct C as [C|[C|[C|C]]]; rewrite C in *; cbn [Z.to_nat Pos.to_nat nth_error nameMapping];
    eexists; (split; [reflexivity|]); apply Fb.
Qed.

Lemma first_spin_depends_on_angle_only_witness :
  0 <= 6 /\ 0 <= 200 < 360 /\
  segmentIndex (6 * 360 + 200) = 1 /\
  resolveSegment [darwin; curie] (6 * 360 + 200) = resolveSegment [darwin; curie] 200.
Proof.
  assert (0 <= 6) as H1 by lia.
  assert (0 <= 200 < 360) as H2 by lia.
  split; [exact H1|]. split; [exact H2|].
  destruct (first_spin_depends_on_angle_only [darwin; curie] 6 200 H1 H2)
    as (_ & _ & E & R & _).
  split; [exact E|exact R].
Defined.

(** C6 fails on the re-spins.  The handler maps the cumulative angle of
    a re-spin to an arc as on the first spin and looks the arc's name up
    in the same way, but where no house carries the name it keeps the
    previous pick instead of taking the house at position arc mod
    number of houses.  With the houses Blue and Red, Red allowing no
    student: the first spin stops at 4 * 360 + 200 and picks Red by
    position; the fourth re-spin stops at 10 * 360 + 280, where the rule
    of the first spin gives Blue, which has room, and the handler still
    holds Red; it goes on to use up its 20 re-spins and assigns nobody. *)
Theorem respin_ignores_position_fallback :
  let st := respin alwaysCurie unnamedHouses 4 (mkSpinState red (4 * 360 + 200) 0 2) in
  resolveSegment (houses unnamedHouses) (4 * 360 + 200) = Some red /\
  isEligible unnamedHouses (h_id red) = false /\
  attempts st = 4%nat /\
  baseAngle st = 10 * 360 + 280 /\
  resolveSegment (houses unnamedHouses) (baseAngle st) = Some blue /\
  isEligible unnamedHouses (h_id blue) = true /\
  selectedHouse st = red /\
  saved (spinWheel alwaysCurie (Some 1) unnamedHouses) = None /\
  respins (spinWheel alwaysCurie (Some 1) unnamedHouses) = maxAttempts.
Proof. vm_compute. repeat split. Qed.

(** ** Numbers: rounding and printing *)

Module JsNumberFacts.
Import JsNumber.
Local Open Scope N_scope.

Lemma roundToDouble_small (n : N) : n < 2 ^ 53 -> roundToDouble n = Some n.
Proof.
intros H. unfold roundToDouble. apply N.ltb_lt in H. rewrite H. reflexivity.
Qed.

(** The shape of a rounded value above 2^53. *)
Lemma roundToDouble_large (n v : N) :
2 ^ 53 <= n -> roundToDouble n = Some v ->
exists e q', 1 <= e /\ 52 + e = N.log2 n /\ v = q' * 2 ^ e /\ v < 2 ^ 1024 /\
             n / 2 ^ e <= q' <= n / 2 ^ e + 1 /\ 2 ^ 52 <= n / 2 ^ e < 2 ^ 53.
Proof.
intros Hn. unfold roundToDouble.
destruct (n <? 2 ^ 53) eqn:E; [apply N.ltb_lt in E; lia|].
assert (53 <= N.log2 n) as HL.
{ change 53 with (N.log2 (2 ^ 53)). apply N.log2_le_mono. exact Hn. }
set (e := N.log2 n - 52).
assert (0 < n) as Hpos by (pose proof (N.pow_nonzero 2 53); lia).
destruct (N.log2_spec n Hpos) as [Lo Hi].
assert (N.log2 n = 52 + e) as EL by lia.
rewrite EL in Lo. rewrite EL, <- N.add_succ_l in Hi.
rewrite N.pow_add_r in Lo, Hi.
assert (2 ^ e <> 0) as Hne by (apply N.pow_nonzero; lia).
assert (2 ^ 52 <= n / 2 ^ e) as Q1.
{ apply N.div_le_lower_bound; [exact Hne|]. lia. }
assert (n / 2 ^ e < 2 ^ 53) as Q2.
{ apply N.Div0.div_lt_upper_bound. change (N.succ 52) with 53 in Hi. lia. }
cbv zeta. fold e.
match goal with
| |- context [if ?c then n / 2 ^ e + 1 else n / 2 ^ e] =>
    set (q' := if c then n / 2 ^ e + 1 else n / 2 ^ e)
end.
destruct (2 ^ 1024 <=? q' * 2 ^ e) eqn:O; [discriminate|].
intros [= <-]. exists e, q'. apply N.leb_gt in O.
repeat split; try lia.
- subst q'. destruct (_ || _); lia.
- subst q'. destruct (_ || _); lia.
Qed.

Lemma pow2_log2_unique (a b : N) : 2 ^ b <= a < 2 ^ (b + 1) -> N.log2 a = b.
Proof.
intros H. apply N.log2_unique; [lia|]. rewrite <- N.add_1_r. exact H.
Qed.

(** Rounding is idempotent: a double reads back as itself. *)
Lemma roundToDouble_idem (n v : N) :
roundToDouble n = Some v -> roundToDouble v = Some v.
Proof.
intros H. destruct (N.lt_ge_cases n (2 ^ 53)) as [Hs|Hl].
- rewrite roundToDouble_small in H by exact Hs. injection H as <-.
  apply roundToDouble_small. exact Hs.
- destruct (roundToDouble_large n v Hl H) as (e & q' & He & HL & Hv & Hmax & Hq & Hr).
  assert (2 ^ e <> 0) as Hne by (apply N.pow_nonzero; lia).
  assert (2 ^ 52 <= q' <= 2 ^ 53) as Hq' by lia.
  assert (2 <= 2 ^ e) as H2e.
  { change 2 with (2 ^ 1) at 1. apply N.pow_le_mono_r; lia. }
  assert (2 ^ 53 <= v) as Hv53.
  { rewrite Hv. change (2 ^ 53) with (2 ^ 52 * 2). apply N.mul_le_mono; lia. }
  unfold roundToDouble.
  destruct (v <? 2 ^ 53) eqn:E; [apply N.ltb_lt in E; lia|].
  cbv zeta.
  destruct (N.eq_dec q' (2 ^ 53)) as [Eq|Nq].
  + (* rounded up to the next power of two *)
    assert (N.log2 v = 53 + e) as Lv.
    { apply pow2_log2_unique. rewrite Hv, Eq, <- N.pow_add_r.
      split; [lia|]. apply N.pow_lt_mono_r; lia. }
    rewrite Lv. replace (53 + e - 52) with (e + 1) by lia.
    replace (e + 1 - 1) with e by lia.
    assert (v = 2 ^ 52 * 2 ^ (e + 1)) as Hv'.
    { rewrite Hv, Eq, N.pow_add_r. change (2 ^ 53) with (2 ^ 52 * 2 ^ 1). lia. }
    assert (2 ^ (e + 1) <> 0) as Hne' by (apply N.pow_nonzero; lia).
    assert (v / 2 ^ (e + 1) = 2 ^ 52) as Dv
      by (rewrite Hv'; apply N.div_mul; exact Hne').
    assert (v mod 2 ^ (e + 1) = 0) as Mv
      by (rewrite Hv'; apply N.Div0.mod_mul).
    rewrite Dv, Mv.
    assert ((2 ^ e <? 0) = false) as -> by (apply N.ltb_ge; lia).
    assert ((0 =? 2 ^ e) = false) as -> by (apply N.eqb_neq; lia).
    cbn [orb andb]. rewrite <- Hv'.
    apply N.leb_gt in Hmax. rewrite Hmax. reflexivity.
  + assert (N.log2 v = 52 + e) as Lv.
    { apply pow2_log2_unique. rewrite Hv.
      replace (52 + e + 1) with (53 + e) by lia. rewrite !N.pow_add_r.
      split; [apply N.mul_le_mono_r; lia|apply N.mul_lt_mono_pos_r; lia]. }
    rewrite Lv. replace (52 + e - 52) with e by lia.
    assert (v / 2 ^ e = q') as Dv by (rewrite Hv; apply N.div_mul; exact Hne).
    assert (v mod 2 ^ e = 0) as Mv by (rewrite Hv; apply N.Div0.mod_mul).
    rewrite Dv, Mv.
    assert (1 <= 2 ^ (e - 1)) as Hh.
    { change 1 with (2 ^ 0) at 1. apply N.pow_le_mono_r; lia. }
    assert ((2 ^ (e - 1) <? 0) = false) as -> by (apply N.ltb_ge; lia).
    assert ((0 =? 2 ^ (e - 1)) = false) as -> by (apply N.eqb_neq; lia).
    cbn [orb andb]. rewrite <- Hv.
    apply N.leb_gt in Hmax. rewrite Hmax. reflexivity.
Qed.

(** Rounding does not cross 10^21 downwards (10^21 is itself a double). *)
Lemma roundToDouble_ge_1e21 (c v : N) :
10 ^ 21 <= c -> roundToDouble c = Some v -> 10 ^ 21 <= v.
Proof.
intros Hc H.
assert (2 ^ 53 <= c) as Hl by (transitivity (10 ^ 21); [vm_compute; discriminate|exact Hc]).
destruct (roundToDouble_large c v Hl H) as (e & q' & He & HL & Hv & Hmax & Hq & Hr).
assert (2 ^ e <> 0) as Hne by (apply N.pow_nonzero; lia).
destruct (N.lt_ge_cases c (2 ^ 70)) as [Hlt|Hge].
- assert (N.log2 c = 69) as L69.
  { apply pow2_log2_unique. split; [|exact Hlt].
    transitivity (10 ^ 21); [vm_compute; discriminate|exact Hc]. }
  assert (e = 17) as -> by lia.
  assert (10 ^ 21 / 2 ^ 17 <= c / 2 ^ 17) as Hd by (apply N.Div0.div_le_mono; exact Hc).
  rewrite Hv. transitivity (c / 2 ^ 17 * 2 ^ 17); [|apply N.mul_le_mono_r; lia].
  transitivity (10 ^ 21 / 2 ^ 17 * 2 ^ 17); [vm_compute; discriminate|].
  apply N.mul_le_mono_r. exact Hd.
- assert (70 <= N.log2 c) as L70.
  { change 70 with (N.log2 (2 ^ 70)). apply N.log2_le_mono. exact Hge. }
  rewrite Hv. transitivity (2 ^ 52 * 2 ^ e); [|apply N.mul_le_mono_r; lia].
  rewrite <- N.pow_add_r. transitivity (2 ^ 70); [vm_compute; discriminate|].
  apply N.pow_le_mono_r; lia.
Qed.

(** *** Decimal digits *)

Lemma digitChar_code (d : N) : d < 10 -> N_of_ascii (digitChar d) = 48 + d.
Proof.
intros H. unfold digitChar. apply N_ascii_embedding. lia.
Qed.

Lemma digitValue_digitChar (d : N) : d < 10 -> digitValue (digitChar d) = d.
Proof. intros H. unfold digitValue. rewrite digitChar_code by exact H. lia. Qed.

Lemma isDigit_digitChar (d : N) : d < 10 -> isDigit (digitChar d) = true.
Proof.
intros H. unfold isDigit. rewrite digitChar_code by exact H.
apply andb_true_iff. split; apply N.leb_le; lia.
Qed.

Lemma digitsValue_app (a : N) (s t : string) :
digitsValue a (s ++ t) = digitsValue (digitsValue a s) t.
Proof. revert a. induction s as [|c s IH]; intros a; simpl; [reflexivity|apply IH]. Qed.

Lemma digitsValue_zeros (a : N) (p : nat) :
digitsValue a (zeros p) = a * 10 ^ N.of_nat p.
Proof.
revert a. induction p as [|p IH]; intros a.
- simpl. lia.
- cbn [zeros digitsValue]. rewrite IH. change (digitValue "0") with 0.
  rewrite Nat2N.inj_succ, N.pow_succ_r'. lia.
Qed.

Lemma digitsValue_decimalAux (fuel : nat) (n : N) (acc : string) :
n < 2 ^ N.of_nat fuel ->
digitsValue 0 (decimalAux fuel n acc) = digitsValue n acc.
Proof.
revert n acc. induction fuel as [|fuel IH]; intros n acc H.
- simpl in H. assert (n = 0) as -> by lia. reflexivity.
- cbn [decimalAux].
  assert (n mod 10 < 10) as Hm by (apply N.mod_lt; lia).
  pose proof (N.div_mod n 10 ltac:(lia)) as Hd.
  destruct (n / 10 =? 0) eqn:E.
  + apply N.eqb_eq in E. cbn [digitsValue].
    rewrite digitValue_digitChar by exact Hm. f_equal. lia.
  + rewrite IH.
    * cbn [digitsValue]. rewrite digitValue_digitChar by exact Hm. f_equal. lia.
    * rewrite Nat2N.inj_succ, N.pow_succ_r' in H.
      apply N.Div0.div_lt_upper_bound. lia.
Qed.

Lemma digitsValue_decimal (n : N) : digitsValue 0 (decimal n) = n.
Proof.
unfold decimal. rewrite digitsValue_decimalAux; [reflexivity|].
rewrite Nat2N.inj_succ, N2Nat.id.
destruct n as [|p]; [reflexivity|].
apply N.log2_spec. lia.
Qed.

Lemma allDigits_app (s t : string) :
allDigits (s ++ t) = allDigits s && allDigits t.
Proof.
induction s as [|c s IH]; simpl; [reflexivity|]. rewrite IH, andb_assoc. reflexivity.
Qed.

Lemma allDigits_zeros (p : nat) : allDigits (zeros p) = true.
Proof. induction p as [|p IH]; simpl; [reflexivity|exact IH]. Qed.

Lemma allDigits_decimalAux (fuel : nat) (n : N) (acc : string) :
allDigits acc = true -> allDigits (decimalAux fuel n acc) = true.
Proof.
revert n acc. induction fuel as [|fuel IH]; intros n acc H; cbn [decimalAux];
  [exact H|].
assert (allDigits (String (digitChar (n mod 10)) acc) = true) as H'.
{ cbn [allDigits]. rewrite H, isDigit_digitChar; [reflexivity|].
  apply N.mod_lt; lia. }
destruct (n / 10 =? 0); [exact H'|apply IH, H'].
Qed.

Lemma allDigits_decimal (n : N) : allDigits (decimal n) = true.
Proof. apply allDigits_decimalAux. reflexivity. Qed.

Lemma decimalAux_nonempty (fuel : nat) (n : N) (acc : string) :
acc <> EmptyString -> decimalAux fuel n acc <> EmptyString.
Proof.
revert n acc. induction fuel as [|fuel IH]; intros n acc H; cbn [decimalAux];
  [exact H|].
destruct (n / 10 =? 0); [discriminate|apply IH; discriminate].
Qed.

Lemma decimal_nonempty (n : N) : decimal n <> EmptyString.
Proof.
unfold decimal. cbn [decimalAux].
destruct (n / 10 =? 0); [discriminate|apply decimalAux_nonempty; discriminate].
Qed.

Lemma length_decimalAux (fuel m : nat) (n : N) (acc : string) :
(1 <= m)%nat -> n < 10 ^ N.of_nat m ->
(String.length (decimalAux fuel n acc) <= String.length acc + m)%nat.
Proof.
revert m n acc. induction fuel as [|fuel IH]; intros m n acc Hm H; cbn [decimalAux].
- lia.
- destruct (n / 10 =? 0) eqn:E.
  + cbn [String.length]. lia.
  + apply N.eqb_neq in E.
    assert (10 <= n) as H10.
    { destruct (N.lt_ge_cases n 10) as [L|G]; [|exact G].
      rewrite N.div_small in E by exact L. congruence. }
    destruct m as [|[|m]]; [lia| simpl in H; lia |].
    rewrite (IH (S m)); [cbn [String.length]; lia|lia|].
    rewrite (Nat2N.inj_succ (S m)), N.pow_succ_r' in H.
    apply N.Div0.div_lt_upper_bound. lia.
Qed.

Lemma length_decimal (m : nat) (n : N) :
(1 <= m)%nat -> n < 10 ^ N.of_nat m -> (String.length (decimal n) <= m)%nat.
Proof. intros Hm H. apply (length_decimalAux _ m n EmptyString Hm H). Qed.

Lemma roundsTo_spec (c v : N) : roundsTo c v = true <-> roundToDouble c = Some v.
Proof.
unfold roundsTo. destruct (roundToDouble c) as [x|].
- rewrite N.eqb_eq. split; [intros ->; reflexivity|intros [= ->]; reflexivity].
- split; discriminate.
Qed.

Lemma candidate_sound (v : N) (p : nat) (s : N) :
candidate v p = Some s -> roundToDouble (s * 10 ^ N.of_nat p) = Some v.
Proof.
unfold candidate. cbv zeta.
set (w := 10 ^ N.of_nat p). set (lo := v / w).
destruct ((0 <? lo) && roundsTo (lo * w) v) eqn:A;
  destruct (roundsTo ((lo + 1) * w) v) eqn:B.
- apply andb_true_iff in A. destruct A as [_ A].
  apply roundsTo_spec in A, B.
  destruct (_ <? _); [intros [= <-]; exact A|].
  destruct (_ <? _); [intros [= <-]; exact B|].
  destruct (N.even lo); intros [= <-]; assumption.
- apply andb_true_iff in A. destruct A as [_ A].
  apply roundsTo_spec in A. intros [= <-]. exact A.
- apply roundsTo_spec in B. intros [= <-]. exact B.
- discriminate.
Qed.

Lemma shortest_sound (v : N) (p : nat) (s : N) (q : nat) :
roundToDouble v = Some v -> shortest v p = (s, q) ->
roundToDouble (s * 10 ^ N.of_nat q) = Some v.
Proof.
intros Hv. induction p as [|p IH]; cbn [shortest].
- intros [= <- <-]. simpl. rewrite N.mul_1_r. exact Hv.
- destruct (candidate v (S p)) as [s'|] eqn:C.
  + intros [= <- <-]. apply candidate_sound, C.
  + exact IH.
Qed.

(** Below 1e21 a double prints as plain digits that read back as it. *)
Lemma magnitudeToString_plain (v : N) :
roundToDouble v = Some v -> v < 10 ^ 21 ->
exists ds, magnitudeToString v = ds /\ ds <> EmptyString /\ allDigits ds = true /\
           roundToDouble (digitsValue 0 ds) = Some v.
Proof.
intros Hv Hlt. unfold magnitudeToString.
destruct (v =? 0) eqn:Z.
- apply N.eqb_eq in Z. subst v. exists "0"%string.
  split; [reflexivity|]. split; [discriminate|]. split; reflexivity.
- apply N.eqb_neq in Z.
  destruct (shortest v (String.length (decimal v))) as [s q] eqn:S.
  pose proof (shortest_sound _ _ _ _ Hv S) as R.
  assert (s * 10 ^ N.of_nat q < 10 ^ 21) as Hc.
  { destruct (N.lt_ge_cases (s * 10 ^ N.of_nat q) (10 ^ 21)) as [L|G]; [exact L|].
    pose proof (roundToDouble_ge_1e21 _ _ G R). lia. }
  assert (s <> 0) as Hs.
  { intros ->. rewrite N.mul_0_l in R. vm_compute in R. congruence. }
  assert (q < 21)%nat as Hq.
  { destruct (Nat.lt_ge_cases q 21) as [L|G]; [exact L|]. exfalso.
    assert (10 ^ 21 <= 10 ^ N.of_nat q) by (apply N.pow_le_mono_r; lia).
    nia. }
  assert (String.length (decimal s) + q <= 21)%nat as Hlen.
  { assert (String.length (decimal s) <= 21 - q)%nat; [|lia].
    apply length_decimal; [lia|].
    replace (10 ^ 21) with (10 ^ N.of_nat (21 - q) * 10 ^ N.of_nat q) in Hc.
    - apply N.mul_lt_mono_pos_r in Hc; [exact Hc|].
      assert (10 ^ N.of_nat q <> 0) by (apply N.pow_nonzero; lia). lia.
    - rewrite <- N.pow_add_r. f_equal. lia. }
  apply Nat.leb_le in Hlen. rewrite Hlen.
  eexists. split; [reflexivity|].
  split.
  { pose proof (decimal_nonempty s). destruct (decimal s); [congruence|discriminate]. }
  split; [rewrite allDigits_app, allDigits_decimal, allDigits_zeros; reflexivity|].
  rewrite digitsValue_app, digitsValue_decimal, digitsValue_zeros. exact R.
Qed.

End JsNumberFacts.

(** ** Grade normalisation *)

Import JsNumber JsNumberFacts.

Lemma digit_char_facts (c : ascii) :
  isDigit c = true ->
  isWhiteSpace c = false /\ lowerChar c = c /\ c <> "k"%char /\
  Ascii.eqb c "-" = false /\ Ascii.eqb c "+" = false.
Proof.
  destruct c as [[] [] [] [] [] [] [] []]; vm_compute; intros H;
    try discriminate H; repeat split; discriminate.
Qed.

Lemma trimEnd_digits (ds : string) : allDigits ds = true -> trimEnd ds = ds.
Proof.
  induction ds as [|c r IH]; cbn [allDigits trimEnd]; [reflexivity|].
  intros H. apply andb_true_iff in H. destruct H as [Hc Hr].
  rewrite (IH Hr). destruct r; [|reflexivity].
  destruct (digit_char_facts c Hc) as (-> & _). reflexivity.
Qed.

Lemma toLowerCase_digits (ds : string) : allDigits ds = true -> toLowerCase ds = ds.
Proof.
  induction ds as [|c r IH]; cbn [allDigits toLowerCase]; [reflexivity|].
  intros H. apply andb_true_iff in H. destruct H as [Hc Hr].
  rewrite (IH Hr). destruct (digit_char_facts c Hc) as (_ & -> & _). reflexivity.
Qed.

Lemma takeDigits_digits (ds : string) : allDigits ds = true -> takeDigits ds = ds.
Proof.
  induction ds as [|c r IH]; cbn [allDigits takeDigits]; [reflexivity|].
  intros H. apply andb_true_iff in H. destruct H as [Hc Hr].
  rewrite Hc, (IH Hr). reflexivity.
Qed.

Lemma allDigits_takeDigits (s : string) : allDigits (takeDigits s) = true.
Proof.
  induction s as [|c r IH]; cbn [takeDigits]; [reflexivity|].
  destruct (isDigit c) eqn:E; [|reflexivity]. cbn [allDigits]. rewrite E, IH. reflexivity.
Qed.

Lemma startsWith_other (c a : ascii) (r p : string) :
  c <> a -> startsWith (String c r) (String a p) = false.
Proof.
  intros H. unfold startsWith. cbn [String.prefix].
  destruct (ascii_dec a c); [congruence|reflexivity].
Qed.

Lemma trim_digits (ds : string) : allDigits ds = true -> trim ds = ds.
Proof.
  intros H. unfold trim. destruct ds as [|c r]; [reflexivity|].
  pose proof H as H'. cbn [allDigits] in H'. apply andb_true_iff in H'.
  destruct H' as [Hc _]. cbn [trimStart].
  destruct (digit_char_facts c Hc) as (-> & _). apply trimEnd_digits, H.
Qed.

Lemma parseInt_digits (ds : string) :
  ds <> "" -> allDigits ds = true ->
  parseInt ds = match roundToDouble (digitsValue 0 ds) with
                | None => Infinity false
                | Some m => Finite (Z.of_N m)
                end.
Proof.
  intros Hne H. destruct ds as [|c r]; [congruence|].
  pose proof H as H'. cbn [allDigits] in H'. apply andb_true_iff in H'.
  destruct H' as [Hc _].
  destruct (digit_char_facts c Hc) as (W & _ & _ & M & P).
  unfold parseInt. cbn [trimStart]. rewrite W, M, P.
  rewrite (takeDigits_digits _ H). reflexivity.
Qed.

Lemma matchHere_digits (ds : string) :
  ds <> "" -> allDigits ds = true -> matchHere ds = Some ds.
Proof.
  intros Hne H. destruct ds as [|c r]; [congruence|].
  pose proof H as H'. cbn [allDigits] in H'. apply andb_true_iff in H'.
  destruct H' as [Hc _].
  destruct (digit_char_facts c Hc) as (_ & _ & K & _).
  unfold matchHere. rewrite !startsWith_other by exact K.
  rewrite (takeDigits_digits _ H). reflexivity.
Qed.

Lemma normalizeGrade_digits (ds : string) :
  ds <> "" -> allDigits ds = true ->
  normalizeGrade ds = toString (parseInt ds).
Proof.
  intros Hne H. unfold normalizeGrade.
  rewrite bool_decide_eq_false_2 by exact Hne.
  rewrite (trim_digits _ H), (toLowerCase_digits _ H).
  destruct ds as [|c r]; [congruence|].
  pose proof H as H'. cbn [allDigits] in H'. apply andb_true_iff in H'.
  destruct H' as [Hc _].
  destruct (digit_char_facts c Hc) as (_ & _ & K & _).
  rewrite bool_decide_eq_false_2 by congruence.
  rewrite startsWith_other by exact K. cbn [orb].
  assert (regexMatch (String c r) = Some (String c r)) as ->.
  { cbn [regexMatch]. rewrite matchHere_digits by assumption. reflexivity. }
  rewrite !bool_decide_eq_false_2 by congruence. reflexivity.
Qed.

Lemma matchHere_cases (s val : string) :
  matchHere s = Some val ->
  val = "k" \/ val = "kindergarten" \/ (val <> "" /\ allDigits val = true).
Proof.
  unfold matchHere.
  destruct (startsWith s "k"); [intros [= <-]; auto|].
  destruct (startsWith s "kindergarten"); [intros [= <-]; auto|].
  pose proof (allDigits_takeDigits s) as A.
  destruct (takeDigits s) as [|c r]; [discriminate|].
  intros [= <-]. right; right. split; [discriminate|exact A].
Qed.

Lemma regexMatch_cases (s val : string) :
  regexMatch s = Some val ->
  val = "k" \/ val = "kindergarten" \/ (val <> "" /\ allDigits val = true).
Proof.
  induction s as [|c r IH]; cbn [regexMatch].
  - destruct (matchHere "") eqn:E; [|discriminate].
    intros [= <-]. eapply matchHere_cases, E.
  - destruct (matchHere (String c r)) eqn:E; [|exact IH].
    intros [= <-]. eapply matchHere_cases, E.
Qed.

Lemma toString_of_N (m : N) : toString (Finite (Z.of_N m)) = magnitudeToString m.
Proof.
  unfold toString.
  assert ((Z.of_N m <? 0)%Z = false) as -> by (apply Z.ltb_ge; lia).
  rewrite Zabs2N.id. reflexivity.
Qed.

(** Plain digit strings that read back as the double they print are
    fixed by [normalizeGrade]. *)
Lemma normalizeGrade_number_fixed (m : N) :
  roundToDouble m = Some m -> (m < 10 ^ 21)%N ->
  normalizeGrade (magnitudeToString m) = magnitudeToString m.
Proof.
  intros Hm Hlt.
  destruct (magnitudeToString_plain m Hm Hlt) as (ds & E & Hne & Hd & R).
  rewrite E. rewrite normalizeGrade_digits, parseInt_digits by assumption.
  rewrite R, toString_of_N. exact E.
Qed.

(** C7, as stated, fails: a run of 22 digits is printed in exponent
    notation, and normalising that text again keeps only its first
    digit. *)
Lemma normalizeGrade_not_idempotent :
  normalizeGrade "1000000000000000000000" = "1e+21" /\
  normalizeGrade (normalizeGrade "1000000000000000000000") = "1" /\
  normalizeGrade (normalizeGrade "1000000000000000000000")
    <> normalizeGrade "1000000000000000000000".
Proof. vm_compute. repeat split; try reflexivity. discriminate. Qed.

(** C7 (amended): [normalizeGrade] is a function of its argument; it
    sends "Kindergarten" to "K", "5th Grade" to "5", the empty string to
    itself and "05" to "5"; and it is idempotent on every input whose
    matched digit run, if any, parses to a number below 1e21, the range
    in which [String] prints plain digits. *)
Theorem normalizeGrade_idempotent_below_1e21 (x : string) :
  normalizeGrade "Kindergarten" = "K" /\
  normalizeGrade "5th Grade" = "5" /\
  normalizeGrade "" = "" /\
  normalizeGrade "05" = "5" /\
  ((forall val, regexMatch (toLowerCase (trim x)) = Some val ->
                below1e21 (parseInt val)) ->
   normalizeGrade (normalizeGrade x) = normalizeGrade x).
Proof.
  split; [reflexivity|]. split; [vm_compute; reflexivity|].
  split; [reflexivity|]. split; [vm_compute; reflexivity|].
  intros H. unfold normalizeGrade at 2 3.
  destruct (bool_decide (x = "")); [reflexivity|].
  destruct (bool_decide (toLowerCase (trim x) = "k") || startsWith (toLowerCase (trim x)) "kind");
    [reflexivity|].
  destruct (regexMatch (toLowerCase (trim x))) as [val|] eqn:M; [|reflexivity].
  destruct (bool_decide (val = "k") || bool_decide (val = "kindergarten")) eqn:K;
    [reflexivity|].
  specialize (H val eq_refl).
  destruct (regexMatch_cases _ _ M) as [->|[->|[Hne Hd]]]; try discriminate K.
  rewrite parseInt_digits in H |- * by assumption.
  destruct (roundToDouble (digitsValue 0 val)) as [m|] eqn:R; [|contradiction H].
  cbn [below1e21] in H. rewrite toString_of_N.
  apply normalizeGrade_number_fixed.
  - eapply roundToDouble_idem, R.
  - lia.
Qed.

Lemma normalizeGrade_idempotent_below_1e21_witness :
  (forall val, regexMatch (toLowerCase (trim "5th Grade")) = Some val ->
               below1e21 (parseInt val)) /\
  normalizeGrade (normalizeGrade "5th Grade") = normalizeGrade "5th Grade".
Proof.
  assert (forall val, regexMatch (toLowerCase (trim "5th Grade")) = Some val ->
                      below1e21 (parseInt val)) as H.
  { intros val E. vm_compute in E. injection E as <-. vm_compute. reflexivity. }
  split; [exact H|].
  apply (proj2 (proj2 (proj2 (proj2 (normalizeGrade_idempotent_below_1e21 "5th Grade"))))).
  exact H.
Defined.

(** ** The counters stay ahead

    The freshness assumed of the counters above holds in the document
    written by [initData] and is kept by every handler modelled here. *)

Lemma Forall_updateFirst {A : Type} (P : A -> Prop) (p : A -> bool) (f : A -> A)
      (l : list A) :
  (forall x, P x -> P (f x)) -> Forall P l -> Forall P (updateFirst p f l).
Proof.
  intros Hf. induction 1 as [|x l Hx Hl IH]; simpl; [constructor|].
  destruct (p x); constructor; auto.
Qed.

Lemma Forall_splice1 {A : Type} (P : A -> Prop) (idx : nat) (l : list A) :
  Forall P l -> Forall P (splice1 idx l).
Proof.
  intros H. revert idx. induction H as [|x l Hx Hl IH]; intros idx;
    destruct idx; simpl; try constructor; auto.
Qed.

Lemma Forall_keep {A : Type} (P : A -> Prop) (p : A -> bool) (l : list A) :
  Forall P l -> Forall P (List.filter p l).
Proof.
  induction 1 as [|x l Hx Hl IH]; simpl; [constructor|].
  destruct (p x); [constructor|]; auto.
Qed.

Lemma countersAhead_initial : countersAhead emptyDocument.
Proof. repeat split; constructor. Qed.

Lemma countersAhead_fresh (d : Document) :
  countersAhead d -> freshTransactionId d /\ freshStudentId d /\ freshHouseId d.
Proof.
  intros (T & S & H). unfold freshTransactionId, freshStudentId, freshHouseId.
  repeat split.
  - eapply List.Forall_impl; [|exact T]. simpl. intros t [? ?]. lia.
  - eapply List.Forall_impl; [|exact T]. simpl. intros t [? ?]. lia.
  - eapply List.Forall_impl; [|exact S]. simpl. intros s [_ Hh] E.
    specialize (Hh _ E). lia.
Qed.

Lemma countersAhead_loadData (w : World) (d data : Document) :
  localStorage w = Some d -> loadData w = Some data ->
  countersAhead d -> countersAhead data.
Proof.
  unfold loadData. intros -> [= <-]. exact (fun H => H).
Qed.

Lemma find_In_Forall {A : Type} (P : A -> Prop) (p : A -> bool) (l : list A) (x : A) :
  Forall P l -> find p l = Some x -> P x.
Proof.
  intros F E. apply find_some in E. destruct E as [Hin _].
  exact (proj1 (List.Forall_forall P l) F x Hin).
Qed.

Lemma countersAhead_submitAwardForm
      (form : AwardForm) (now : string) (w : World) (d : Document) :
  localStorage w = Some d -> countersAhead d ->
  exists d', localStorage (fst (submitAwardForm form now w)) = Some d' /\
             countersAhead d'.
Proof.
  intros Hw Hd.
  assert (exists d', localStorage w = Some d' /\ countersAhead d') as Same
    by (exists d; auto).
  unfold submitAwardForm.
  destruct (f_studentId form) as [sid|]; [|exact Same].
  destruct (f_amount form) as [a|]; [|exact Same].
  destruct (bool_decide (sid = 0)); [exact Same|].
  destruct (bool_decide (trim (f_note form) = "")); [exact Same|].
  destruct (loadData w) as [data|] eqn:L; [|exact Same].
  pose proof (countersAhead_loadData _ _ _ Hw L Hd) as (T & S & H).
  destruct (find (isStudent sid) (students data)) as [student|] eqn:F; [|exact Same].
  destruct (getCurrentUser w); [|exact Same].
  eexists. split; [reflexivity|].
  pose proof (find_In_Forall _ _ _ _ S F) as [Hsid _].
  repeat split; simpl.
  - apply Forall_app. split.
    + eapply List.Forall_impl; [|exact T]. simpl. intros t [? ?]. lia.
    + repeat constructor; simpl; lia.
  - apply Forall_updateFirst; [intros x Hx; exact Hx|exact S].
  - destruct (find (isHouse (s_houseId student)) (houses data));
      [apply Forall_updateFirst; [intros x Hx; exact Hx|exact H]|exact H].
Qed.

Lemma countersAhead_deleteTransaction (txnId : Z) (w : World) (d : Document) :
  localStorage w = Some d -> countersAhead d ->
  exists d', localStorage (fst (deleteTransaction txnId w)) = Some d' /\
             countersAhead d'.
Proof.
  intros Hw Hd.
  assert (exists d', localStorage w = Some d' /\ countersAhead d') as Same
    by (exists d; auto).
  unfold deleteTransaction.
  destruct (loadData w) as [data|] eqn:L; [|exact Same].
  pose proof (countersAhead_loadData _ _ _ Hw L Hd) as (T & S & H).
  destruct (findIndex _ (transactions data)) as [idx|]; [|exact Same].
  destruct (nth_error (transactions data) idx) as [txn|]; [|exact Same].
  eexists. split; [reflexivity|].
  repeat split; simpl.
  - apply Forall_splice1, T.
  - apply Forall_updateFirst; [intros x Hx; exact Hx|exact S].
  - destruct (t_houseId txn);
      [apply Forall_updateFirst; [intros x Hx; exact Hx|exact H]|exact H].
Qed.

Lemma countersAhead_addStudent
      (studentName studentGrade : string) (studentHouse : option Z) (d d' : Document) :
  countersAhead d -> offeredHouse studentHouse d ->
  addStudent studentName studentGrade studentHouse d = Some d' -> countersAhead d'.
Proof.
  intros (T & S & H) O. unfold addStudent.
  destruct (bool_decide (trim studentName = "")); [discriminate|].
  intros [= <-]. repeat split; simpl.
  - eapply List.Forall_impl; [|exact T]. simpl. intros t [? ?]. lia.
  - apply Forall_app. split.
    + eapply List.Forall_impl; [|exact S]. simpl. intros s [? ?]. split; [lia|auto].
    + repeat constructor; simpl; [lia|].
      intros h ->. destruct O as (h0 & Hin & <-).
      exact (proj1 (List.Forall_forall _ _) H h0 Hin).
  - exact H.
Qed.

Lemma countersAhead_addHouse
      (houseName houseColor : string) (logoData : option string) (d d' : Document) :
  countersAhead d ->
  addHouse houseName houseColor logoData d = Some d' -> countersAhead d'.
Proof.
  intros (T & S & H). unfold addHouse.
  destruct (bool_decide (trim houseName = "")); [discriminate|].
  destruct (existsb _ (houses d)); [discriminate|].
  intros [= <-]. repeat split; simpl.
  - exact T.
  - eapply List.Forall_impl; [|exact S]. simpl. intros s [? Hh]. split; [lia|].
    intros h E. specialize (Hh h E). lia.
  - apply Forall_app. split.
    + eapply List.Forall_impl; [|exact H]. simpl. intros h ?. lia.
    + repeat constructor; simpl; lia.
Qed.

Lemma countersAhead_deleteStudent (student : Student) (d : Document) :
  countersAhead d -> countersAhead (deleteStudent student d).
Proof.
  intros (T & S & H). unfold deleteStudent. repeat split; simpl.
  - exact T.
  - apply Forall_keep, S.
  - destruct (find _ (houses d));
      [apply Forall_updateFirst; [intros x Hx; exact Hx|exact H]|exact H].
Qed.

Lemma countersAhead_spinWheel
      (rand : RandomSource) (selectStu : option Z) (d d' : Document) :
  countersAhead d -> saved (spinWheel rand selectStu d) = Some d' -> countersAhead d'.
Proof.
  intros (T & S & H) E.
  destruct (spinWheel_respects_capacity_core rand selectStu d d' E)
    as (studentId & stu & h & _ & _ & Hin & _ & ->).
  repeat split; simpl.
  - exact T.
  - apply Forall_updateFirst; [|exact S].
    intros x [Hx _]. split; [exact Hx|]. simpl. intros h' [= <-].
    exact (proj1 (List.Forall_forall _ _) H h Hin).
  - exact H.
Qed.

(** ** Posting keeps the balances

    Unlike the sorting wheel, [submitAwardForm] moves the student's and
    the house's balance together.  Student ids and house ids are taken
    to be distinct. *)

Lemma sumPoints_updateFirst (q : Student -> bool) (sid a : Z) (l : list Student)
      (st : Student) :
  (forall s, q (addPoints a s) = q s) ->
  find (isStudent sid) l = Some st ->
  JsNumber.exact (s_points st + a) ->
  sumPoints (List.filter q (updateFirst (isStudent sid) (addPoints a) l))
  = sumPoints (List.filter q l) + (if q st then a else 0).
Proof.
  intros Hq. induction l as [|x l IH]; simpl; [discriminate|].
  destruct (isStudent sid x) eqn:E.
  - intros [= <-] Ex. simpl. rewrite Hq.
    destruct (q x); simpl; rewrite ?(add_exact _ _ Ex); lia.
  - intros F Ex. simpl. destruct (q x); simpl; rewrite (IH F Ex); lia.
Qed.

Lemma forallb_updateFirst_unique {A : Type} (key : A -> Z) (k : Z) (p : A -> bool)
      (f : A -> A) (Q Q' : A -> bool) (l : list A) :
  (forall x, p x = true <-> key x = k) ->
  List.NoDup (map key l) ->
  forallb Q l = true ->
  (forall x, In x l -> key x = k -> Q x = true -> Q' (f x) = true) ->
  (forall x, In x l -> key x <> k -> Q x = true -> Q' x = true) ->
  forallb Q' (updateFirst p f l) = true.
Proof.
  intros Hp. induction l as [|x l IH]; simpl; [reflexivity|].
  intros ND B H1 H2. apply andb_true_iff in B. destruct B as [Bx Bl].
  apply List.NoDup_cons_iff in ND. destruct ND as [Nx ND].
  destruct (p x) eqn:E; simpl; apply andb_true_iff; split.
  - apply H1; auto. apply Hp, E.
  - apply forallb_forall. intros y Hy.
    apply H2; [right; exact Hy| |exact (proj1 (forallb_forall _ _) Bl y Hy)].
    intros Ky. apply Nx. apply in_map_iff. exists y. split; [|exact Hy].
    rewrite Ky. symmetry. apply Hp, E.
  - apply H2; auto. intros Kx. apply Hp in Kx. congruence.
  - apply IH; auto.
Qed.

Lemma isStudent_spec (sid : Z) (s : Student) : isStudent sid s = true <-> s_id s = sid.
Proof. apply bool_decide_eq_true. Qed.

Lemma isHouse_spec (hid : Z) (h : House) : isHouse (Some hid) h = true <-> h_id h = hid.
Proof.
  unfold isHouse. rewrite bool_decide_eq_true. split; [intros [= ->]|intros ->]; reflexivity.
Qed.

Lemma sumAmounts_app (l1 l2 : list Transaction) :
  sumAmounts (l1 ++ l2) = sumAmounts l1 + sumAmounts l2.
Proof. induction l1 as [|x l IH]; simpl; [reflexivity|rewrite IH; lia]. Qed.

Lemma submitAwardForm_keeps_balances
      (form : AwardForm) (now : string) (w : World) (data posted : Document)
      (msg : string) :
  loadData w = Some data ->
  List.NoDup (map s_id (students data)) -> List.NoDup (map h_id (houses data)) ->
  postExact form data ->
  submitAwardForm form now w = (saveData posted w, AwardSuccess msg) ->
  (houseBalanced data = true -> houseBalanced posted = true) /\
  (studentBalanced data = true -> studentBalanced posted = true).
Proof.
  intros L NS NH PE. unfold submitAwardForm.
  destruct (f_studentId form) as [sid|] eqn:Fs; [|discriminate].
  destruct (f_amount form) as [a0|] eqn:Fa; [|discriminate].
  destruct (bool_decide (sid = 0)); [discriminate|].
  destruct (bool_decide (trim (f_note form) = "")); [discriminate|].
  rewrite L.
  destruct (find (isStudent sid) (students data)) as [st|] eqn:F; [|discriminate].
  destruct (getCurrentUser w) as [cu|]; [|discriminate].
  destruct (PE sid a0 st Fs Fa F) as [Es Eh].
  set (a := signedAmount (f_mode form) a0) in *.
  intros [= <- _].
  pose proof (find_some _ _ F) as [Hin Hsid]. apply isStudent_spec in Hsid.
  split.
  - unfold houseBalanced, membersOf. simpl. intros B.
    assert (forall x,
      sumPoints (List.filter (fun s => bool_decide (s_houseId s = Some x))
                   (updateFirst (isStudent sid) (addPoints a) (students data)))
      = sumPoints (List.filter (fun s => bool_decide (s_houseId s = Some x))
                               (students data))
        + (if bool_decide (s_houseId st = Some x) then a else 0)) as Hsum.
    { intros x.
      apply (sumPoints_updateFirst (fun s => bool_decide (s_houseId s = Some x)));
        [reflexivity|exact F|exact (Es st F)]. }
    destruct (find (isHouse (s_houseId st)) (houses data)) as [h|] eqn:Fh.
    + pose proof (find_some _ _ Fh) as [Hinh Hh].
      unfold isHouse in Hh. apply bool_decide_eq_true in Hh.
      rewrite <- Hh.
      eapply (forallb_updateFirst_unique h_id (h_id h)); eauto using isHouse_spec.
      * intros x Hx Kx Qx. apply bool_decide_eq_true in Qx.
        assert (x = h) as -> by (exact (NoDup_map_eq h_id _ _ _ NH Hx Hinh Kx)).
        apply bool_decide_eq_true_2. simpl.
        rewrite (add_exact _ _ (Eh h Fh)), Hsum, Qx, <- Hh.
        rewrite bool_decide_eq_true_2 by reflexivity. reflexivity.
      * intros x _ Kx Qx. apply bool_decide_eq_true in Qx.
        apply bool_decide_eq_true_2. rewrite Hsum, Qx, <- Hh.
        rewrite bool_decide_eq_false_2 by congruence. lia.
    + apply forallb_forall. intros x Hx.
      pose proof (proj1 (forallb_forall _ _) B x Hx) as Qx.
      apply bool_decide_eq_true in Qx. apply bool_decide_eq_true_2.
      rewrite Hsum, Qx.
      pose proof (find_none _ _ Fh x Hx) as N. unfold isHouse in N.
      apply bool_decide_eq_false in N.
      rewrite bool_decide_eq_false_2 by congruence. lia.
  - unfold studentBalanced, ledgerOf. simpl. intros B.
    eapply (forallb_updateFirst_unique s_id sid); eauto using isStudent_spec.
    + intros x Hx Kx Qx. apply bool_decide_eq_true in Qx.
      assert (x = st) as -> by (apply (NoDup_map_eq s_id _ _ _ NS Hx Hin); congruence).
      apply bool_decide_eq_true_2. simpl.
      rewrite (add_exact _ _ (Es st F)).
      rewrite List.filter_app, sumAmounts_app, Qx. simpl.
      rewrite bool_decide_eq_true_2 by congruence. simpl. lia.
    + intros x Hx Kx Qx. apply bool_decide_eq_true in Qx.
      apply bool_decide_eq_true_2.
      rewrite List.filter_app, sumAmounts_app, Qx. simpl.
      rewrite bool_decide_eq_false_2 by congruence. simpl. lia.
Qed.

(** * Further properties of the script *)

(** ** Ordinal suffixes *)

(** X1: for ranks from 0 up the suffix repeats every hundred and the
    teens 11, 12 and 13 take "th"; for zero and negative numbers the
    suffix is always "th", whatever the last digit. *)
Theorem getOrdinalSuffix_periodic (n : Z) :
  (0 <= n -> getOrdinalSuffix (n + 100) = getOrdinalSuffix n) /\
  (0 <= n -> 11 <= n mod 100 <= 13 -> getOrdinalSuffix n = "th") /\
  (n <= 0 -> getOrdinalSuffix n = "th").
Proof.
  unfold getOrdinalSuffix. cbv zeta. split; [|split].
  - intros H. rewrite !Z.rem_mod_nonneg by lia.
    replace ((n + 100) mod 10) with (n mod 10)
      by (Z.to_euclidean_division_equations; lia).
    replace ((n + 100) mod 100) with (n mod 100)
      by (Z.to_euclidean_division_equations; lia).
    reflexivity.
  - intros H T. rewrite !Z.rem_mod_nonneg by lia.
    assert (n mod 100 = 11 \/ n mod 100 = 12 \/ n mod 100 = 13) as C by lia.
    assert (n mod 10 = (n mod 100) mod 10) as E
      by (Z.to_euclidean_division_equations; lia).
    rewrite E.
    destruct C as [C|[C|C]]; rewrite C; reflexivity.
  - intros H.
    assert (Z.rem n 10 <= 0) as J by (Z.to_euclidean_division_equations; lia).
    rewrite (bool_decide_eq_false_2 (Z.rem n 10 = 1)) by lia.
    rewrite (bool_decide_eq_false_2 (Z.rem n 10 = 2)) by lia.
    rewrite (bool_decide_eq_false_2 (Z.rem n 10 = 3)) by lia.
    reflexivity.
Qed.

Lemma getOrdinalSuffix_periodic_witness :
  getOrdinalSuffix (21 + 100) = getOrdinalSuffix 21 /\
  getOrdinalSuffix 112 = "th" /\
  getOrdinalSuffix (-1) = "th".
Proof.
  split; [apply (proj1 (getOrdinalSuffix_periodic 21)); lia|].
  split; [apply (proj1 (proj2 (getOrdinalSuffix_periodic 112))); [lia|]|
          apply (proj2 (proj2 (getOrdinalSuffix_periodic (-1)))); lia].
  vm_compute. split; discriminate.
Defined.

(** ** First start *)

(** X2: [initData] leaves a stored document alone; on an empty store it
    writes the document in which exactly the built-in administrator can
    sign in: [login] succeeds iff the trimmed user name is "admin" up to
    letter case and the password is "admin123", and then the session is
    that record. *)
Theorem initData_then_login (w : World) (un pw : string) :
  (localStorage w <> None -> initData w = w) /\
  (localStorage w = None ->
   (snd (login un pw (initData w)) = LoginShown <->
    toLowerCase (trim un) = "admin" /\ pw = "admin123") /\
   (snd (login un pw (initData w)) = LoginShown ->
    sessionStorage (fst (login un pw (initData w))) = Some adminUser) /\
   localStorage (fst (login un pw (initData w))) = Some emptyDocument).
Proof.
  split.
  - unfold initData. destruct (localStorage w); [reflexivity|congruence].
  - intros E. unfold initData. rewrite E.
    unfold login, loadData. cbn [localStorage ensureSchema].
    change (users (setUsers (map backfillUser (users emptyDocument)) emptyDocument))
      with [adminUser].
    cbn [find]. unfold credentialsMatch.
    change (toLowerCase (u_username adminUser)) with "admin".
    change (u_password adminUser) with "admin123".
    destruct (bool_decide ("admin" = toLowerCase (trim un))) eqn:A;
      destruct (bool_decide ("admin123" = pw)) eqn:B; cbn [andb fst snd];
      try apply bool_decide_eq_true in A; try apply bool_decide_eq_false in A;
      try apply bool_decide_eq_true in B; try apply bool_decide_eq_false in B.
    + repeat split; auto.
    + repeat split; try discriminate; try reflexivity. intros [_ P]. congruence.
    + repeat split; try discriminate; try reflexivity. intros [P _]. congruence.
    + repeat split; try discriminate; try reflexivity. intros [P _]. congruence.
Qed.

Lemma initData_then_login_witness :
  localStorage (mkWorld None None) = None /\
  (snd (login " ADMIN " "admin123" (initData (mkWorld None None))) = LoginShown <->
   toLowerCase (trim " ADMIN ") = "admin" /\ "admin123" = "admin123").
Proof.
  split; [reflexivity|].
  apply (proj2 (initData_then_login (mkWorld None None) " ADMIN " "admin123") eq_refl).
Defined.

(** ** Reversing a ledger entry *)

Lemma findIndex_Some {A : Type} (p : A -> bool) (l : list A) (idx : nat) :
  findIndex p l = Some idx ->
  exists x, nth_error l idx = Some x /\ p x = true.
Proof.
  revert idx. induction l as [|y l IH]; intros idx; simpl; [discriminate|].
  destruct (p y) eqn:E.
  - intros [= <-]. exists y. auto.
  - destruct (findIndex p l) as [i|]; [|discriminate].
    intros [= <-]. destruct (IH i eq_refl) as (x & N & P). exists x. auto.
Qed.

Lemma findIndex_None {A : Type} (p : A -> bool) (l : list A) :
  findIndex p l = None <-> forall x, In x l -> p x = false.
Proof.
  induction l as [|y l IH]; simpl.
  - split; [intros _ x []|reflexivity].
  - destruct (p y) eqn:E.
    + split; [discriminate|]. intros H. specialize (H y (or_introl eq_refl)). congruence.
    + destruct (findIndex p l) as [i|].
      * split; [discriminate|]. intros H. exfalso.
        assert (Some i = None) as X; [|discriminate X].
        apply IH. intros x Hx. apply H. right. exact Hx.
      * split; [|reflexivity]. intros _ x [<-|Hx]; [exact E|].
        apply (proj1 IH eq_refl x Hx).
Qed.

Lemma length_splice1 {A : Type} (l : list A) (idx : nat) (x : A) :
  nth_error l idx = Some x -> S (length (splice1 idx l)) = length l.
Proof.
  revert idx. induction l as [|y l IH]; intros idx; destruct idx; simpl;
    try discriminate.
  - reflexivity.
  - intros H. rewrite (IH _ H). reflexivity.
Qed.

(** The first match is the only one removed. *)
Lemma filter_splice1_first {A : Type} (p q : A -> bool) (l : list A) (idx : nat) :
  findIndex p l = Some idx ->
  (forall x, p x = true -> q x = false) ->
  List.filter q (splice1 idx l) = List.filter q l.
Proof.
  intros F Hq. revert idx F. induction l as [|y l IH]; intros idx; simpl;
    [discriminate|].
  destruct (p y) eqn:E.
  - intros [= <-]. simpl. rewrite (Hq y E). reflexivity.
  - destruct (findIndex p l) as [i|]; [|discriminate].
    intros [= <-]. simpl. rewrite (IH i eq_refl). reflexivity.
Qed.

(** X3: with a document in the store, [deleteTransaction] returns
    [true] exactly when some ledger entry carries the id.  On [false]
    nothing is written; on [true] the ledger is one entry shorter and
    every entry with another id is still there, in the same order.  The
    session is never touched. *)
Theorem deleteTransaction_lookup (txnId : Z) (w : World) (data : Document) :
  loadData w = Some data ->
  (snd (deleteTransaction txnId w) = Some true <->
   exists t, In t (transactions data) /\ t_id t = txnId) /\
  (snd (deleteTransaction txnId w) = Some false <->
   forall t, In t (transactions data) -> t_id t <> txnId) /\
  (snd (deleteTransaction txnId w) = Some false -> fst (deleteTransaction txnId w) = w) /\
  (snd (deleteTransaction txnId w) = Some true ->
   exists data',
     localStorage (fst (deleteTransaction txnId w)) = Some data' /\
     S (length (transactions data')) = length (transactions data) /\
     List.filter (fun t => negb (bool_decide (t_id t = txnId))) (transactions data')
     = List.filter (fun t => negb (bool_decide (t_id t = txnId))) (transactions data)) /\
  sessionStorage (fst (deleteTransaction txnId w)) = sessionStorage w.
Proof.
  intros L. unfold deleteTransaction. rewrite L.
  destruct (findIndex (fun t => bool_decide (t_id t = txnId)) (transactions data))
    as [idx|] eqn:F.
  - destruct (findIndex_Some _ _ _ F) as (t & N & P).
    apply bool_decide_eq_true in P. rewrite N. cbn [fst snd].
    split; [split; [intros _; exists t; split; [eapply nth_error_In, N|exact P]|reflexivity]|].
    split.
    { split; [discriminate|]. intros H. exfalso.
      apply (H t); [eapply nth_error_In, N|exact P]. }
    split; [discriminate|].
    split; [|reflexivity].
    intros _. eexists. split; [reflexivity|]. cbn [transactions].
    split; [eapply length_splice1, N|].
    eapply filter_splice1_first; [exact F|].
    intros x Hx. rewrite Hx. reflexivity.
  - cbn [fst snd].
    pose proof (proj1 (findIndex_None _ _) F) as Hn.
    split.
    { split; [discriminate|]. intros (t & Hin & Ht). exfalso.
      specialize (Hn t Hin). apply bool_decide_eq_false in Hn. congruence. }
    split.
    { split; [|reflexivity]. intros _ t Hin.
      specialize (Hn t Hin). apply bool_decide_eq_false in Hn. exact Hn. }
    split; [reflexivity|]. split; [discriminate|reflexivity].
Qed.

Lemma deleteTransaction_lookup_witness :
  loadData (mkWorld (Some twoHouses) None) = Some twoHouses /\
  snd (deleteTransaction 7 (mkWorld (Some twoHouses) None)) = Some false /\
  fst (deleteTransaction 7 (mkWorld (Some twoHouses) None)) = mkWorld (Some twoHouses) None.
Proof.
  split; [reflexivity|].
  destruct (deleteTransaction_lookup 7 (mkWorld (Some twoHouses) None) twoHouses eq_refl)
    as (_ & F & W & _).
  assert (snd (deleteTransaction 7 (mkWorld (Some twoHouses) None)) = Some false) as E.
  { apply F. intros t [<-|[]]. vm_compute. discriminate. }
  split; [exact E|exact (W E)].
Defined.

(** ** Balances under the other ledger and roster operations *)

Lemma filter_all {A : Type} (p : A -> bool) (l : list A) :
  (forall x, In x l -> p x = true) -> List.filter p l = l.
Proof.
  induction l as [|x l IH]; simpl; [reflexivity|]. intros H.
  rewrite (H x (or_introl eq_refl)), IH; [reflexivity|].
  intros y Hy. apply H. right. exact Hy.
Qed.

(** X4: a successful post keeps both balances (every house against its
    members, every student against the ledger) when student ids and
    house ids are distinct and the two balances it moves stay within
    2^53 of zero; it appends one entry, and it raises the sum of all
    student points and the sum of all ledger amounts by the amount
    recorded in that entry. *)
Theorem posting_keeps_balances
        (form : AwardForm) (now : string) (w : World) (data posted : Document)
        (msg : string) :
  loadData w = Some data ->
  List.NoDup (map s_id (students data)) -> List.NoDup (map h_id (houses data)) ->
  postExact form data ->
  submitAwardForm form now w = (saveData posted w, AwardSuccess msg) ->
  (houseBalanced data = true -> houseBalanced posted = true) /\
  (studentBalanced data = true -> studentBalanced posted = true) /\
  exists txn,
    transactions posted = (transactions data ++ [txn])%list /\
    sumPoints (students posted) = sumPoints (students data) + t_amount txn /\
    sumAmounts (transactions posted) = sumAmounts (transactions data) + t_amount txn.
Proof.
  intros L NS NH PE E.
  destruct (submitAwardForm_keeps_balances form now w data posted msg L NS NH PE E)
    as [HB SB].
  split; [exact HB|]. split; [exact SB|].
  revert E. unfold submitAwardForm.
  destruct (f_studentId form) as [sid|] eqn:Fs; [|discriminate].
  destruct (f_amount form) as [a0|] eqn:Fa; [|discriminate].
  destruct (bool_decide (sid = 0)); [discriminate|].
  destruct (bool_decide (trim (f_note form) = "")); [discriminate|].
  rewrite L.
  destruct (find (isStudent sid) (students data)) as [st|] eqn:F; [|discriminate].
  destruct (getCurrentUser w) as [cu|]; [|discriminate].
  destruct (PE sid a0 st Fs Fa F) as [Es _].
  intros [= <- _]. eexists. cbn [students transactions].
  split; [reflexivity|]. cbn [t_amount]. split.
  - pose proof (sumPoints_updateFirst (fun _ => true) sid
                  (signedAmount (f_mode form) a0) (students data) st
                  (fun _ => eq_refl) F (Es st F)) as S.
    rewrite !filter_all in S by reflexivity. exact S.
  - rewrite sumAmounts_app. simpl. lia.
Qed.

Lemma posting_keeps_balances_witness :
  exists posted msg,
    submitAwardForm (mkAwardForm (Some 1) (Some 4) "helping" ModeAdd) "t"
                    (mkWorld (Some twoHouses) (Some adminUser))
      = (saveData posted (mkWorld (Some twoHouses) (Some adminUser)), AwardSuccess msg) /\
    houseBalanced posted = true /\ studentBalanced posted = true.
Proof.
  eexists. eexists. split; [vm_compute; reflexivity|].
  destruct (posting_keeps_balances
              (mkAwardForm (Some 1) (Some 4) "helping" ModeAdd) "t"
              (mkWorld (Some twoHouses) (Some adminUser)) twoHouses
              _ _ eq_refl
              ltac:(vm_compute; repeat constructor; simpl; intuition discriminate)
              ltac:(vm_compute; repeat constructor; simpl; intuition discriminate)
              ltac:(intros sid amount0 student [= <-] [= <-] [= <-];
                    split; intros x [= <-]; vm_compute; split; discriminate)
              ltac:(vm_compute; reflexivity)) as (H & S & _).
  split; [apply H|apply S]; reflexivity.
Defined.

Lemma filter_other_ids (sid : Z) (l : list Student) :
  ~ In sid (map s_id l) ->
  List.filter (fun s => negb (bool_decide (s_id s = sid))) l = l.
Proof.
  intros H. apply filter_all. intros x Hx. apply negb_true_iff.
  apply bool_decide_eq_false_2. intros E. apply H. apply in_map_iff. eauto.
Qed.

(** Removing the one student with a given id lowers a filtered sum by
    that student's points, if the filter keeps the student. *)
Lemma sumPoints_remove (q : Student -> bool) (st : Student) (l : list Student) :
  List.NoDup (map s_id l) -> In st l ->
  sumPoints (List.filter q
               (List.filter (fun s => negb (bool_decide (s_id s = s_id st))) l))
  = sumPoints (List.filter q l) - (if q st then s_points st else 0).
Proof.
  induction l as [|x l IH]; simpl; [intros _ []|].
  intros ND Hin. apply List.NoDup_cons_iff in ND. destruct ND as [Nx ND].
  destruct (bool_decide (s_id x = s_id st)) eqn:E; simpl.
  - apply bool_decide_eq_true in E.
    assert (x = st) as ->.
    { destruct Hin as [->|Hin]; [reflexivity|]. exfalso. apply Nx.
      rewrite E. apply in_map. exact Hin. }
    rewrite filter_other_ids by exact Nx.
    destruct (q st); simpl; lia.
  - apply bool_decide_eq_false in E.
    destruct Hin as [->|Hin]; [congruence|].
    destruct (q x); simpl; rewrite (IH ND Hin); lia.
Qed.

Lemma forallb_sublist {A : Type} (Q : A -> bool) (p : A -> bool) (l : list A) :
  forallb Q l = true -> forallb Q (List.filter p l) = true.
Proof.
  intros H. apply forallb_forall. intros x Hx. apply filter_In in Hx.
  exact (proj1 (forallb_forall _ _) H x (proj1 Hx)).
Qed.

Lemma updateFirst_no_match {A : Type} (p : A -> bool) (f : A -> A) (l : list A) :
  (forall x, In x l -> p x = false) -> updateFirst p f l = l.
Proof.
  induction l as [|x l IH]; simpl; [reflexivity|]. intros H.
  rewrite (H x (or_introl eq_refl)), IH; [reflexivity|].
  intros y Hy. apply H. right. exact Hy.
Qed.

(** The houses after a change of [delta] points to the members of the
    house [target] and the same change to the first house with that id. *)
Lemma houses_follow_members
      (target : option Z) (delta : Z) (hs : list House) (before after : list Student) :
  List.NoDup (map h_id hs) ->
  (forall h, find (isHouse target) hs = Some h -> JsNumber.exact (h_points h + delta)) ->
  (forall x, sumPoints (List.filter (fun s => bool_decide (s_houseId s = Some x)) after)
             = sumPoints (List.filter (fun s => bool_decide (s_houseId s = Some x)) before)
               + (if bool_decide (target = Some x) then delta else 0)) ->
  forallb (fun h => bool_decide
                      (h_points h = sumPoints (List.filter
                         (fun s => bool_decide (s_houseId s = Some (h_id h))) before))) hs
    = true ->
  forallb (fun h => bool_decide
                      (h_points h = sumPoints (List.filter
                         (fun s => bool_decide (s_houseId s = Some (h_id h))) after)))
          (updateFirst (isHouse target) (addHousePoints delta) hs)
    = true.
Proof.
  intros NH Ex Hsum B. destruct target as [hid|].
  - eapply (forallb_updateFirst_unique h_id hid); eauto using isHouse_spec.
    + intros x Hx Kx Qx. apply bool_decide_eq_true in Qx.
      pose proof (Ex x (find_unique h_id hid _ _ x (isHouse_spec hid) NH Hx Kx)) as Ex'.
      apply bool_decide_eq_true_2. simpl. rewrite (add_exact _ _ Ex'), Hsum, Qx, Kx.
      rewrite bool_decide_eq_true_2 by reflexivity. reflexivity.
    + intros x _ Kx Qx. apply bool_decide_eq_true in Qx.
      apply bool_decide_eq_true_2. rewrite Hsum, Qx.
      rewrite bool_decide_eq_false_2 by congruence. lia.
  - rewrite updateFirst_no_match by (intros; reflexivity).
    apply forallb_forall. intros x Hx.
    pose proof (proj1 (forallb_forall _ _) B x Hx) as Qx.
    apply bool_decide_eq_true in Qx. apply bool_decide_eq_true_2.
    rewrite Hsum, Qx. simpl. lia.
Qed.

Lemma deleteStudent_houses (student : Student) (data : Document) :
  houses (deleteStudent student data)
  = updateFirst (isHouse (s_houseId student)) (addHousePoints (- s_points student))
                (houses data).
Proof.
  unfold deleteStudent. simpl.
  destruct (find (isHouse (s_houseId student)) (houses data)) eqn:F; [reflexivity|].
  symmetry. apply updateFirst_no_match. intros x Hx. exact (find_none _ _ F x Hx).
Qed.

Lemma deleteStudent_house_balance (student : Student) (data : Document) :
  In student (students data) ->
  List.NoDup (map s_id (students data)) -> List.NoDup (map h_id (houses data)) ->
  houseExact (s_houseId student) (- s_points student) data ->
  houseBalanced data = true -> houseBalanced (deleteStudent student data) = true.
Proof.
  intros Hin NS NH Ex B. unfold houseBalanced, membersOf.
  rewrite deleteStudent_houses.
  change (students (deleteStudent student data))
    with (List.filter (fun s => negb (bool_decide (s_id s = s_id student)))
                      (students data)).
  apply (houses_follow_members (s_houseId student) (- s_points student) (houses data)
           (students data)); [exact NH|exact Ex| |exact B].
  intros x.
  rewrite (sumPoints_remove (fun s => bool_decide (s_houseId s = Some x)) student)
    by assumption.
  destruct (bool_decide (s_houseId student = Some x)); lia.
Qed.

(** X5: deleting a student who is in the list, with student ids and
    house ids distinct and the house's total still within 2^53 of zero
    once the student's points are taken off, keeps both balances: the
    student's points leave the house total with the student.  The
    ledger is not touched, so the entries that name the student stay
    behind. *)
Theorem deleteStudent_keeps_balances (student : Student) (data : Document) :
  In student (students data) ->
  List.NoDup (map s_id (students data)) -> List.NoDup (map h_id (houses data)) ->
  houseExact (s_houseId student) (- s_points student) data ->
  (houseBalanced data = true -> houseBalanced (deleteStudent student data) = true) /\
  (studentBalanced data = true -> studentBalanced (deleteStudent student data) = true) /\
  ~ In (s_id student) (map s_id (students (deleteStudent student data))) /\
  transactions (deleteStudent student data) = transactions data /\
  ledgerOf (s_id student) (deleteStudent student data) = ledgerOf (s_id student) data.
Proof.
  intros Hin NS NH Ex.
  split; [apply deleteStudent_house_balance; assumption|].
  split.
  { unfold studentBalanced, ledgerOf, deleteStudent. simpl. apply forallb_sublist. }
  split.
  { unfold deleteStudent. simpl. intros H. apply in_map_iff in H.
    destruct H as (x & E & Hx). apply filter_In in Hx. destruct Hx as [_ Hx].
    apply negb_true_iff, bool_decide_eq_false in Hx. congruence. }
  split; reflexivity.
Qed.

Lemma deleteStudent_keeps_balances_witness :
  In ada (students twoHouses) /\
  houseBalanced (deleteStudent ada twoHouses) = true /\
  studentBalanced (deleteStudent ada twoHouses) = true.
Proof.
  assert (In ada (students twoHouses)) as Hin by (left; reflexivity).
  split; [exact Hin|].
  destruct (deleteStudent_keeps_balances ada twoHouses Hin
              ltac:(vm_compute; repeat constructor; simpl; intuition discriminate)
              ltac:(vm_compute; repeat constructor; simpl; intuition discriminate)
              ltac:(intros h [= <-]; vm_compute; split; discriminate))
    as (H & S & _).
  split; [apply H|apply S]; reflexivity.
Defined.

Lemma sumAmounts_splice1 (q : Transaction -> bool) (l : list Transaction) (idx : nat)
      (t : Transaction) :
  nth_error l idx = Some t ->
  sumAmounts (List.filter q (splice1 idx l))
  = sumAmounts (List.filter q l) - (if q t then t_amount t else 0).
Proof.
  revert idx. induction l as [|x l IH]; intros idx; destruct idx; simpl;
    try discriminate.
  - intros [= ->]. destruct (q t); simpl; lia.
  - intros H. destruct (q x); simpl; rewrite (IH _ H); lia.
Qed.

Lemma deleteTransaction_found (txnId : Z) (w : World) (data : Document) (idx : nat)
      (txn : Transaction) :
  loadData w = Some data ->
  findIndex (fun t => bool_decide (t_id t = txnId)) (transactions data) = Some idx ->
  nth_error (transactions data) idx = Some txn ->
  deleteTransaction txnId w
  = (saveData
       (mkDocument (users data)
                   (updateFirst (isHouse (t_houseId txn)) (addHousePoints (- t_amount txn))
                                (houses data))
                   (updateFirst (isStudent (t_studentId txn)) (addPoints (- t_amount txn))
                                (students data))
                   (splice1 idx (transactions data)) (rewards data) (houseLimits data)
                   (nextHouseId data) (nextStudentId data) (nextTransactionId data)
                   (nextRewardId data)) w,
     Some true).
Proof.
  intros L F N. unfold deleteTransaction. rewrite L, F, N.
  destruct (t_houseId txn); [reflexivity|].
  rewrite (updateFirst_no_match (isHouse None)) by (intros; reflexivity). reflexivity.
Qed.

(** X6: reversing an entry whose student still exists and is still in
    the house recorded in the entry keeps both balances (student ids
    and house ids distinct, and the student's and the house's balance
    still within 2^53 of zero once the amount is taken back). *)
Theorem deleteTransaction_keeps_balances
        (txnId : Z) (w : World) (data : Document) (idx : nat) (txn : Transaction)
        (st : Student) :
  loadData w = Some data ->
  List.NoDup (map s_id (students data)) -> List.NoDup (map h_id (houses data)) ->
  findIndex (fun t => bool_decide (t_id t = txnId)) (transactions data) = Some idx ->
  nth_error (transactions data) idx = Some txn ->
  find (isStudent (t_studentId txn)) (students data) = Some st ->
  s_houseId st = t_houseId txn ->
  reversalExact txn data ->
  exists data',
    deleteTransaction txnId w = (saveData data' w, Some true) /\
    (houseBalanced data = true -> houseBalanced data' = true) /\
    (studentBalanced data = true -> studentBalanced data' = true).
Proof.
  intros L NS NH F N Fs Hh [Es Eh].
  eexists. split; [apply (deleteTransaction_found _ _ _ _ _ L F N)|].
  split.
  - unfold houseBalanced, membersOf. cbn [houses students]. intros B.
    apply (houses_follow_members (t_houseId txn) (- t_amount txn) (houses data)
             (students data)); [exact NH|exact Eh| |exact B].
    intros x.
    rewrite (sumPoints_updateFirst (fun s => bool_decide (s_houseId s = Some x))
               (t_studentId txn) (- t_amount txn) (students data) st
               (fun _ => eq_refl) Fs (Es st Fs)).
    rewrite Hh. reflexivity.
  - unfold studentBalanced, ledgerOf. cbn [students transactions]. intros B.
    eapply (forallb_updateFirst_unique s_id (t_studentId txn)); eauto using isStudent_spec.
    + intros x Hx Kx Qx. apply bool_decide_eq_true in Qx.
      assert (x = st) as ->.
      { pose proof (find_some _ _ Fs) as [Hst Ks]. apply isStudent_spec in Ks.
        apply (NoDup_map_eq s_id _ _ _ NS Hx Hst). congruence. }
      apply bool_decide_eq_true_2. simpl. rewrite (add_exact _ _ (Es st Fs)).
      rewrite (sumAmounts_splice1 _ _ _ _ N), Qx.
      rewrite bool_decide_eq_true_2 by congruence. lia.
    + intros x _ Kx Qx. apply bool_decide_eq_true in Qx.
      apply bool_decide_eq_true_2.
      rewrite (sumAmounts_splice1 _ _ _ _ N), Qx.
      rewrite bool_decide_eq_false_2 by congruence. lia.
Qed.

Lemma deleteTransaction_keeps_balances_witness :
  exists data',
    deleteTransaction 1 (mkWorld (Some twoHouses) None)
      = (saveData data' (mkWorld (Some twoHouses) None), Some true) /\
    houseBalanced data' = true /\ studentBalanced data' = true.
Proof.
  destruct (deleteTransaction_keeps_balances 1 (mkWorld (Some twoHouses) None) twoHouses
              0 (mkTxn 1 "2024-01-01T00:00:00.000Z" "admin" 1 (Some 1) 5 "kindness") ada
              eq_refl
              ltac:(vm_compute; repeat constructor; simpl; intuition discriminate)
              ltac:(vm_compute; repeat constructor; simpl; intuition discriminate)
              eq_refl eq_refl eq_refl eq_refl
              ltac:(split; intros x [= <-]; vm_compute; split; discriminate))
    as (data' & E & H & S).
  exists data'. split; [exact E|]. split; [apply H|apply S]; reflexivity.
Defined.

Lemma map_key_updateFirst {A B : Type} (key : A -> B) (p : A -> bool) (f : A -> A)
      (l : list A) :
  (forall x, key (f x) = key x) -> map key (updateFirst p f l) = map key l.
Proof.
  intros H. induction l as [|x l IH]; simpl; [reflexivity|].
  destruct (p x); simpl; [rewrite H|rewrite IH]; reflexivity.
Qed.

Lemma In_updateFirst_unique {A : Type} (key : A -> Z) (k : Z) (p : A -> bool)
      (f : A -> A) (l : list A) (h : A) :
  (forall x, p x = true <-> key x = k) ->
  List.NoDup (map key l) -> In h l -> key h = k ->
  In (f h) (updateFirst p f l).
Proof.
  intros Hp. induction l as [|x l IH]; simpl; [intros _ []|].
  intros ND Hin Kh. apply List.NoDup_cons_iff in ND. destruct ND as [Nx ND].
  destruct (p x) eqn:E.
  - destruct Hin as [->|Hin]; [left; reflexivity|]. exfalso. apply Nx.
    apply Hp in E. rewrite E, <- Kh. apply in_map. exact Hin.
  - destruct Hin as [->|Hin].
    + apply Hp in Kh. congruence.
    + right. apply IH; assumption.
Qed.

Lemma forallb_false_at {A : Type} (Q : A -> bool) (l : list A) (x : A) :
  In x l -> Q x = false -> forallb Q l = false.
Proof.
  intros Hin Hq. destruct (forallb Q l) eqn:E; [|reflexivity].
  rewrite (proj1 (forallb_forall _ _) E x Hin) in Hq. discriminate.
Qed.

(** X7: the ledger entries of a deleted student can still be reversed,
    and the reversal debits the recorded house a second time.  From a
    balanced document with distinct ids: delete a student of house [h],
    then reverse one of the student's entries of non-zero amount filed
    under [h]; no student changes, and as long as the two debits keep
    the total of [h] within 2^53 of zero, [h] ends with its points
    lowered by the student's points and by the amount, and the house
    balance no longer holds. *)
Theorem reversal_after_student_deletion
        (w : World) (data : Document) (student : Student) (h : House)
        (idx : nat) (txn : Transaction) :
  loadData w = Some data ->
  List.NoDup (map s_id (students data)) -> List.NoDup (map h_id (houses data)) ->
  houseBalanced data = true ->
  In student (students data) -> In h (houses data) ->
  s_houseId student = Some (h_id h) ->
  findIndex (fun t => bool_decide (t_id t = t_id txn)) (transactions data) = Some idx ->
  nth_error (transactions data) idx = Some txn ->
  t_studentId txn = s_id student -> t_houseId txn = Some (h_id h) ->
  t_amount txn <> 0 ->
  JsNumber.exact (h_points h - s_points student) ->
  JsNumber.exact (h_points h - s_points student - t_amount txn) ->
  exists data2,
    deleteTransaction (t_id txn) (saveData (deleteStudent student data) w)
      = (saveData data2 w, Some true) /\
    students data2 = students (deleteStudent student data) /\
    In (mkHouse (h_id h) (h_name h) (h_color h)
                (h_points h - s_points student - t_amount txn) (h_logo h))
       (houses data2) /\
    houseBalanced data2 = false.
Proof.
  intros L NS NH B Hs Hh Eh F N Ts Th Na X1 X2.
  set (d1 := deleteStudent student data).
  assert (loadData (saveData d1 w) = Some d1) as L1
    by (eapply loadData_saved; [exact L|reflexivity]).
  assert (transactions d1 = transactions data) as T1 by reflexivity.
  pose proof (deleteTransaction_found (t_id txn) (saveData d1 w) d1 idx txn L1) as D.
  rewrite T1 in D. specialize (D F N).
  assert (updateFirst (isStudent (t_studentId txn)) (addPoints (- t_amount txn))
                      (students d1) = students d1) as S1.
  { apply updateFirst_no_match. intros x Hx. unfold d1, deleteStudent in Hx.
    simpl in Hx. apply filter_In in Hx. destruct Hx as [_ Hx].
    apply negb_true_iff in Hx. unfold isStudent. rewrite Ts. exact Hx. }
  rewrite S1 in D.
  eexists. split; [exact D|]. cbn [students houses].
  split; [reflexivity|].
  assert (houses d1 = updateFirst (isHouse (Some (h_id h)))
                                  (addHousePoints (- s_points student)) (houses data)) as H1
    by (unfold d1; rewrite deleteStudent_houses, Eh; reflexivity).
  assert (In (mkHouse (h_id h) (h_name h) (h_color h)
                      (h_points h - s_points student - t_amount txn) (h_logo h))
             (updateFirst (isHouse (t_houseId txn)) (addHousePoints (- t_amount txn))
                          (houses d1))) as Hin2.
  { rewrite Th, H1.
    replace (mkHouse (h_id h) (h_name h) (h_color h)
                     (h_points h - s_points student - t_amount txn) (h_logo h))
      with (addHousePoints (- t_amount txn) (addHousePoints (- s_points student) h))
      by (unfold addHousePoints; simpl; f_equal;
          rewrite (add_exact (h_points h) (- s_points student)) by exact X1;
          rewrite add_exact by exact X2; lia).
    apply (In_updateFirst_unique h_id (h_id h)); auto using isHouse_spec.
    - rewrite map_key_updateFirst by reflexivity. exact NH.
    - apply (In_updateFirst_unique h_id (h_id h)); auto using isHouse_spec. }
  split; [exact Hin2|].
  unfold houseBalanced. cbn [houses].
  eapply forallb_false_at; [exact Hin2|].
  apply bool_decide_eq_false_2. unfold membersOf. cbn [students h_id h_points].
  change (students d1)
    with (List.filter (fun s => negb (bool_decide (s_id s = s_id student)))
                      (students data)).
  rewrite (sumPoints_remove (fun s => bool_decide (s_houseId s = Some (h_id h))) student)
    by assumption.
  rewrite bool_decide_eq_true_2 by exact Eh.
  pose proof (proj1 (forallb_forall _ _) B h Hh) as Bh.
  apply bool_decide_eq_true in Bh. unfold membersOf in Bh. lia.
Qed.

Lemma reversal_after_student_deletion_witness :
  exists data2,
    deleteTransaction 1 (saveData (deleteStudent ada twoHouses)
                                  (mkWorld (Some twoHouses) None))
      = (saveData data2 (mkWorld (Some twoHouses) None), Some true) /\
    In (mkHouse 1 "Darwin" None (-5) None) (houses data2) /\
    houseBalanced data2 = false.
Proof.
  destruct (reversal_after_student_deletion (mkWorld (Some twoHouses) None) twoHouses
              ada darwin 0
              (mkTxn 1 "2024-01-01T00:00:00.000Z" "admin" 1 (Some 1) 5 "kindness")
              eq_refl
              ltac:(vm_compute; repeat constructor; simpl; intuition discriminate)
              ltac:(vm_compute; repeat constructor; simpl; intuition discriminate)
              eq_refl ltac:(left; reflexivity) ltac:(left; reflexivity)
              eq_refl eq_refl eq_refl eq_refl eq_refl ltac:(simpl; lia)
              ltac:(vm_compute; split; discriminate)
              ltac:(vm_compute; split; discriminate))
    as (data2 & E & _ & I & B).
  exists data2. split; [exact E|]. split; [exact I|exact B].
Defined.

(** ** Deleting a house *)

(** X8: a house is deleted only when no student is assigned to it.
    With a student assigned nothing happens; otherwise every house with
    that id leaves the list, the students and the ledger stay as they
    are, and the house balance is kept. *)
Theorem deleteHouse_guard (house : House) (data : Document) :
  (deleteHouse house data = None <->
   exists s, In s (students data) /\ s_houseId s = Some (h_id house)) /\
  (forall data',
     deleteHouse house data = Some data' ->
     students data' = students data /\
     transactions data' = transactions data /\
     (forall h, In h (houses data') <-> In h (houses data) /\ h_id h <> h_id house) /\
     (forall s, In s (students data') -> s_houseId s <> Some (h_id house)) /\
     (houseBalanced data = true -> houseBalanced data' = true)).
Proof.
  unfold deleteHouse.
  destruct (existsb (fun s => bool_decide (s_houseId s = Some (h_id house)))
                    (students data)) eqn:E.
  - apply existsb_exists in E. destruct E as (s & Hs & Es).
    apply bool_decide_eq_true in Es.
    split; [split; [intros _; exists s; auto|reflexivity]|discriminate].
  - assert (forall s, In s (students data) -> s_houseId s <> Some (h_id house)) as No.
    { intros s Hs Es.
      assert (existsb (fun s => bool_decide (s_houseId s = Some (h_id house)))
                      (students data) = true) as T
        by (apply existsb_exists; exists s; split;
            [exact Hs|apply bool_decide_eq_true_2, Es]).
      congruence. }
    split.
    { split; [discriminate|]. intros (s & Hs & Es). exfalso. exact (No s Hs Es). }
    intros data' [= <-]. cbn [students transactions houses setHouses].
    split; [reflexivity|]. split; [reflexivity|].
    split.
    { intros h. rewrite filter_In, negb_true_iff, bool_decide_eq_false. tauto. }
    split; [exact No|].
    unfold houseBalanced, membersOf. cbn [houses students]. apply forallb_sublist.
Qed.

Lemma deleteHouse_guard_witness :
  deleteHouse darwin twoHouses = None /\
  exists data', deleteHouse curie twoHouses = Some data' /\
                students data' = students twoHouses /\
                houseBalanced data' = true.
Proof.
  split.
  - apply (proj1 (deleteHouse_guard darwin twoHouses)).
    exists ada. split; [left; reflexivity|reflexivity].
  - eexists. split; [reflexivity|].
    destruct (proj2 (deleteHouse_guard curie twoHouses) _ eq_refl) as (S & _ & _ & _ & B).
    split; [exact S|apply B; reflexivity].
Defined.

(** ** House names *)

Lemma NoDup_replace_middle {A : Type} (l1 l2 : list A) (a b : A) :
  List.NoDup (l1 ++ a :: l2) -> ~ In b (l1 ++ l2) -> List.NoDup (l1 ++ b :: l2).
Proof.
  intros ND Nb. apply List.NoDup_remove_1 in ND.
  revert ND Nb. induction l1 as [|x l1 IH]; simpl; intros ND Nb.
  - constructor; assumption.
  - apply List.NoDup_cons_iff in ND. destruct ND as [Nx ND].
    constructor.
    + intros Hx. apply in_app_or in Hx. destruct Hx as [Hx|[<-|Hx]].
      * apply Nx, in_or_app. left. exact Hx.
      * apply Nb. left. reflexivity.
      * apply Nx, in_or_app. right. exact Hx.
    + apply IH; [exact ND|]. intros Hb. apply Nb. right. exact Hb.
Qed.

Lemma NoDup_snoc {A : Type} (l : list A) (a : A) :
  List.NoDup l -> ~ In a l -> List.NoDup (l ++ [a]).
Proof.
  intros Hl Ha. induction l as [|y l IH]; simpl;
    [constructor; [intros []|constructor]|].
  apply List.NoDup_cons_iff in Hl. destruct Hl as [Ny Hl].
  constructor.
  - intros Hy. apply in_app_or in Hy. destruct Hy as [Hy|[<-|[]]];
      [exact (Ny Hy)|]. apply Ha. left. reflexivity.
  - apply IH; [exact Hl|]. intros Hx. apply Ha. right. exact Hx.
Qed.

Lemma NoDup_middle_others {A B : Type} (key : A -> B) (l1 l2 : list A) (a x : A) :
  List.NoDup (map key (l1 ++ a :: l2)) -> In x (l1 ++ l2) -> key x <> key a.
Proof.
  rewrite map_app. simpl. intros ND Hx E.
  apply List.NoDup_remove_2 in ND. apply ND.
  rewrite <- map_app, <- E. apply in_map. exact Hx.
Qed.

(** X9: house names stay distinct up to letter case.  Adding a house
    keeps them so; renaming the house at a position keeps them so when
    house ids are distinct, and it changes neither an id nor a point
    total and never the number of houses. *)
Theorem house_names_stay_distinct (data data' : Document) :
  List.NoDup (houseNameKeys (houses data)) ->
  (forall houseName houseColor logoData,
     addHouse houseName houseColor logoData data = Some data' ->
     List.NoDup (houseNameKeys (houses data'))) /\
  (forall i newName newColor,
     List.NoDup (map h_id (houses data)) ->
     editHouse i newName newColor data = Some data' ->
     List.NoDup (houseNameKeys (houses data')) /\
     map h_id (houses data') = map h_id (houses data) /\
     map h_points (houses data') = map h_points (houses data) /\
     students data' = students data).
Proof.
  intros ND. split.
  - intros n c lg. unfold addHouse.
    destruct (bool_decide (trim n = "")); [discriminate|].
    destruct (existsb _ (houses data)) eqn:E; [discriminate|].
    intros [= <-]. cbn [houses]. unfold houseNameKeys in *.
    rewrite map_app. simpl.
    apply NoDup_snoc; [exact ND|].
    intros Hin. apply in_map_iff in Hin.
    destruct Hin as (h & Eh & Hh).
    assert (existsb (fun h => bool_decide (toLowerCase (h_name h) = toLowerCase (trim n)))
                    (houses data) = true) as T
      by (apply existsb_exists; exists h; split;
          [exact Hh|apply bool_decide_eq_true_2, Eh]).
    congruence.
  - intros i nn nc NI. unfold editHouse.
    destruct (houses data !! i) as [house|] eqn:Li; [|discriminate].
    destruct nn as [nn|]; [|discriminate]. destruct nc as [nc|]; [|discriminate].
    destruct (bool_decide (trim nn = "")); [discriminate|].
    destruct (existsb _ (houses data)) eqn:E; [discriminate|].
    intros [= <-]. cbn [houses students setHouses].
    pose proof (take_drop_middle _ _ _ Li) as Split.
    assert (i < length (houses data))%nat as Hi by (eapply lookup_lt_Some, Li).
    rewrite (insert_take_drop _ _ _ Hi).
    set (l1 := take i (houses data)) in *. set (l2 := drop (S i) (houses data)) in *.
    unfold houseNameKeys in *. rewrite <- Split in ND, NI, E |- *.
    rewrite !map_app. simpl. split; [|auto].
    rewrite map_app in ND. simpl in ND.
    eapply NoDup_replace_middle; [exact ND|].
    rewrite <- map_app. intros Hin. apply in_map_iff in Hin.
    destruct Hin as (h & Eh & Hh).
    pose proof (NoDup_middle_others h_id l1 l2 house h NI Hh) as Hid.
    assert (existsb (fun h0 => negb (bool_decide (h_id h0 = h_id house))
                               && bool_decide (toLowerCase (h_name h0)
                                               = toLowerCase (trim nn)))
                    (l1 ++ house :: l2) = true) as T.
    { apply existsb_exists. exists h. split.
      - apply in_app_or in Hh. apply in_or_app.
        destruct Hh as [Hh|Hh]; [left|right; right]; exact Hh.
      - rewrite bool_decide_eq_false_2 by exact Hid.
        rewrite bool_decide_eq_true_2 by exact Eh. reflexivity. }
    congruence.
Qed.

Lemma house_names_stay_distinct_witness :
  List.NoDup (houseNameKeys (houses twoHouses)) /\
  exists data',
    editHouse 1 (Some " Newton ") (Some "") twoHouses = Some data' /\
    List.NoDup (houseNameKeys (houses data')) /\
    map h_points (houses data') = map h_points (houses twoHouses).
Proof.
  assert (List.NoDup (houseNameKeys (houses twoHouses))) as ND
    by (vm_compute; repeat constructor; simpl; intuition discriminate).
  split; [exact ND|].
  eexists. split; [vm_compute; reflexivity|].
  destruct (proj2 (house_names_stay_distinct twoHouses _ ND) 1%nat
                  (Some " Newton ") (Some "")
                  ltac:(vm_compute; repeat constructor; simpl; intuition discriminate)
                  ltac:(vm_compute; reflexivity)) as (N & _ & P & _).
  split; [exact N|exact P].
Defined.

(** ** Identifiers *)

Lemma NoDup_ids_snoc (ids : list Z) (next : Z) :
  List.NoDup ids -> Forall (fun i => i < next) ids -> List.NoDup (ids ++ [next]).
Proof.
  intros ND F. apply NoDup_snoc; [exact ND|].
  intros Hin. pose proof (proj1 (List.Forall_forall _ _) F next Hin) as H.
  simpl in H. lia.
Qed.

(** X10: identifiers are never handed out twice.  The counters are
    ahead of every id in use in the first document, and posting,
    reversing, adding a student or a house, deleting a student and the
    sorting wheel all keep them ahead; hence the next ids are unused, and
    adding a student or a house keeps the ids of its list distinct. *)
Theorem counters_stay_ahead (d : Document) :
  countersAhead emptyDocument /\
  (countersAhead d ->
   (freshTransactionId d /\ freshStudentId d /\ freshHouseId d) /\
   (forall form now session,
      exists d', localStorage (fst (submitAwardForm form now (mkWorld (Some d) session)))
                 = Some d' /\ countersAhead d') /\
   (forall txnId session,
      exists d', localStorage (fst (deleteTransaction txnId (mkWorld (Some d) session)))
                 = Some d' /\ countersAhead d') /\
   (forall studentName studentGrade studentHouse d',
      offeredHouse studentHouse d ->
      addStudent studentName studentGrade studentHouse d = Some d' ->
      countersAhead d' /\
      (List.NoDup (map s_id (students d)) -> List.NoDup (map s_id (students d')))) /\
   (forall houseName houseColor logoData d',
      addHouse houseName houseColor logoData d = Some d' ->
      countersAhead d' /\
      (List.NoDup (map h_id (houses d)) -> List.NoDup (map h_id (houses d')))) /\
   (forall student, countersAhead (deleteStudent student d)) /\
   (forall rand selectStu d',
      saved (spinWheel rand selectStu d) = Some d' -> countersAhead d')).
Proof.
  split; [exact countersAhead_initial|]. intros C.
  split; [apply countersAhead_fresh, C|].
  split; [intros; eapply countersAhead_submitAwardForm; [reflexivity|exact C]|].
  split; [intros; eapply countersAhead_deleteTransaction; [reflexivity|exact C]|].
  split.
  { intros n g h d' O E. split; [eapply countersAhead_addStudent; eauto|].
    intros ND. revert E. unfold addStudent.
    destruct (bool_decide (trim n = "")); [discriminate|].
    intros [= <-]. cbn [students]. rewrite map_app. simpl.
    apply NoDup_ids_snoc; [exact ND|].
    destruct C as (_ & S & _). apply List.Forall_map.
    eapply List.Forall_impl; [|exact S]. simpl. intros s [Hs _]. exact Hs. }
  split.
  { intros n c lg d' E. split; [eapply countersAhead_addHouse; eauto|].
    intros ND. revert E. unfold addHouse.
    destruct (bool_decide (trim n = "")); [discriminate|].
    destruct (existsb _ (houses d)); [discriminate|].
    intros [= <-]. cbn [houses]. rewrite map_app. simpl.
    apply NoDup_ids_snoc; [exact ND|].
    destruct C as (_ & _ & H). apply List.Forall_map. exact H. }
  split; [intros; apply countersAhead_deleteStudent, C|].
  intros rand sel d' E. eapply countersAhead_spinWheel; eauto.
Qed.

Lemma counters_stay_ahead_witness :
  countersAhead twoHouses /\
  freshTransactionId twoHouses /\
  forall student, countersAhead (deleteStudent student twoHouses).
Proof.
  assert (countersAhead twoHouses) as C.
  { unfold countersAhead; cbn [twoHouses transactions students houses
      nextTransactionId nextStudentId nextHouseId].
    split; [|split]; repeat constructor; cbn; try lia.
    intros h [= <-]. lia. }
  split; [exact C|].
  destruct (proj2 (counters_stay_ahead twoHouses) C) as ((F & _) & _ & _ & _ & _ & D & _).
  split; [exact F|exact D].
Defined.

(** ** Teacher accounts *)

Lemma lowerChar_idem (c : ascii) : lowerChar (lowerChar c) = lowerChar c.
Proof. destruct c as [[] [] [] [] [] [] [] []]; reflexivity. Qed.

Lemma toLowerCase_idem (s : string) : toLowerCase (toLowerCase s) = toLowerCase s.
Proof.
  induction s as [|c s IH]; simpl; [reflexivity|]. rewrite lowerChar_idem, IH. reflexivity.
Qed.

Lemma login_over_users (un pw : string) (w : World) (d : Document) :
  localStorage w = Some d ->
  login un pw w =
  match find (credentialsMatch (trim un) pw) (users d) with
  | Some user => (setCurrentUser (backfillUser user) w, LoginShown)
  | None => (w, LoginAlert "Invalid username or password")
  end.
Proof.
  intros H. unfold login, loadData. rewrite H. simpl.
  rewrite find_map.
  rewrite (find_ext _ (credentialsMatch (trim un) pw))
    by (intros; apply credentialsMatch_backfill).
  destruct (find _ (users d)); reflexivity.
Qed.

(** X12: once a teacher is deleted nobody can sign in under that user
    name, in any spelling and with any password, as long as user names
    were distinct up to letter case; the attempt leaves the session and
    the store as they were. *)
Theorem deleteTeacher_then_login_fails
        (teacher : User) (data : Document) (w : World) (loginUsername pw : string) :
  In teacher (users data) ->
  List.NoDup (userNameKeys (users data)) ->
  toLowerCase (trim loginUsername) = toLowerCase (u_username teacher) ->
  login loginUsername pw (saveData (deleteTeacher teacher data) w)
  = (saveData (deleteTeacher teacher data) w, LoginAlert "Invalid username or password").
Proof.
  intros Hin ND E.
  erewrite login_over_users by reflexivity.
  destruct (find _ (users (deleteTeacher teacher data))) as [u|] eqn:F; [|reflexivity].
  exfalso. apply find_some in F. destruct F as [Hu M].
  unfold deleteTeacher in Hu. cbn [users setUsers] in Hu.
  apply filter_In in Hu. destruct Hu as [Hu Ne].
  apply negb_true_iff, bool_decide_eq_false in Ne.
  apply credentialsMatch_spec in M. destruct M as [M _]. rewrite E in M.
  apply Ne. f_equal.
  exact (NoDup_map_eq (fun u => toLowerCase (u_username u)) _ _ _ ND Hu Hin M).
Qed.

Lemma deleteTeacher_then_login_fails_witness :
  snd (login " T2 " "pw"
             (saveData (deleteTeacher gradeTwoTeacher
                          (setUsers [adminUser; gradeTwoTeacher] emptyDocument))
                       (mkWorld None None)))
  = LoginAlert "Invalid username or password".
Proof.
  rewrite (deleteTeacher_then_login_fails gradeTwoTeacher
             (setUsers [adminUser; gradeTwoTeacher] emptyDocument)
             (mkWorld None None) " T2 " "pw").
  - reflexivity.
  - right; left; reflexivity.
  - vm_compute. repeat constructor; simpl; intuition discriminate.
  - vm_compute. reflexivity.
Defined.

(** ** Leaderboard *)

Section SortByPoints.
Context {A : Type} (points : A -> Z).

Lemma insertByPoints_perm (x : A) (l : list A) :
  Permutation (x :: l) (insertByPoints points x l).
Proof.
  induction l as [|y l IH]; simpl; [reflexivity|].
  destruct (points x <? points y); [|reflexivity].
  rewrite perm_swap. apply perm_skip, IH.
Qed.

Lemma sortByPoints_perm (l : list A) : Permutation l (sortByPoints points l).
Proof.
  induction l as [|x l IH]; simpl; [reflexivity|].
  rewrite <- insertByPoints_perm. apply perm_skip, IH.
Qed.

Lemma insertByPoints_sorted (x : A) (l : list A) :
  StronglySorted (fun a b => points b <= points a) l ->
  StronglySorted (fun a b => points b <= points a) (insertByPoints points x l).
Proof.
  induction 1 as [|y l Hl IH Hy]; simpl.
  - constructor; constructor.
  - destruct (points x <? points y) eqn:E.
    + apply Z.ltb_lt in E. constructor; [exact IH|].
      apply List.Forall_forall. intros z Hz.
      apply (Permutation_in _ (Permutation_sym (insertByPoints_perm x l))) in Hz.
      destruct Hz as [<-|Hz]; [lia|].
      exact (proj1 (List.Forall_forall _ _) Hy z Hz).
    + apply Z.ltb_ge in E. constructor; [constructor; assumption|].
      constructor; [exact E|].
      eapply List.Forall_impl; [|exact Hy]. simpl. intros z Hz. lia.
Qed.

Lemma sortByPoints_sorted (l : list A) :
  StronglySorted (fun a b => points b <= points a) (sortByPoints points l).
Proof.
  induction l as [|x l IH]; simpl; [constructor|].
  apply insertByPoints_sorted, IH.
Qed.

(** Stability: elements with equal points keep their order. *)
Lemma insertByPoints_stable (p : Z) (x : A) (l : list A) :
  List.filter (fun a => bool_decide (points a = p)) (insertByPoints points x l)
  = List.filter (fun a => bool_decide (points a = p)) (x :: l).
Proof.
  induction l as [|y l IH]; simpl; [reflexivity|].
  destruct (points x <? points y) eqn:E; [|reflexivity].
  apply Z.ltb_lt in E. simpl. simpl in IH. rewrite IH.
  destruct (bool_decide (points x = p)) eqn:X;
    destruct (bool_decide (points y = p)) eqn:Y; try reflexivity.
  apply bool_decide_eq_true in X, Y. lia.
Qed.

Lemma sortByPoints_stable (p : Z) (l : list A) :
  List.filter (fun a => bool_decide (points a = p)) (sortByPoints points l)
  = List.filter (fun a => bool_decide (points a = p)) l.
Proof.
  induction l as [|x l IH]; simpl; [reflexivity|].
  rewrite insertByPoints_stable. simpl. rewrite IH. reflexivity.
Qed.

Lemma In_skipn_In (n : nat) (l : list A) (b : A) : In b (skipn n l) -> In b l.
Proof.
  revert l. induction n as [|n IH]; intros [|y l] H; simpl in *; auto.
Qed.

Lemma sorted_firstn_skipn (n : nat) (l : list A) (a b : A) :
  StronglySorted (fun a b => points b <= points a) l ->
  In a (firstn n l) -> In b (skipn n l) -> points b <= points a.
Proof.
  intros S. revert n. induction S as [|y l Hl IH Hy]; intros n Ha Hb.
  - destruct n; destruct Ha.
  - destruct n as [|n]; [destruct Ha|]. simpl in Ha, Hb.
    destruct Ha as [<-|Ha]; [|eapply IH; eauto].
    apply (proj1 (List.Forall_forall _ _) Hy).
    eapply In_skipn_In. exact Hb.
Qed.

End SortByPoints.

(** X13: the leaderboard and the ceremony show every house exactly
    once, in order of falling points, with houses on equal points in
    document order; so the house in first place has at least as many
    points as any other.  The three top students have at least as many
    points as every student left out. *)
Theorem leaderboard_order (data : Document) :
  Permutation (houses data) (leaderboardHouses data) /\
  StronglySorted (fun a b => h_points b <= h_points a) (leaderboardHouses data) /\
  (forall p, List.filter (fun h => bool_decide (h_points h = p)) (leaderboardHouses data)
             = List.filter (fun h => bool_decide (h_points h = p)) (houses data)) /\
  (forall first rest h,
     leaderboardHouses data = first :: rest -> In h (houses data) ->
     h_points h <= h_points first) /\
  (length (topStudents data) <= 3)%nat /\
  (forall a b,
     In a (topStudents data) ->
     In b (skipn 3 (sortByPoints s_points (students data))) ->
     s_points b <= s_points a).
Proof.
  unfold leaderboardHouses, topStudents.
  split; [apply sortByPoints_perm|].
  split; [apply sortByPoints_sorted|].
  split; [intros p; apply sortByPoints_stable|].
  split.
  { intros first rest h E Hh.
    apply (Permutation_in _ (sortByPoints_perm h_points (houses data))) in Hh.
    pose proof (sortByPoints_sorted h_points (houses data)) as S.
    rewrite E in Hh, S. inversion S as [|? ? _ F]; subst.
    destruct Hh as [<-|Hh]; [lia|].
    exact (proj1 (List.Forall_forall _ _) F h Hh). }
  split; [apply firstn_le_length|].
  intros a b. apply sorted_firstn_skipn, sortByPoints_sorted.
Qed.

Lemma leaderboard_order_witness :
  leaderboardHouses twoHouses = [darwin; curie] /\ h_points curie <= h_points darwin.
Proof.
  split; [reflexivity|].
  destruct (leaderboard_order twoHouses) as (_ & _ & _ & H & _).
  apply (H darwin [curie] curie eq_refl). right; left; reflexivity.
Defined.

Lemma awarded_nonneg (username : string) (l : list Transaction) :
  0 <= sumAmounts (List.filter (fun txn => bool_decide (t_teacherUsername txn = username)
                                           && (0 <? t_amount txn)) l).
Proof.
  induction l as [|t l IH]; simpl; [lia|].
  destruct (bool_decide _); simpl; [|exact IH].
  destruct (0 <? t_amount t) eqn:P; simpl; [apply Z.ltb_lt in P; lia|exact IH].
Qed.

Lemma teacherTotal_fold (username : string) (l : list Transaction) (acc : Z) :
  0 <= acc ->
  acc + sumAmounts (List.filter (fun txn => bool_decide (t_teacherUsername txn = username)
                                            && (0 <? t_amount txn)) l) <= 2 ^ 53 ->
  fold_left (fun sum txn =>
               if bool_decide (t_teacherUsername txn = username) && (0 <? t_amount txn)
               then JsNumber.add sum (t_amount txn) else sum) l acc
  = acc + sumAmounts (List.filter
            (fun txn => bool_decide (t_teacherUsername txn = username)
                        && (0 <? t_amount txn)) l).
Proof.
  revert acc. induction l as [|t l IH]; intros acc Ha Hb; simpl; [lia|].
  pose proof (awarded_nonneg username l) as Hn.
  simpl in Hb. destruct (bool_decide (t_teacherUsername t = username)); simpl in *.
  - destruct (0 <? t_amount t) eqn:P; simpl in *.
    + apply Z.ltb_lt in P.
      rewrite add_exact by (unfold JsNumber.exact; lia).
      rewrite IH by lia. lia.
    + apply IH; assumption.
  - apply IH; assumption.
Qed.

Lemma teacherTotal_exact (username : string) (data : Document) :
  awardedBy username data <= 2 ^ 53 ->
  teacherTotal username data = awardedBy username data.
Proof.
  intros H. unfold teacherTotal, awardedBy in *.
  rewrite teacherTotal_fold by lia. lia.
Qed.

(** X14: the "Top Teachers" total of a user adds up, in ledger order,
    the positive amounts recorded under that user name; while their
    exact sum is at most 2^53 the total is that sum.  A successful post
    appends one entry under the name of the signed-in user: the total
    of a user is then the old total and the amount of that entry added
    by the script if the entry is under that user's name and positive,
    which is their exact sum within that range, and it is unchanged
    otherwise; in "take" mode the amount is never positive.  Reversing
    an entry takes its positive amount off the total of its poster
    again, within the same range. *)
Theorem teacherTotal_follows_ledger (w : World) (data : Document) :
  loadData w = Some data ->
  (forall username,
     awardedBy username data <= 2 ^ 53 ->
     teacherTotal username data = awardedBy username data) /\
  (forall form now posted msg,
     submitAwardForm form now w = (saveData posted w, AwardSuccess msg) ->
     exists currentUser txn,
       getCurrentUser w = Some currentUser /\
       transactions posted = (transactions data ++ [txn])%list /\
       t_teacherUsername txn = u_username currentUser /\
       (f_mode form = ModeTake -> t_amount txn <= 0) /\
       forall username,
         teacherTotal username posted
         = (if bool_decide (t_teacherUsername txn = username) && (0 <? t_amount txn)
            then JsNumber.add (teacherTotal username data) (t_amount txn)
            else teacherTotal username data) /\
         (awardedBy username posted <= 2 ^ 53 ->
          teacherTotal username posted
          = teacherTotal username data
            + (if bool_decide (t_teacherUsername txn = username) && (0 <? t_amount txn)
               then t_amount txn else 0))) /\
  (forall txnId idx txn,
     findIndex (fun t => bool_decide (t_id t = txnId)) (transactions data) = Some idx ->
     nth_error (transactions data) idx = Some txn ->
     exists data',
       deleteTransaction txnId w = (saveData data' w, Some true) /\
       forall username,
         awardedBy username data <= 2 ^ 53 ->
         teacherTotal username data'
         = teacherTotal username data
           - (if bool_decide (t_teacherUsername txn = username) && (0 <? t_amount txn)
              then t_amount txn else 0)).
Proof.
  intros L. split; [intros username; apply teacherTotal_exact|]. split.
  - intros form now posted msg. unfold submitAwardForm.
    destruct (f_studentId form) as [sid|]; [|discriminate].
    destruct (f_amount form) as [a0|]; [|discriminate].
    destruct (bool_decide (sid = 0)); [discriminate|].
    destruct (bool_decide (trim (f_note form) = "")); [discriminate|].
    rewrite L.
    destruct (find (isStudent sid) (students data)) as [st|]; [|discriminate].
    destruct (getCurrentUser w) as [cu|]; [|discriminate].
    intros [= <- _]. eexists cu, _.
    split; [reflexivity|]. split; [reflexivity|]. split; [reflexivity|]. split.
    { cbn [t_amount]. intros ->. simpl.
      destruct (0 <? a0) eqn:E; [apply Z.ltb_lt in E|apply Z.ltb_ge in E]; lia. }
    intros username. split.
    { unfold teacherTotal. cbn [transactions]. rewrite fold_left_app. reflexivity. }
    intros Hb.
    match goal with |- teacherTotal _ ?d = _ => set (posted := d) in * end.
    assert (awardedBy username posted
            = awardedBy username data
              + (if bool_decide (u_username cu = username)
                    && (0 <? signedAmount (f_mode form) a0)
                 then signedAmount (f_mode form) a0 else 0)) as A.
    { unfold awardedBy, posted. cbn [transactions].
      rewrite List.filter_app, sumAmounts_app. cbn [List.filter t_teacherUsername t_amount].
      destruct (_ && _); simpl; lia. }
    cbn [t_teacherUsername t_amount].
    rewrite (teacherTotal_exact username posted Hb), teacherTotal_exact; [exact A|].
    rewrite A in Hb. destruct (_ && (0 <? signedAmount (f_mode form) a0)) eqn:P; [|lia].
    apply andb_true_iff in P. destruct P as [_ P]. apply Z.ltb_lt in P. lia.
  - intros txnId idx txn F N. eexists.
    split; [apply (deleteTransaction_found _ _ _ _ _ L F N)|].
    intros username Hb.
    assert (awardedBy username
              (mkDocument (users data)
                 (updateFirst (isHouse (t_houseId txn)) (addHousePoints (- t_amount txn))
                              (houses data))
                 (updateFirst (isStudent (t_studentId txn)) (addPoints (- t_amount txn))
                              (students data))
                 (splice1 idx (transactions data)) (rewards data) (houseLimits data)
                 (nextHouseId data) (nextStudentId data) (nextTransactionId data)
                 (nextRewardId data))
            = awardedBy username data
              - (if bool_decide (t_teacherUsername txn = username) && (0 <? t_amount txn)
                 then t_amount txn else 0)) as A.
    { unfold awardedBy. cbn [transactions].
      exact (sumAmounts_splice1
               (fun t => bool_decide (t_teacherUsername t = username) && (0 <? t_amount t))
               _ _ _ N). }
    rewrite (teacherTotal_exact username data Hb), teacherTotal_exact; [exact A|].
    rewrite A. destruct (bool_decide _ && (0 <? t_amount txn)) eqn:P; [|lia].
    apply andb_true_iff in P. destruct P as [_ P]. apply Z.ltb_lt in P. lia.
Qed.

Lemma teacherTotal_follows_ledger_witness :
  exists data',
    deleteTransaction 1 (mkWorld (Some twoHouses) None)
      = (saveData data' (mkWorld (Some twoHouses) None), Some true) /\
    teacherTotal "admin" twoHouses = 5 /\
    teacherTotal "admin" data' = 0.
Proof.
  destruct (teacherTotal_follows_ledger (mkWorld (Some twoHouses) None) twoHouses eq_refl)
    as (_ & _ & D).
  destruct (D 1 0%nat
              (mkTxn 1 "2024-01-01T00:00:00.000Z" "admin" 1 (Some 1) 5 "kindness")
              eq_refl eq_refl) as (data' & E & T).
  exists data'. split; [exact E|]. split; [reflexivity|].
  rewrite (T "admin"); [reflexivity|vm_compute; discriminate].
Defined.

(** ** Capacity settings *)

Lemma magnitudeToString_head (v : N) :
  exists d r, JsNumber.magnitudeToString v = String d r /\ JsString.isDigit d = true.
Proof.
  unfold JsNumber.magnitudeToString.
  destruct (v =? 0)%N; [exists "0"%char, ""; split; reflexivity|].
  destruct (JsNumber.shortest v _) as [s p].
  pose proof (JsNumberFacts.decimal_nonempty s) as Hne.
  pose proof (JsNumberFacts.allDigits_decimal s) as Hd.
  destruct (JsNumber.decimal s) as [|d rest]; [congruence|].
  cbn [JsNumber.allDigits] in Hd. apply andb_true_iff in Hd. destruct Hd as [Hd _].
  cbv zeta. destruct (_ <=? 21)%nat.
  - exists d, (rest ++ JsNumber.zeros p)%string. split; [reflexivity|exact Hd].
  - destruct rest; eexists d, _; (split; [reflexivity|exact Hd]).
Qed.

Lemma parseInt_head_digit (d : ascii) (r : string) :
  JsString.isDigit d = true ->
  match JsNumber.parseInt (String d r) with
  | JsNumber.Finite z => 0 <= z
  | JsNumber.Infinity negative => negative = false
  | JsNumber.NaN => False
  end.
Proof.
  intros Hd. destruct (digit_char_facts d Hd) as (W & _ & _ & M & P).
  unfold JsNumber.parseInt. cbn [JsString.trimStart]. rewrite W, M, P.
  cbn [JsNumber.takeDigits]. rewrite Hd.
  destruct (JsNumber.roundToDouble _); [lia|reflexivity].
Qed.

Lemma limitEntry_nonneg (v : string) (lim : Z) : limitEntry v = Some lim -> 0 <= lim.
Proof.
  assert (forall m, 0 <= m ->
            match JsNumber.parseInt (JsNumber.toString (JsNumber.Finite m)) with
            | JsNumber.Finite r => Some r
            | _ => None
            end = Some lim -> 0 <= lim) as RB.
  { intros m Hm. rewrite <- (Z2N.id m Hm), toString_of_N.
    destruct (magnitudeToString_head (Z.to_N m)) as (d & r & -> & Hd).
    pose proof (parseInt_head_digit d r Hd) as P.
    destruct (JsNumber.parseInt _); try discriminate. intros [= <-]. exact P. }
  unfold limitEntry. destruct (JsNumber.parseInt v) as [|[]|z]; try discriminate.
  - apply RB. lia.
  - apply RB. lia.
Qed.

Lemma getCount_nonneg (data : Document) (hid : Z) : 0 <= getCount data hid.
Proof. unfold getCount. lia. Qed.

(** X15: the limit field of a house row.  Changing it touches the
    entry of that house only (students and houses stay as they are);
    clearing the field removes the limit, so the house is eligible
    again; whatever is typed, the limit the wheel reads back is never
    negative; and an input that parses to zero or less is stored as 0,
    after which no spin of the wheel assigns a student to that house. *)
Theorem setHouseLimit_effect (hid : Z) (inputValue : string) (data : Document) :
  let data' := setHouseLimit hid inputValue data in
  students data' = students data /\ houses data' = houses data /\
  (forall other, other <> hid ->
     getLimit data' other = getLimit data other /\
     isEligible data' other = isEligible data other) /\
  (trim inputValue = "" -> isEligible data' hid = true) /\
  (forall lim, getLimit data' hid = Some (Some lim) -> 0 <= lim) /\
  (forall z, trim inputValue <> "" ->
     JsNumber.parseInt (trim inputValue) = JsNumber.Finite z -> z <= 0 ->
     getLimit data' hid = Some (Some 0) /\
     forall rand selectStu out,
       saved (spinWheel rand selectStu data') = Some out ->
       exists studentId stu h,
         find (isStudent studentId) (students data) = Some stu /\
         In h (houses data) /\ h_id h <> hid /\
         out = setStudents (updateFirst (isStudent (s_id stu))
                                        (setHouseId (Some (h_id h))) (students data))
                           data').
Proof.
  cbv zeta. unfold setHouseLimit.
  destruct (bool_decide (trim inputValue = "")) eqn:B.
  - apply bool_decide_eq_true in B.
    split; [reflexivity|]. split; [reflexivity|]. split.
    { intros other Ho. unfold isEligible, getLimit, getCount. cbn.
      rewrite lookup_delete_ne by congruence. split; reflexivity. }
    split.
    { intros _. unfold isEligible, getLimit. cbn. rewrite lookup_delete_eq. reflexivity. }
    split.
    { intros lim. unfold getLimit. cbn. rewrite lookup_delete_eq. discriminate. }
    intros z Hne. contradiction.
  - apply bool_decide_eq_false in B.
    split; [reflexivity|]. split; [reflexivity|]. split.
    { intros other Ho. unfold isEligible, getLimit, getCount. cbn.
      rewrite lookup_insert_ne by congruence. split; reflexivity. }
    split; [intros E; contradiction|].
    split.
    { intros lim. unfold getLimit. cbn. rewrite lookup_insert_eq.
      intros [= E]. apply (limitEntry_nonneg _ _ E). }
    intros z _ P Hz.
    assert (limitEntry (trim inputValue) = Some 0) as L.
    { unfold limitEntry. rewrite P. replace (Z.max 0 z) with 0 by lia. reflexivity. }
    split.
    { unfold getLimit. cbn. rewrite lookup_insert_eq, L. reflexivity. }
    intros rand selectStu out S.
    destruct (spinWheel_respects_capacity_core _ _ _ _ S)
      as (studentId & stu & h & _ & F & Hin & E & ->).
    exists studentId, stu, h. split; [exact F|]. split; [exact Hin|].
    split; [|reflexivity].
    intros <-. revert E. unfold isEligible, getLimit. cbn [houseLimits setHouseLimits].
    rewrite lookup_insert_eq, L.
    match goal with |- context [getCount ?d ?i] =>
      pose proof (getCount_nonneg d i) as G end.
    intros E. apply Z.ltb_lt in E. lia.
Qed.

Lemma setHouseLimit_effect_witness :
  getLimit (setHouseLimit 2 " -3 " twoHouses) 2 = Some (Some 0) /\
  exists out h,
    saved (spinWheel alwaysCurie (Some 1) (setHouseLimit 2 " -3 " twoHouses)) = Some out /\
    In h (houses twoHouses) /\ h_id h <> 2.
Proof.
  destruct (setHouseLimit_effect 2 " -3 " twoHouses) as (_ & _ & _ & _ & _ & H).
  destruct (H (-3) ltac:(vm_compute; discriminate) ltac:(vm_compute; reflexivity)
              ltac:(lia)) as [G W].
  split; [exact G|].
  destruct (W alwaysCurie (Some 1) _ eq_refl) as (studentId & stu & h & _ & Hin & Hh & _).
  eexists _, h. split; [reflexivity|]. split; assumption.
Defined.

(** ** The wheel with houses of other names *)

Lemma segmentIndex_bounds (angle : Z) : 0 <= segmentIndex angle < 4.
Proof.
  unfold segmentIndex, segSizeLocal.
  pose proof (Z.rem_bound_abs angle 360 ltac:(lia)) as A.
  pose proof (Z.rem_bound_pos (360 - Z.rem angle 360) 360 ltac:(lia) ltac:(lia)) as B.
  change (360 / 4) with 90. split.
  - apply Z.div_pos; lia.
  - apply Z.div_lt_upper_bound; lia.
Qed.

Lemma respinStep_keeps_pick (rand : RandomSource) (data : Document) (st : SpinState) :
  (forall name, In name nameMapping -> houseByName name (houses data) = None) ->
  selectedHouse (respinStep rand data st) = selectedHouse st.
Proof.
  intros H. unfold respinStep; simpl.
  destruct (nth_error nameMapping _) as [name|] eqn:N; [|reflexivity].
  rewrite (H name (nth_error_In _ _ N)). reflexivity.
Qed.

Lemma respin_keeps_pick (rand : RandomSource) (data : Document) (fuel : nat)
      (st : SpinState) :
  (forall name, In name nameMapping -> houseByName name (houses data) = None) ->
  selectedHouse (respin rand data fuel st) = selectedHouse st.
Proof.
  intros H. revert st. induction fuel as [|fuel IH]; intros st; cbn [respin];
    [reflexivity|].
  destruct (keepSpinning data st); [|reflexivity].
  rewrite IH. apply respinStep_keeps_pick, H.
Qed.

(** X16: when no house carries one of the four names painted on the
    wheel, the first spin falls back to the house at the arc's position
    in the list, and the re-spins, which look houses up by name only,
    keep that pick whatever angle they draw.  So if that house is full
    the handler uses up its 20 re-spins, assigns nobody and reports
    nothing, even when other houses have room. *)
Theorem wheel_is_stuck_without_wheel_names
        (rand : RandomSource) (selectStu : option Z) (data : Document) (first : House) :
  (forall name, In name nameMapping -> houseByName name (houses data) = None) ->
  nth_error (houses data)
            (Z.to_nat (Z.rem (segmentIndex ((rand 0%nat 4 + 4) * 360 + rand 1%nat 360))
                             (Z.of_nat (length (houses data))))) = Some first ->
  isEligible data (h_id first) = false ->
  saved (spinWheel rand selectStu data) = None /\
  respins (spinWheel rand selectStu data) = maxAttempts /\
  ~ reportsOutcome (spinWheel rand selectStu data).
Proof.
  intros H N E.
  assert (resolveSegment (houses data) ((rand 0%nat 4 + 4) * 360 + rand 1%nat 360)
          = Some first) as R.
  { unfold resolveSegment. cbv zeta.
    destruct (nth_error nameMapping _) as [name|] eqn:M.
    - rewrite (H name (nth_error_In _ _ M)).
      destruct (houses data) as [|h0 hs]; [destruct (Z.to_nat _); discriminate N|].
      exact N.
    - exfalso. apply nth_error_None in M.
      pose proof (segmentIndex_bounds ((rand 0%nat 4 + 4) * 360 + rand 1%nat 360)) as G.
      revert M. generalize (segmentIndex ((rand 0%nat 4 + 4) * 360 + rand 1%nat 360)) G.
      intros i Hi. change (Z.of_nat (length nameMapping)) with 4.
      change (length nameMapping) with 4%nat.
      rewrite Z.rem_small by lia. lia. }
  unfold spinWheel, reportsOutcome. cbv zeta. rewrite R.
  set (st0 := mkSpinState first _ 0 2).
  pose proof (respin_keeps_pick rand data maxAttempts st0 H) as K.
  assert (isEligible data (h_id (selectedHouse (respin rand data maxAttempts st0))) = false)
    as E' by (rewrite K; exact E).
  pose proof (respin_exhausted rand data st0 E' eq_refl) as A.
  destruct selectStu as [studentId|].
  - destruct (find (isStudent studentId) (students data)) as [stu|].
    + rewrite atCapacity_not_eligible, E'. cbn [negb saved respins resultText].
      split; [reflexivity|]. split; [exact A|]. intros X; apply X; reflexivity.
    + cbn [saved respins resultText].
      split; [reflexivity|]. split; [exact A|]. intros X; apply X; reflexivity.
  - cbn [saved respins resultText].
    split; [reflexivity|]. split; [exact A|]. intros X; apply X; reflexivity.
Qed.

Lemma wheel_is_stuck_without_wheel_names_witness :
  isEligible unnamedHouses (h_id blue) = true /\
  saved (spinWheel alwaysCurie (Some 1) unnamedHouses) = None /\
  respins (spinWheel alwaysCurie (Some 1) unnamedHouses) = maxAttempts.
Proof.
  split; [reflexivity|].
  destruct (wheel_is_stuck_without_wheel_names alwaysCurie (Some 1) unnamedHouses red)
    as (S & A & _).
  - intros name Hn. simpl in Hn.
    destruct Hn as [<-|[<-|[<-|[<-|[]]]]]; reflexivity.
  - reflexivity.
  - reflexivity.
  - split; assumption.
Defined.

(** ** The "Manage Assigned" modal *)

Lemma existsb_eq_In (sid : Z) (ids : list Z) :
  existsb (fun id => bool_decide (id = sid)) ids = true <-> In sid ids.
Proof.
  rewrite existsb_exists. split.
  - intros (x & Hx & E). apply bool_decide_eq_true in E. subst. exact Hx.
  - intros H. exists sid. split; [exact H|]. apply bool_decide_eq_true. reflexivity.
Qed.

Lemma In_toggleAssigned (checked : bool) (sid x : Z) (ids : list Z) :
  In x (toggleAssigned checked sid ids) <->
  if checked then In x ids \/ x = sid else In x ids /\ x <> sid.
Proof.
  unfold toggleAssigned. destruct checked.
  - destruct (existsb _ ids) eqn:E.
    + apply existsb_eq_In in E. split; [auto|]. intros [H| ->]; assumption.
    + rewrite in_app_iff. simpl. intuition.
  - rewrite filter_In, negb_true_iff, bool_decide_eq_false. reflexivity.
Qed.

(** X17: a checkbox of the "Manage Assigned" modal.  After the change
    the student is in the teacher's list exactly if the box is ticked,
    every other student is in it exactly if it was before, the list
    still names nobody twice, a repeated change does nothing more, and
    ticking and unticking a student who was not in the list gives the
    list back. *)
Theorem toggleAssigned_spec (checked : bool) (sid : Z) (ids : list Z) :
  List.NoDup ids ->
  List.NoDup (toggleAssigned checked sid ids) /\
  (In sid (toggleAssigned checked sid ids) <-> checked = true) /\
  (forall x, x <> sid -> (In x (toggleAssigned checked sid ids) <-> In x ids)) /\
  toggleAssigned checked sid (toggleAssigned checked sid ids)
    = toggleAssigned checked sid ids /\
  (~ In sid ids -> toggleAssigned false sid (toggleAssigned true sid ids) = ids).
Proof.
  intros ND. split; [|split; [|split; [|split]]].
  - unfold toggleAssigned. destruct checked.
    + destruct (existsb _ ids) eqn:E; [exact ND|].
      apply NoDup_snoc; [exact ND|].
      intros H. apply existsb_eq_In in H. congruence.
    + apply List.NoDup_filter, ND.
  - rewrite In_toggleAssigned. destruct checked; intuition congruence.
  - intros x Hx. rewrite In_toggleAssigned. destruct checked; intuition.
  - unfold toggleAssigned at 1. destruct checked.
    + assert (existsb (fun id => bool_decide (id = sid)) (toggleAssigned true sid ids) = true)
        as -> by (apply existsb_eq_In, In_toggleAssigned; auto).
      reflexivity.
    + apply filter_all. intros x Hx. apply In_toggleAssigned in Hx.
      apply negb_true_iff, bool_decide_eq_false. tauto.
  - intros Hn. unfold toggleAssigned.
    assert (existsb (fun id => bool_decide (id = sid)) ids = false) as ->.
    { destruct (existsb _ ids) eqn:E; [|reflexivity].
      apply existsb_eq_In in E. contradiction. }
    rewrite List.filter_app. simpl. rewrite bool_decide_eq_true_2 by reflexivity. simpl.
    rewrite app_nil_r. apply filter_all. intros x Hx.
    apply negb_true_iff, bool_decide_eq_false. congruence.
Qed.

Lemma toggleAssigned_spec_witness :
  toggleAssigned false 9 (toggleAssigned true 9 [7; 3]) = [7; 3].
Proof.
  destruct (toggleAssigned_spec true 9 [7; 3]) as (_ & _ & _ & _ & H).
  - repeat constructor; simpl; intuition lia.
  - apply H. simpl. intuition lia.
Defined.

Lemma modalToggles_lookup (changes : list (bool * Z)) (m : AssignModal)
      (page : TeachersPage) (t : User) (ids0 : list Z) :
  users (tp_data page) !! tm_teacher m = Some (setAccessibleStudentIds ids0 t) ->
  tp_world (modalToggles changes m page) = tp_world page /\
  users (tp_data (modalToggles changes m page)) !! tm_teacher m
    = Some (setAccessibleStudentIds
              (fold_left (fun ids c => toggleAssigned (fst c) (snd c) ids) changes ids0) t) /\
  (forall j, j <> tm_teacher m ->
     users (tp_data (modalToggles changes m page)) !! j = users (tp_data page) !! j).
Proof.
  revert page ids0. induction changes as [|[c sid] changes IH]; intros page ids0 L.
  - split; [reflexivity|]. split; [exact L|]. reflexivity.
  - unfold modalToggles. cbn [fold_left fst snd].
    specialize (IH (modalToggle c sid m page) (toggleAssigned c sid ids0)).
    destruct IH as (W & U & O).
    { unfold modalToggle. cbn [tp_data users setUsers].
      rewrite list_lookup_alter_eq, L. reflexivity. }
    split; [exact W|]. split; [exact U|].
    intros j Hj. unfold modalToggles in O. rewrite (O j Hj).
    unfold modalToggle. cbn [tp_data users setUsers].
    apply list_lookup_alter_ne. congruence.
Qed.

(** X18: the "Manage Assigned" modal ticks boxes on the teacher object
    of the page that opened it, but its Save button writes the document
    the modal loaded for itself.  So after Save the stored document is
    the one the page was rendered from, without the changes, while the
    page's own document carries them; they reach the store only when a
    handler of the page saves, such as the password edit of any row. *)
Theorem assigned_students_reach_store_through_page
        (w : World) (page : TeachersPage) (i : nat) (teacher : User)
        (changes : list (bool * Z)) :
  renderManageTeachers w = Some page ->
  users (tp_data page) !! i = Some teacher ->
  let opened := openAssignStudentsModal i page in
  let page' := modalSave (snd opened) (modalToggles changes (snd opened) (fst opened)) in
  let ids := fold_left (fun ids c => toggleAssigned (fst c) (snd c) ids) changes
                       (default [] (u_accessibleStudentIds teacher)) in
  loadData (tp_world page') = Some (tp_data page) /\
  users (tp_data page') !! i = Some (setAccessibleStudentIds ids teacher) /\
  (forall j, j <> i -> users (tp_data page') !! j = users (tp_data page) !! j) /\
  (forall j p,
     let page'' := pageEditPassword j (Some p) page' in
     localStorage (tp_world page'') = Some (tp_data page'') /\
     users (tp_data page'') !! i
       = Some ((if bool_decide (j = i) then setPassword p else fun u => u)
                 (setAccessibleStudentIds ids teacher))).
Proof.
  unfold renderManageTeachers. destruct (loadData w) as [data|] eqn:L; [|discriminate].
  intros [= <-] T. cbv zeta. cbn [tp_data] in T |- *.
  unfold openAssignStudentsModal. cbn [fst snd tp_data tp_world].
  rewrite L.
  set (page1 := mkTeachersPage _ w).
  set (m := mkAssignModal i (Some data)).
  destruct (modalToggles_lookup changes m page1 teacher
              (default [] (u_accessibleStudentIds teacher))) as (W & U & O).
  { subst page1 m. cbn [tp_data users setUsers tm_teacher].
    rewrite list_lookup_alter_eq, T. reflexivity. }
  subst m. cbn [tm_teacher] in U, O.
  set (m := mkAssignModal i (Some data)) in *.
  assert (forall j, j <> i ->
            users (tp_data (modalToggles changes m page1)) !! j = users data !! j) as O'.
  { intros j Hj. rewrite (O j Hj). subst page1. cbn [tp_data users setUsers].
    apply list_lookup_alter_ne. congruence. }
  unfold modalSave. change (tm_data m) with (Some data). cbn [tp_data tp_world].
  split; [apply (loadData_saved w _ data data L eq_refl)|].
  split; [exact U|]. split; [exact O'|].
  intros j p. unfold pageEditPassword, editPassword. cbn [tp_data tp_world saveData localStorage].
  split; [reflexivity|]. cbn [users setUsers].
  destruct (bool_decide (j = i)) eqn:B.
  - apply bool_decide_eq_true in B. subst j.
    rewrite list_lookup_alter_eq, U. reflexivity.
  - apply bool_decide_eq_false in B.
    rewrite list_lookup_alter_ne by congruence. exact U.
Qed.

Lemma assigned_students_reach_store_through_page_witness :
  let w := mkWorld (Some (setUsers [adminUser; gradeTwoTeacher] twoHouses)) None in
  let page := mkTeachersPage (setUsers [adminUser; gradeTwoTeacher] twoHouses) w in
  let opened := openAssignStudentsModal 1 page in
  let page' := modalSave (snd opened)
                         (modalToggles [(true, 1); (false, 7)] (snd opened) (fst opened)) in
  loadData (tp_world page') = Some (tp_data page) /\
  users (tp_data page') !! 1%nat = Some (setAccessibleStudentIds [1] gradeTwoTeacher).
Proof.
  cbv zeta.
  destruct (assigned_students_reach_store_through_page
              (mkWorld (Some (setUsers [adminUser; gradeTwoTeacher] twoHouses)) None)
              (mkTeachersPage (setUsers [adminUser; gradeTwoTeacher] twoHouses)
                 (mkWorld (Some (setUsers [adminUser; gradeTwoTeacher] twoHouses)) None))
              1 gradeTwoTeacher [(true, 1); (false, 7)] eq_refl eq_refl)
    as (A & B & _).
  split; [exact A|exact B].
Defined.

(** ** Student sections *)

Lemma In_listedStudents (s : Student) (data : Document) :
  In s (listedStudents data) <->
  In s (students data) /\ In (normalizeGrade (s_grade s)) gradeKeys.
Proof.
  unfold listedStudents, sectionStudents. rewrite in_concat. split.
  - intros (l & Hl & Hs). apply in_map_iff in Hl. destruct Hl as (key & <- & Hk).
    apply filter_In in Hs. destruct Hs as [Hs Hb].
    apply bool_decide_eq_true in Hb. rewrite Hb. auto.
  - intros [Hs Hk]. eexists. split.
    + apply in_map_iff. eexists. split; [reflexivity|exact Hk].
    + apply filter_In. split; [exact Hs|]. apply bool_decide_eq_true_2. reflexivity.
Qed.

(** X19: the students page shows a student under the heading of the
    normalised grade, so a student appears on the page exactly if the
    stored grade normalises to one of K, 1, ..., 5, and then under one
    heading only.  The add form accepts any grade text: a student added
    with a grade outside that range (an empty field, say) is stored but
    shown in no section, and so gets no Edit or Delete button. *)
Theorem student_sections (data : Document) :
  (forall s, In s (listedStudents data) <->
             In s (students data) /\ In (normalizeGrade (s_grade s)) gradeKeys) /\
  (forall key1 key2 s,
     In s (sectionStudents key1 data) -> In s (sectionStudents key2 data) -> key1 = key2) /\
  (forall studentName studentGrade studentHouse data',
     addStudent studentName studentGrade studentHouse data = Some data' ->
     ~ In (normalizeGrade (trim studentGrade)) gradeKeys ->
     exists student,
       students data' = (students data ++ [student])%list /\
       s_id student = nextStudentId data /\
       listedStudents data' = listedStudents data).
Proof.
  split; [intros s; apply In_listedStudents|]. split.
  - intros key1 key2 s H1 H2. unfold sectionStudents in *.
    apply filter_In in H1, H2. destruct H1 as [_ H1], H2 as [_ H2].
    apply bool_decide_eq_true in H1, H2. congruence.
  - intros studentName studentGrade studentHouse data'. unfold addStudent.
    destruct (bool_decide (trim studentName = "")); [discriminate|].
    intros [= <-] Hn. eexists. split; [reflexivity|]. split; [reflexivity|].
    unfold listedStudents. f_equal. apply map_ext_in. intros key Hk.
    unfold sectionStudents. cbn [students]. rewrite List.filter_app. cbn [List.filter s_grade].
    rewrite bool_decide_eq_false_2; [apply app_nil_r|].
    intros E. apply Hn. rewrite E. exact Hk.
Qed.

Lemma student_sections_witness :
  exists data' student,
    addStudent "Zed" "" None twoHouses = Some data' /\
    In student (students data') /\ s_name student = "Zed" /\
    listedStudents data' = listedStudents twoHouses.
Proof.
  destruct (student_sections twoHouses) as (_ & _ & H).
  destruct (H "Zed" "" None _ eq_refl) as (student & S & _ & L).
  - vm_compute. intuition discriminate.
  - eexists _, _. split; [reflexivity|]. split; [right; left; reflexivity|].
    split; [reflexivity|exact L].
Defined.

(** ** Grade normalisation, once more *)

Lemma isWhiteSpace_lowerChar (c : ascii) : isWhiteSpace (lowerChar c) = isWhiteSpace c.
Proof. destruct c as [[] [] [] [] [] [] [] []]; reflexivity. Qed.

Lemma toLowerCase_empty (s : string) : toLowerCase s = "" <-> s = "".
Proof. destruct s; simpl; split; intros H; try reflexivity; discriminate. Qed.

Lemma trimStart_toLowerCase (s : string) :
  trimStart (toLowerCase s) = toLowerCase (trimStart s).
Proof.
  induction s as [|c r IH]; [reflexivity|].
  cbn [toLowerCase trimStart]. rewrite isWhiteSpace_lowerChar.
  destruct (isWhiteSpace c); [exact IH|reflexivity].
Qed.

Lemma trimEnd_toLowerCase (s : string) :
  trimEnd (toLowerCase s) = toLowerCase (trimEnd s).
Proof.
  induction s as [|c r IH]; [reflexivity|].
  cbn [toLowerCase trimEnd]. rewrite IH, isWhiteSpace_lowerChar.
  destruct (trimEnd r) as [|c' r']; cbn [toLowerCase].
  - destruct (isWhiteSpace c); reflexivity.
  - reflexivity.
Qed.

Lemma trim_toLowerCase (s : string) : trim (toLowerCase s) = toLowerCase (trim s).
Proof. unfold trim. rewrite trimStart_toLowerCase, trimEnd_toLowerCase. reflexivity. Qed.

Lemma trimEnd_idem (s : string) : trimEnd (trimEnd s) = trimEnd s.
Proof.
  induction s as [|c r IH]; [reflexivity|]. cbn [trimEnd].
  destruct (trimEnd r) as [|c' r'] eqn:E.
  - destruct (isWhiteSpace c) eqn:W; [reflexivity|]. cbn [trimEnd]. rewrite W. reflexivity.
  - cbn [trimEnd] in IH |- *. rewrite IH. reflexivity.
Qed.

Lemma trimStart_head (s : string) :
  trimStart s = "" \/ exists c r, trimStart s = String c r /\ isWhiteSpace c = false.
Proof.
  induction s as [|c r IH]; [left; reflexivity|]. cbn [trimStart].
  destruct (isWhiteSpace c) eqn:W; [exact IH|]. right. eauto.
Qed.

Lemma trim_idem (s : string) : trim (trim s) = trim s.
Proof.
  unfold trim. destruct (trimStart_head s) as [->|(c & r & -> & W)]; [reflexivity|].
  assert (exists r', trimEnd (String c r) = String c r') as [r' E].
  { cbn [trimEnd]. destruct (trimEnd r); [rewrite W|]; eauto. }
  rewrite E. cbn [trimStart]. rewrite W, <- E. apply trimEnd_idem.
Qed.

(** X20: grade normalisation does not look at letter case or at white
    space around the text: lower-casing or trimming a grade first gives
    the same result.  (The add form stores the trimmed text, the award
    form and the students page normalise what was stored.) *)
Theorem normalizeGrade_ignores_case_and_padding (g : string) :
  normalizeGrade (toLowerCase g) = normalizeGrade g /\
  normalizeGrade (trim g) = normalizeGrade g.
Proof.
  split.
  - unfold normalizeGrade.
    destruct (bool_decide (g = "")) eqn:B.
    + apply bool_decide_eq_true in B. subst g. reflexivity.
    + apply bool_decide_eq_false in B.
      rewrite bool_decide_eq_false_2 by (rewrite toLowerCase_empty; exact B).
      rewrite trim_toLowerCase, toLowerCase_idem. reflexivity.
  - unfold normalizeGrade.
    destruct (bool_decide (g = "")) eqn:B.
    + apply bool_decide_eq_true in B. subst g. reflexivity.
    + destruct (bool_decide (trim g = "")) eqn:T.
      * apply bool_decide_eq_true in T. rewrite T. reflexivity.
      * rewrite trim_idem. reflexivity.
Qed.

(** ** Rewards *)

Lemma rewardRows_cons (rew : Reward) (rs : list Reward) : rewardRows (rew :: rs) = None.
Proof. reflexivity. Qed.

(** X21: the rewards page.  The add form stores a reward exactly when
    the name is not blank and the cost is a number, under the next
    reward id, at the end of the list, and touches nothing else; ids
    below the counter stay below it and distinct.  The table, however,
    can only be drawn while there are no rewards: with at least one the
    first row raises, so the re-render that follows a successful add
    fails and no row (hence no Delete button) is ever shown. *)
Theorem rewards_page (data : Document) :
  (renderRewards data <> None <-> rewards data = []) /\
  (forall rewardName rewardCost,
     is_Some (addReward rewardName rewardCost data) <->
     trim rewardName <> "" /\ is_Some rewardCost) /\
  (forall rewardName rewardCost data',
     addReward rewardName rewardCost data = Some data' ->
     exists costVal,
       rewardCost = Some costVal /\
       rewards data' = (rewards data
                        ++ [mkReward (nextRewardId data) (trim rewardName) costVal])%list /\
       nextRewardId data' = nextRewardId data + 1 /\
       users data' = users data /\ houses data' = houses data /\
       students data' = students data /\ transactions data' = transactions data /\
       renderRewards data' = None /\
       (List.NoDup (map r_id (rewards data)) ->
        Forall (fun r => r_id r < nextRewardId data) (rewards data) ->
        List.NoDup (map r_id (rewards data')) /\
        Forall (fun r => r_id r < nextRewardId data') (rewards data'))).
Proof.
  split; [|split].
  - unfold renderRewards. destruct (rewards data) as [|rew rs].
    + simpl. split; [reflexivity|discriminate].
    + rewrite rewardRows_cons. split; [congruence|discriminate].
  - intros rewardName rewardCost. unfold addReward.
    destruct rewardCost as [costVal|].
    + destruct (bool_decide (trim rewardName = "")) eqn:B.
      * apply bool_decide_eq_true in B. split; [intros [x [=]]|intros [H _]; contradiction].
      * apply bool_decide_eq_false in B. split; [eauto|]. intros _. eauto.
    + split; [intros [x [=]]|intros [_ [x [=]]]].
  - intros rewardName rewardCost data'. unfold addReward.
    destruct rewardCost as [costVal|]; [|discriminate].
    destruct (bool_decide (trim rewardName = "")); [discriminate|].
    intros [= <-]. exists costVal. cbn [rewards nextRewardId users houses students
                                       transactions setRewards].
    repeat (split; [reflexivity|]). split.
    + unfold renderRewards. cbn [rewards setRewards].
      destruct (rewards data); reflexivity.
    + intros ND F. split.
      * rewrite map_app. apply NoDup_ids_snoc; [exact ND|].
        apply List.Forall_map. exact F.
      * apply Forall_app. split.
        -- eapply List.Forall_impl; [|exact F]. simpl. intros r Hr. lia.
        -- constructor; [simpl; lia|constructor].
Qed.

Lemma rewards_page_witness :
  exists data',
    addReward " Pizza party " (Some 50) twoHouses = Some data' /\
    renderRewards twoHouses = Some ["No rewards yet."] /\
    renderRewards data' = None /\
    List.NoDup (map r_id (rewards data')).
Proof.
  destruct (rewards_page twoHouses) as (_ & _ & H).
  destruct (H " Pizza party " (Some 50) _ eq_refl)
    as (costVal & _ & _ & _ & _ & _ & _ & _ & R & K).
  destruct K as [ND _]; [constructor|constructor|].
  eexists. split; [reflexivity|]. split; [reflexivity|]. split; [exact R|exact ND].
Defined.

(** ** Transaction history *)

(** X22: the history page lists every entry for an administrator and,
    for anybody else, the entries recorded under that user's name.  An
    entry posted through the award form is therefore in the poster's
    own list straight away, and the list of a non-administrator with a
    different user name is what it was. *)
Theorem posted_entry_in_own_history
        (form : AwardForm) (now : string) (w : World) (data posted : Document)
        (currentUser : User) (msg : string) :
  loadData w = Some data ->
  getCurrentUser w = Some currentUser ->
  submitAwardForm form now w = (saveData posted w, AwardSuccess msg) ->
  exists txn,
    transactions posted = (transactions data ++ [txn])%list /\
    t_id txn = nextTransactionId data /\
    t_teacherUsername txn = u_username currentUser /\
    txns currentUser posted = (txns currentUser data ++ [txn])%list /\
    (forall other,
       u_role other <> "admin" -> u_username other <> u_username currentUser ->
       txns other posted = txns other data) /\
    (forall other, u_role other = "admin" -> txns other posted = transactions posted).
Proof.
  intros L C. unfold submitAwardForm.
  destruct (f_studentId form) as [sid|]; [|discriminate].
  destruct (f_amount form) as [a0|]; [|discriminate].
  destruct (bool_decide (sid = 0)); [discriminate|].
  destruct (bool_decide (trim (f_note form) = "")); [discriminate|].
  rewrite L.
  destruct (find (isStudent sid) (students data)) as [st|]; [|discriminate].
  rewrite C. intros [= <- _]. eexists.
  split; [reflexivity|]. split; [reflexivity|]. split; [reflexivity|].
  split; [|split].
  - unfold txns. cbn [transactions].
    destruct (bool_decide (u_role currentUser = "admin")); [reflexivity|].
    rewrite List.filter_app. cbn [List.filter t_teacherUsername].
    rewrite bool_decide_eq_true_2 by reflexivity. reflexivity.
  - intros other R U. unfold txns. cbn [transactions].
    rewrite bool_decide_eq_false_2 by exact R.
    rewrite List.filter_app. cbn [List.filter t_teacherUsername].
    rewrite bool_decide_eq_false_2 by congruence. apply app_nil_r.
  - intros other R. unfold txns. rewrite bool_decide_eq_true_2 by exact R. reflexivity.
Qed.

Lemma posted_entry_in_own_history_witness :
  exists posted msg txn,
    submitAwardForm (mkAwardForm (Some 1) (Some 3) "helping" ModeAdd) "now"
                    (mkWorld (Some twoHouses) (Some gradeTwoTeacher))
      = (saveData posted (mkWorld (Some twoHouses) (Some gradeTwoTeacher)), AwardSuccess msg) /\
    txns gradeTwoTeacher posted = [txn] /\ t_amount txn = 3.
Proof.
  eexists _, _, _. split; [vm_compute; reflexivity|].
  destruct (posted_entry_in_own_history
              (mkAwardForm (Some 1) (Some 3) "helping" ModeAdd) "now"
              (mkWorld (Some twoHouses) (Some gradeTwoTeacher)) twoHouses _
              gradeTwoTeacher _ eq_refl eq_refl eq_refl) as (txn & _ & _ & _ & T & _).
  split; [vm_compute; reflexivity|reflexivity].
Defined.

(** ** The edit overlay *)

Lemma lookup_updateFirst_unique {A : Type} (key : A -> Z) (k : Z) (p : A -> bool)
      (f : A -> A) (l : list A) (i : nat) (x : A) :
  (forall y, p y = true <-> key y = k) ->
  List.NoDup (map key l) -> l !! i = Some x ->
  updateFirst p f l !! i = Some (if p x then f x else x).
Proof.
  intros Hp. revert i. induction l as [|y l IH]; intros i ND L; [destruct i; discriminate L|].
  apply List.NoDup_cons_iff in ND. destruct ND as [Ny ND]. cbn [updateFirst].
  destruct i as [|i]; cbn in L.
  - injection L as ->. destruct (p x); reflexivity.
  - destruct (p y) eqn:E.
    + cbn. rewrite L. destruct (p x) eqn:Px; [|reflexivity].
      exfalso. apply Ny. apply Hp in E, Px. rewrite E, <- Px.
      apply in_map. exact (lookup_In l i x L).
    + cbn. exact (IH i ND L).
Qed.

Lemma isHouse_None (h : House) : isHouse None h = false.
Proof. reflexivity. Qed.

Lemma lookup_updateFirst_house (hid : option Z) (delta : Z) (hs : list House) (i : nat)
      (h : House) :
  List.NoDup (map h_id hs) -> hs !! i = Some h ->
  updateFirst (isHouse hid) (addHousePoints delta) hs !! i
  = Some (if isHouse hid h then addHousePoints delta h else h).
Proof.
  intros ND L. destruct hid as [k|].
  - apply (lookup_updateFirst_unique h_id k); [apply isHouse_spec|exact ND|exact L].
  - rewrite (updateFirst_no_match (isHouse None)) by (intros; reflexivity).
    rewrite isHouse_None. exact L.
Qed.

(** X23: the edit overlay works on a document of its own while the
    student it edits is the caller's object.  What it saves therefore
    never contains the edit: the stored students (name, grade and house
    included) and the ledger are as loaded.  Only house totals move
    (house ids distinct): when the house changes, the old house of the
    student is debited by the student's points and the new house is
    credited by them, each where it exists, and every other house is
    as it was; when the house stays, no house changes.  The new name,
    grade and house live on the caller's object alone. *)
Theorem edit_overlay_saves_house_totals_only
        (student : Student) (editStudentName editStudentGrade : string)
        (editStudentHouse : option Z) (w w' : World) (student' : Student)
        (data : Document) :
  loadData w = Some data ->
  List.NoDup (map h_id (houses data)) ->
  editStudentSubmit student editStudentName editStudentGrade editStudentHouse w
    = Some (w', student') ->
  exists data',
    localStorage w' = Some data' /\
    students data' = students data /\
    transactions data' = transactions data /\
    student' = mkStudent (s_id student) (trim editStudentName) (trim editStudentGrade)
                         editStudentHouse (s_points student) (s_photo student) /\
    length (houses data') = length (houses data) /\
    forall i h,
      houses data !! i = Some h ->
      houses data' !! i
      = Some (if bool_decide (s_houseId student = editStudentHouse) then h
              else if isHouse (s_houseId student) h
                   then addHousePoints (- s_points student) h
                   else if isHouse editStudentHouse h
                        then addHousePoints (s_points student) h
                        else h).
Proof.
  intros L ND. unfold editStudentSubmit. rewrite L.
  destruct (bool_decide (trim editStudentName = "")); [discriminate|].
  cbv zeta. cbn [s_houseId s_points].
  destruct (bool_decide (s_houseId student = editStudentHouse)) eqn:B.
  - intros [= <- <-]. exists data. apply bool_decide_eq_true in B.
    cbn [saveData localStorage]. repeat (split; [reflexivity|]).
    split; [rewrite B; reflexivity|]. split; [reflexivity|]. intros i h Hi. exact Hi.
  - intros [= <- <-]. apply bool_decide_eq_false in B. eexists.
    cbn [saveData localStorage].
    split; [reflexivity|]. cbn [students transactions houses setHouses].
    split; [reflexivity|]. split; [reflexivity|]. split; [reflexivity|]. split.
    { rewrite <- !(length_map h_id), !map_key_updateFirst by reflexivity. reflexivity. }
    intros i h Hi.
    rewrite (lookup_updateFirst_house editStudentHouse (s_points student) _ i
               (if isHouse (s_houseId student) h
                then addHousePoints (- s_points student) h else h)).
    + destruct (isHouse (s_houseId student) h) eqn:O; [|reflexivity].
      rewrite isHouse_addHousePoints.
      destruct (isHouse editStudentHouse h) eqn:N; [|reflexivity].
      exfalso. apply B. unfold isHouse in O, N.
      apply bool_decide_eq_true in O, N. congruence.
    + rewrite map_key_updateFirst by reflexivity. exact ND.
    + apply lookup_updateFirst_house; assumption.
Qed.

Lemma edit_overlay_saves_house_totals_only_witness :
  exists w' student' data',
    editStudentSubmit ada "Ada L." "4" (Some 2) (mkWorld (Some twoHouses) None)
      = Some (w', student') /\
    localStorage w' = Some data' /\
    students data' = [ada] /\ s_houseId student' = Some 2 /\
    houses data' !! 0%nat = Some (mkHouse 1 "Darwin" None 0 None) /\
    houses data' !! 1%nat = Some (mkHouse 2 "Curie" None 5 None).
Proof.
  destruct (edit_overlay_saves_house_totals_only ada "Ada L." "4" (Some 2)
              (mkWorld (Some twoHouses) None) _ _ twoHouses eq_refl
              ltac:(vm_compute; repeat constructor; simpl; intuition discriminate)
              eq_refl)
    as (data' & S & St & _ & _ & _ & H).
  eexists _, _, data'. split; [reflexivity|]. split; [exact S|].
  split; [exact St|]. split; [reflexivity|]. split.
  - rewrite (H 0%nat darwin eq_refl). reflexivity.
  - rewrite (H 1%nat curie eq_refl). reflexivity.
Defined.

(** ** Ceremony *)

Lemma sortByPoints_head_max {A : Type} (points : A -> Z) (l : list A) (first : A)
      (rest : list A) (x : A) :
  sortByPoints points l = first :: rest -> In x l -> points x <= points first.
Proof.
  intros E Hx.
  apply (Permutation_in _ (sortByPoints_perm points l)) in Hx.
  pose proof (sortByPoints_sorted points l) as S.
  rewrite E in Hx, S. inversion S as [|? ? _ F]; subst.
  destruct Hx as [<-|Hx]; [lia|].
  exact (proj1 (List.Forall_forall _ _) F x Hx).
Qed.

(** X24: the ceremony reveals the first four rows of the leaderboard
    last place first, so the points never fall from one reveal to the
    next and the house revealed last has the most points of all; each
    reveal is labelled with the rank the leaderboard prints for that
    row, followed by " Place". *)
Theorem ceremony_reveals_leaderboard_backwards (data : Document) :
  map snd (runCeremony data) = rev (firstn 4 (leaderboardHouses data)) /\
  StronglySorted (fun a b => h_points a <= h_points b) (map snd (runCeremony data)) /\
  (forall label h,
     In (label, h) (runCeremony data) ->
     exists idx, leaderboardHouses data !! idx = Some h /\
                 label = (rankLabel idx ++ " Place")%string) /\
  (forall rows label winner h,
     runCeremony data = (rows ++ [(label, winner)])%list -> In h (houses data) ->
     h_points h <= h_points winner).
Proof.
  pose proof (sortByPoints_sorted h_points (houses data)) as S.
  pose proof (fun first rest h => sortByPoints_head_max h_points (houses data) first rest h)
    as M.
  unfold runCeremony. fold (leaderboardHouses data) in S, M.
  destruct (leaderboardHouses data) as [|a [|b [|c [|d l]]]]; cbn.
  - split; [reflexivity|]. split; [constructor|]. split; [intros ? ? []|].
    intros rows label winner h E. destruct rows; discriminate E.
  - split; [reflexivity|]. split; [repeat constructor|]. split.
    + intros label h [[= <- <-]|[]]. exists 0%nat. split; reflexivity.
    + intros rows label winner h E Hh.
      destruct rows as [|r0 rows]; [|destruct rows; discriminate E].
      injection E as <- <-. eapply M; eauto.
  - unfold_sorted. split; [reflexivity|]. split; [repeat constructor; lia|]. split.
    + intros label h [[= <- <-]|[[= <- <-]|[]]];
        [exists 1%nat|exists 0%nat]; split; reflexivity.
    + intros rows label winner h E Hh.
      destruct rows as [|r0 [|r1 rows]]; try discriminate E;
        [|destruct rows; discriminate E].
      injection E as _ <- <-. eapply M; eauto.
  - unfold_sorted. split; [reflexivity|]. split; [repeat constructor; lia|]. split.
    + intros label h [[= <- <-]|[[= <- <-]|[[= <- <-]|[]]]];
        [exists 2%nat|exists 1%nat|exists 0%nat]; split; reflexivity.
    + intros rows label winner h E Hh.
      destruct rows as [|r0 [|r1 [|r2 rows]]]; try discriminate E;
        [|destruct rows; discriminate E].
      injection E as _ _ <- <-. eapply M; eauto.
  - unfold_sorted. split; [reflexivity|]. split; [repeat constructor; lia|]. split.
    + intros label h [[= <- <-]|[[= <- <-]|[[= <- <-]|[[= <- <-]|[]]]]];
        [exists 3%nat|exists 2%nat|exists 1%nat|exists 0%nat]; split; reflexivity.
    + intros rows label winner h E Hh.
      destruct rows as [|r0 [|r1 [|r2 [|r3 rows]]]]; try discriminate E;
        [|destruct rows; discriminate E].
      injection E as _ _ _ <- <-. eapply M; eauto.
Qed.

Lemma ceremony_reveals_leaderboard_backwards_witness :
  runCeremony twoHouses = [("2nd Place", curie); ("1st Place", darwin)] /\
  h_points curie <= h_points darwin.
Proof.
  split; [reflexivity|].
  destruct (ceremony_reveals_leaderboard_backwards twoHouses) as (_ & _ & _ & H).
  apply (H [("2nd Place", curie)] "1st Place" darwin curie eq_refl).
  right; left; reflexivity.
Defined.

(** ** Sessions and accounts *)

Lemma backfillUser_filter (p : User -> bool) (us : list User) :
  map backfillUser us = us -> map backfillUser (List.filter p us) = List.filter p us.
Proof.
  induction us as [|u us IH]; simpl; [reflexivity|].
  intros [= Hu Hus]. destruct (p u); simpl; [rewrite Hu|]; rewrite IH; auto.
Qed.

Lemma loadData_deleteTeacher (teacher : User) (w w' : World) (data : Document) :
  loadData w = Some data ->
  loadData (saveData (deleteTeacher teacher data) w') = Some (deleteTeacher teacher data).
Proof.
  intros L. unfold loadData, saveData, deleteTeacher. cbn [localStorage ensureSchema].
  f_equal. unfold setUsers. cbn [users houses students transactions rewards houseLimits
                                 nextHouseId nextStudentId nextTransactionId nextRewardId].
  rewrite (backfillUser_filter _ _ (loadData_users_backfilled _ _ L)). reflexivity.
Qed.

(** X25: the award form never looks at the list of accounts: it takes
    the poster from the session.  A teacher who is signed in when the
    administrator deletes the account can therefore go on posting; the
    post has the same effect as before and leaves a ledger entry under
    a user name that no account carries any more. *)
Theorem deleted_teacher_session_still_posts
        (teacher : User) (form : AwardForm) (now : string) (w : World)
        (data posted : Document) (msg : string) :
  loadData w = Some data ->
  getCurrentUser w = Some teacher ->
  submitAwardForm form now w = (saveData posted w, AwardSuccess msg) ->
  let w1 := saveData (deleteTeacher teacher data) w in
  let posted1 := deleteTeacher teacher posted in
  submitAwardForm form now w1 = (saveData posted1 w1, AwardSuccess msg) /\
  students posted1 = students posted /\ houses posted1 = houses posted /\
  (exists txn, In txn (transactions posted1) /\
               t_id txn = nextTransactionId data /\
               t_teacherUsername txn = u_username teacher) /\
  ~ In (u_username teacher) (map u_username (users posted1)).
Proof.
  intros L C. cbv zeta. unfold submitAwardForm.
  rewrite (loadData_deleteTeacher teacher w w data L), L.
  change (getCurrentUser (saveData (deleteTeacher teacher data) w)) with (getCurrentUser w).
  rewrite C.
  destruct (f_studentId form) as [sid|]; [|discriminate].
  destruct (f_amount form) as [a0|]; [|discriminate].
  destruct (bool_decide (sid = 0)); [discriminate|].
  destruct (bool_decide (trim (f_note form) = "")); [discriminate|].
  change (students (deleteTeacher teacher data)) with (students data).
  change (houses (deleteTeacher teacher data)) with (houses data).
  destruct (find (isStudent sid) (students data)) as [st|]; [|discriminate].
  intros [= <- <-].
  split; [reflexivity|]. split; [reflexivity|]. split; [reflexivity|]. split.
  - eexists. split.
    + cbn [deleteTeacher transactions setUsers]. apply in_app_iff. right. left. reflexivity.
    + split; reflexivity.
  - cbn [deleteTeacher users setUsers]. rewrite in_map_iff.
    intros (u & E & Hu). apply filter_In in Hu. destruct Hu as [_ Hu].
    apply negb_true_iff, bool_decide_eq_false in Hu. contradiction.
Qed.

Lemma deleted_teacher_session_still_posts_witness :
  let w := mkWorld (Some (setUsers [adminUser; gradeTwoTeacher] twoHouses))
                   (Some gradeTwoTeacher) in
  let w1 := saveData (deleteTeacher gradeTwoTeacher
                        (setUsers [adminUser; gradeTwoTeacher] twoHouses)) w in
  exists posted1 msg,
    submitAwardForm (mkAwardForm (Some 1) (Some 3) "helping" ModeAdd) "now" w1
      = (saveData posted1 w1, AwardSuccess msg) /\
    ~ In (u_username gradeTwoTeacher) (map u_username (users posted1)).
Proof.
  cbv zeta.
  destruct (deleted_teacher_session_still_posts gradeTwoTeacher
              (mkAwardForm (Some 1) (Some 3) "helping" ModeAdd) "now"
              (mkWorld (Some (setUsers [adminUser; gradeTwoTeacher] twoHouses))
                       (Some gradeTwoTeacher))
              (setUsers [adminUser; gradeTwoTeacher] twoHouses) _ _
              eq_refl eq_refl eq_refl) as (S & _ & _ & _ & N).
  eexists _, _. split; [exact S|exact N].
Defined.

Lemma find_alter_key {A : Type} (key : A -> string) (k : string) (P : A -> bool)
      (f : A -> A) (l : list A) (i : nat) (t : A) :
  List.NoDup (map key l) -> l !! i = Some t ->
  (forall x, P x = true -> key x = k) -> key t = k ->
  find P (alter f i l) = if P (f t) then Some (f t) else None.
Proof.
  intros ND L HP Kt. revert i ND L. induction l as [|x l IH]; intros i ND L.
  - destruct i; discriminate L.
  - apply List.NoDup_cons_iff in ND. destruct ND as [Nx ND]. destruct i as [|i].
    + injection L as ->. cbn. destruct (P (f t)); [reflexivity|].
      destruct (find P l) as [y|] eqn:F; [|reflexivity].
      exfalso. apply find_some in F. destruct F as [Hy Py]. apply Nx.
      rewrite Kt, <- (HP y Py). apply in_map, Hy.
    + cbn in L |- *. destruct (P x) eqn:Px.
      * exfalso. apply Nx. rewrite (HP x Px), <- Kt. apply in_map.
        exact (lookup_In l i t L).
      * apply (IH i ND L).
Qed.

(** X26: the password edit of a teacher row.  With user names distinct
    up to letter case, the teacher signs in with the new password (as
    typed into the prompt, not trimmed) under any spelling of the user
    name, no other password is accepted for that name any more, and no
    other account is changed. *)
Theorem editPassword_then_login
        (i : nat) (teacher : User) (newPwd : string) (data : Document) (w : World)
        (loginUsername : string) :
  users data !! i = Some teacher ->
  List.NoDup (userNameKeys (users data)) ->
  toLowerCase (trim loginUsername) = toLowerCase (u_username teacher) ->
  exists data',
    editPassword i (Some newPwd) data = Some data' /\
    login loginUsername newPwd (saveData data' w)
      = (setCurrentUser (backfillUser (setPassword newPwd teacher)) (saveData data' w),
         LoginShown) /\
    (forall pw, pw <> newPwd ->
       login loginUsername pw (saveData data' w)
       = (saveData data' w, LoginAlert "Invalid username or password")) /\
    (forall j, j <> i -> users data' !! j = users data !! j).
Proof.
  intros L ND E. eexists. split; [reflexivity|].
  assert (forall pw,
    find (credentialsMatch (trim loginUsername) pw)
         (alter (setPassword newPwd) i (users data))
    = if credentialsMatch (trim loginUsername) pw (setPassword newPwd teacher)
      then Some (setPassword newPwd teacher) else None) as F.
  { intros pw.
    apply (find_alter_key (fun u => toLowerCase (u_username u))
                          (toLowerCase (trim loginUsername))).
    - exact ND.
    - exact L.
    - intros x Hx. apply credentialsMatch_spec in Hx. tauto.
    - symmetry. exact E. }
  split; [|split].
  - erewrite login_over_users by reflexivity. cbn [users setUsers]. rewrite F.
    assert (credentialsMatch (trim loginUsername) newPwd (setPassword newPwd teacher) = true)
      as -> by (apply credentialsMatch_spec; split; [symmetry; exact E|reflexivity]).
    reflexivity.
  - intros pw Hpw. erewrite login_over_users by reflexivity. cbn [users setUsers].
    rewrite F.
    destruct (credentialsMatch _ pw _) eqn:M; [|reflexivity].
    apply credentialsMatch_spec in M. destruct M as [_ M]. cbn in M. congruence.
  - intros j Hj. cbn [users setUsers]. apply list_lookup_alter_ne. congruence.
Qed.

Lemma editPassword_then_login_witness :
  exists data',
    editPassword 1 (Some "s3cret ") (setUsers [adminUser; gradeTwoTeacher] twoHouses)
      = Some data' /\
    snd (login " T2" "s3cret " (saveData data' (mkWorld None None))) = LoginShown /\
    snd (login " T2" "pw" (saveData data' (mkWorld None None)))
      = LoginAlert "Invalid username or password".
Proof.
  destruct (editPassword_then_login 1 gradeTwoTeacher "s3cret "
              (setUsers [adminUser; gradeTwoTeacher] twoHouses) (mkWorld None None) " T2"
              eq_refl) as (data' & Ed & Ok & Bad & _).
  - vm_compute. repeat constructor; simpl; intuition discriminate.
  - reflexivity.
  - exists data'. split; [exact Ed|]. split.
    + rewrite Ok. reflexivity.
    + rewrite (Bad "pw"); [reflexivity|discriminate].
Defined.

(** ** Navigation *)

(** X27: the tabs and the sections.  Every tab offered to a user opens
    the section it names, the section opened after signing in is one of
    the user's tabs, and no tab is marked active when the bar is built
    (the marking is left to [showSection]).  A user who is not an
    administrator is never shown the leaderboard: asking for it opens
    the points form. *)
Theorem tabs_open_their_sections (currentUser : User) :
  (forall btn, In btn (renderNavTabs (Some currentUser)) ->
     showSection (nb_section btn) (Some currentUser) = Some (nb_section btn) /\
     nb_active btn = false) /\
  In (firstSection currentUser) (map nb_section (renderNavTabs (Some currentUser))) /\
  showSection (firstSection currentUser) (Some currentUser)
    = Some (firstSection currentUser) /\
  (u_role currentUser <> "admin" ->
   forall sectionId, showSection sectionId (Some currentUser) <> Some "leaderboard").
Proof.
  unfold renderNavTabs, navTabs, firstSection, showSection.
  destruct (bool_decide (u_role currentUser = "admin")) eqn:R.
  - split; [|split; [|split]].
    + intros btn Hb. cbn in Hb.
      repeat (destruct Hb as [<-|Hb]; [split; reflexivity|]). destruct Hb.
    + cbn. tauto.
    + reflexivity.
    + apply bool_decide_eq_true in R. intros N. contradiction.
  - split; [|split; [|split]].
    + intros btn Hb. cbn in Hb.
      repeat (destruct Hb as [<-|Hb]; [split; reflexivity|]). destruct Hb.
    + cbn. tauto.
    + reflexivity.
    + intros _ sectionId. cbn [negb andb].
      destruct (bool_decide (sectionId = "leaderboard")) eqn:S; cbn [andb].
      * cbn. discriminate.
      * apply bool_decide_eq_false in S.
        destruct (existsb _ _); [|discriminate]. intros [= E]. contradiction.
Qed.

Lemma tabs_open_their_sections_witness :
  showSection "leaderboard" (Some gradeTwoTeacher) = Some "award" /\
  showSection "houses" (Some gradeTwoTeacher) <> Some "leaderboard".
Proof.
  split; [reflexivity|].
  destruct (tabs_open_their_sections gradeTwoTeacher) as (_ & _ & _ & H).
  apply H. discriminate.
Defined.
